(** * Mist_library scripts: admin inviter, gateway firmware reporter,
      gateway firmware backup trigger.

    A shallow embedding of the three scripts
      - [org_admins_import.py]                                  (module [AdminInviter])
      - [scripts/devices/gateways/report_gateway_firmware.py]   (module [Reporter])
      - [scripts/devices/gateways/fix_gateway_backup_firmware.py] (module [Trigger])
    over a small model of the Python values they handle (module [Py]).

    Conventions.
      - A Python [dict] is an association list in insertion order (the header
        computation of the reporter iterates over keys in that order).
      - A function that may raise returns a [result]; a script that may call
        [sys.exit] returns an [outcome].
      - Remote calls and the file system are not code of the scripts: they
        are Section variables.  So is [csv.DictReader] where only the rows
        it returns matter; where the text of the file does, it is the
        parser of Python's [csv] module ([Trigger.csv_DictReader]).
      - JSON numbers are integers here; floating point values are left out. *)

From Stdlib Require Import List String Ascii ZArith Bool Arith Lia DecimalString.
Import ListNotations.

Local Open Scope list_scope.

(* ================================================================== *)
(** * The Python values the scripts handle *)
(* ================================================================== *)

Module Py.

(** Exceptions the modelled code can raise. *)
Inductive exn : Type :=
| TypeError
| IndexError
| KeyError
| AttributeError
| ZeroDivisionError
| OSError
| CsvError
| ApiError
| AssertionError.

(** The result of an expression or statement that may raise. *)
Inductive result (A : Type) : Type :=
| Ok (a : A)
| Raise (e : exn).

Arguments Ok {A} a.
Arguments Raise {A} e.

Definition rbind {A B : Type} (m : result A) (k : A -> result B) : result B :=
  match m with
  | Ok a => k a
  | Raise e => Raise e
  end.

Notation "x <- m ;; k" := (rbind m (fun x => k))
  (at level 61, m at next level, right associativity).

Set Warnings "-register-all".

(** JSON-like values: what [response.data] holds and what ends up in a row. *)
Inductive value : Type :=
| VNone
| VBool (b : bool)
| VInt (z : Z)
| VStr (s : string)
| VList (l : list value)
| VDict (d : list (string * value)).

(** A dict, keys in insertion order. *)
Definition dict : Type := list (string * value).

(** [d[k]] when the key is there. *)
Fixpoint lookup (k : string) (d : dict) : option value :=
  match d with
  | [] => None
  | (k', v) :: d' => if String.eqb k k' then Some v else lookup k d'
  end.

(** [d.get(k, default)]. *)
Definition get_default (d : dict) (k : string) (default : value) : value :=
  match lookup k d with
  | Some v => v
  | None => default
  end.

(** [d.get(k)]: the default is [None]. *)
Definition get (d : dict) (k : string) : value := get_default d k VNone.

(** [k in d]. *)
Definition has_key (k : string) (d : dict) : bool :=
  match lookup k d with
  | Some _ => true
  | None => false
  end.

(** The keys of a dict, in iteration order. *)
Definition keys (d : dict) : list string := map fst d.

(** [bool(v)]: the truth value Python gives [v] in [if v:]. *)
Definition truthy (v : value) : bool :=
  match v with
  | VNone => false
  | VBool b => b
  | VInt z => negb (Z.eqb z 0)
  | VStr s => negb (String.eqb s EmptyString)
  | VList l => match l with [] => false | _ => true end
  | VDict d => match d with [] => false | _ => true end
  end.

(** [a == b].  A bool compares as the integer 0 or 1; lists compare
    element by element; dicts compare as maps (same size, and each key of the
    left one bound to an equal value in the right one). *)
Fixpoint py_eq (a b : value) : bool :=
  match a, b with
  | VNone, VNone => true
  | VBool x, VBool y => Bool.eqb x y
  | VBool x, VInt y => Z.eqb (Z.b2z x) y
  | VInt x, VBool y => Z.eqb x (Z.b2z y)
  | VInt x, VInt y => Z.eqb x y
  | VStr x, VStr y => String.eqb x y
  | VList xs, VList ys =>
      (fix eq_list (xs ys : list value) {struct xs} : bool :=
         match xs, ys with
         | [], [] => true
         | x :: xs', y :: ys' => py_eq x y && eq_list xs' ys'
         | _, _ => false
         end) xs ys
  | VDict xs, VDict ys =>
      Nat.eqb (List.length xs) (List.length ys) &&
      (fix eq_dict (xs : list (string * value)) {struct xs} : bool :=
         match xs with
         | [] => true
         | (k, v) :: xs' =>
             match lookup k ys with
             | Some w => py_eq v w
             | None => false
             end && eq_dict xs'
         end) xs
  | _, _ => false
  end.

(** [a != b]. *)
Definition py_ne (a b : value) : bool := negb (py_eq a b).

(** [v[0]]: the first element of a list, the first character of a string;
    a JSON dict has string keys only, so the integer key 0 is never found. *)
Definition index0 (v : value) : result value :=
  match v with
  | VList [] => Raise IndexError
  | VList (x :: _) => Ok x
  | VStr EmptyString => Raise IndexError
  | VStr (String c _) => Ok (VStr (String c EmptyString))
  | VDict _ => Raise KeyError
  | VNone | VBool _ | VInt _ => Raise TypeError
  end.

(** [m.get(k, default)] on an arbitrary value: only a dict has [get]. *)
Definition attr_get_default (m : value) (k : string) (default : value) : result value :=
  match m with
  | VDict d => Ok (get_default d k default)
  | _ => Raise AttributeError
  end.

Definition attr_get (m : value) (k : string) : result value :=
  attr_get_default m k VNone.

(** [needle in haystack] for two strings. *)
Fixpoint str_contains (needle haystack : string) : bool :=
  if String.prefix needle haystack then true
  else match haystack with
       | EmptyString => false
       | String _ rest => str_contains needle rest
       end.

(** [a < b] for two strings: lexicographic, by code point. *)
Definition str_lt (a b : string) : bool := String.ltb a b.

(** The characters with a meaning in the models below. *)
Definition LF : ascii := ascii_of_nat 10.
Definition CR : ascii := ascii_of_nat 13.
Definition DQUOTE : ascii := ascii_of_nat 34.
Definition COMMA : ascii := ascii_of_nat 44.
Definition HASH : ascii := ascii_of_nat 35.

(** [s.lower()] on the ASCII letters. *)
Definition lower_ascii (c : ascii) : ascii :=
  let n := nat_of_ascii c in
  if (65 <=? n) && (n <=? 90) then ascii_of_nat (n + 32) else c.

Fixpoint lower (s : string) : string :=
  match s with
  | EmptyString => EmptyString
  | String c r => String (lower_ascii c) (lower r)
  end.

(** [str(z)] for an integer. *)
Definition str_of_Z (z : Z) : string := NilZero.string_of_int (Z.to_int z).

(** How an f-string shows an optional string: [None] reads "None". *)
Definition fmt_opt (o : option string) : string :=
  match o with
  | Some s => s
  | None => "None"
  end.

End Py.

(* ================================================================== *)
(** * report_gateway_firmware.py *)
(* ================================================================== *)

Module Reporter.
Import Py.

Local Open Scope string_scope.

(** ** Rows *)

(** The dict literal of [_process_module]: the row of one module.  Every
    [module.get] raises [AttributeError] when [module] is not a dict. *)
Definition module_row
    (cluster_name cluster_version cluster_device_id cluster_site_id : value)
    (module : value) : result dict :=
  serial <- attr_get module "serial" ;;
  mac <- attr_get module "mac" ;;
  model <- attr_get module "model" ;;
  version <- attr_get module "version" ;;
  backup_version <- attr_get module "backup_version" ;;
  pending_version <- attr_get module "pending_version" ;;
  pending_or_empty <- attr_get_default module "pending_version" (VStr "") ;;
  Ok [("cluster_name", cluster_name);
      ("cluster_version", cluster_version);
      ("cluster_device_id", cluster_device_id);
      ("cluster_site_id", cluster_site_id);
      ("module_serial", serial);
      ("module_mac", mac);
      ("module_model", model);
      ("module_version", version);
      ("module_backup_version", backup_version);
      ("module_need_snapshot", VBool (py_ne version backup_version));
      ("module_pending_version", pending_version);
      ("module_need_reboot", VBool (py_ne pending_or_empty (VStr "")))].

(** [_process_module]: [data.append({...})]. *)
Definition _process_module
    (cluster_name cluster_version cluster_device_id cluster_site_id : value)
    (module : value) (data : list dict) : result (list dict) :=
  row <- module_row cluster_name cluster_version cluster_device_id
           cluster_site_id module ;;
  Ok (data ++ [row])%list.

(** The default of [cluster.get("module_stat", [{}])]. *)
Definition default_module_stat : value := VList [VDict []].

(** The body of the [for cluster in gateways] loop of [_process_gateways].
    The progress bar it redraws only writes to the terminal (and returns at
    once when the total is 0), so it is left out. *)
Definition process_cluster (cluster : dict) (data : list dict) : result (list dict) :=
  let cluster_name := get cluster "name" in
  let cluster_version := get cluster "version" in
  let cluster_device_id := get cluster "id" in
  let cluster_site_id := get cluster "site_id" in
  module <- index0 (get_default cluster "module_stat" default_module_stat) ;;
  data <- _process_module cluster_name cluster_version cluster_device_id
            cluster_site_id module data ;;
  if truthy (get cluster "module2_stat") then
    module2 <- index0 (get_default cluster "module2_stat" default_module_stat) ;;
    _process_module cluster_name cluster_version cluster_device_id
      cluster_site_id module2 data
  else Ok data.

Fixpoint process_clusters (gateways : list dict) (data : list dict)
  : result (list dict) :=
  match gateways with
  | [] => Ok data
  | cluster :: rest =>
      data' <- process_cluster cluster data ;;
      process_clusters rest data'
  end.

(** [_process_gateways(gateways)]. *)
Definition _process_gateways (gateways : list dict) : result (list dict) :=
  process_clusters gateways [].

(** ** Pagination *)

(** What the scripts read of a [mistapi] response: the page and the link to
    the next one. *)
Record APIResponse : Type := mkResponse {
  data : list dict;
  next : option string
}.

(** [if response.next]: a link that is there and not empty. *)
Definition has_next (response : APIResponse) : bool :=
  match next response with
  | Some url => negb (String.eqb url "")
  | None => false
  end.

Section Pagination.

(** [mistapi.get_next(apisession, response)] and the two listing calls. *)
Variable get_next : APIResponse -> APIResponse.
Variable listOrgDevicesStats : string -> APIResponse.
Variable listSiteDevicesStats : string -> APIResponse.

(** [while response.next: response = get_next(response);
    gateways = gateways + response.data].  [None]: the fuel ran out before
    the last page. *)
Fixpoint follow_pages (fuel : nat) (response : APIResponse) (gateways : list dict)
  : option (list dict) :=
  if has_next response then
    match fuel with
    | O => None
    | S fuel' =>
        let response' := get_next response in
        follow_pages fuel' response' (gateways ++ data response')%list
    end
  else Some gateways.

Definition _get_org_gateways (fuel : nat) (org_id : string) : option (list dict) :=
  let response := listOrgDevicesStats org_id in
  follow_pages fuel response (data response).

Definition _get_site_gateways (fuel : nat) (site_id : string) : option (list dict) :=
  let response := listSiteDevicesStats site_id in
  follow_pages fuel response (data response).

End Pagination.

(** ** The CSV report *)

(** [for key in entry: if not key in headers: headers.append(key)]. *)
Fixpoint add_keys (ks : list string) (headers : list string) : list string :=
  match ks with
  | [] => headers
  | key :: ks' =>
      add_keys ks'
        (if existsb (String.eqb key) headers then headers
         else (headers ++ [key])%list)
  end.

(** The header loop over [data]. *)
Fixpoint collect_headers (data : list dict) (headers : list string) : list string :=
  match data with
  | [] => headers
  | entry :: rest => collect_headers rest (add_keys (keys entry) headers)
  end.

(** [tmp]: the cells of one entry, [entry.get(header, "")] per header. *)
Definition row_cells (headers : list string) (entry : dict) : list value :=
  map (fun header => get_default entry header (VStr "")) headers.

Section CsvWriter.

(** [str(v)] for a list or a dict (Python's [repr] of containers). *)
Variable str_container : value -> string.

(** The text [csv.writer] gives a field: nothing for [None], a string as it
    is, [str(v)] for the rest. *)
Definition field_text (v : value) : string :=
  match v with
  | VNone => ""
  | VStr s => s
  | VBool true => "True"
  | VBool false => "False"
  | VInt z => str_of_Z z
  | VList _ | VDict _ => str_container v
  end.

(** The characters that make the writer quote a field (excel dialect,
    [QUOTE_MINIMAL]): delimiter, quote character and those of the line
    terminator. *)
Definition is_special (c : ascii) : bool :=
  Ascii.eqb c COMMA || Ascii.eqb c DQUOTE || Ascii.eqb c CR || Ascii.eqb c LF.

Fixpoint needs_quotes (s : string) : bool :=
  match s with
  | EmptyString => false
  | String c r => is_special c || needs_quotes r
  end.

(** Each quote character doubled. *)
Fixpoint double_quotes (s : string) : string :=
  match s with
  | EmptyString => EmptyString
  | String c r =>
      if Ascii.eqb c DQUOTE then String DQUOTE (String DQUOTE (double_quotes r))
      else String c (double_quotes r)
  end.

Definition quoted (s : string) : string :=
  String DQUOTE (double_quotes s ++ String DQUOTE EmptyString).

Definition write_field (v : value) : string :=
  let s := field_text v in
  if needs_quotes s then quoted s else s.

Definition CRLF : string := String CR (String LF EmptyString).

(** [csv_writer.writerow(row)]: the text of one record.  A record that would
    be empty (one field, with no text) is written as an empty quoted field. *)
Definition writerow (row : list value) : string :=
  let body := String.concat (String COMMA EmptyString) (map write_field row) in
  match row with
  | _ :: _ => if String.eqb body "" then quoted "" ++ CRLF else body ++ CRLF
  | [] => CRLF
  end.

(** The comment the report starts with. *)
Definition comment_text (scope scope_id : string) : string :=
  "#Gateways Firmware Backup for " ++ scope ++ " " ++ scope_id.

(** The [for entry in data] loop that writes the data records to [f]. *)
Fixpoint write_entries (headers : list string) (data : list dict) (f : string)
  : string :=
  match data with
  | [] => f
  | entry :: rest =>
      write_entries headers rest (f ++ writerow (row_cells headers entry))
  end.

(** [_save_as_csv(data, scope, scope_id, ...)]: the text of the file it
    writes.  The file's name (with its date or timestamp suffix) and the
    progress display are left out. *)
Definition _save_as_csv (data : list dict) (scope scope_id : string) : string :=
  let headers := collect_headers data [] in
  let f := "" in
  let f := f ++ writerow [VStr (comment_text scope scope_id)] in
  let f := f ++ writerow (map VStr headers) in
  write_entries headers data f.

End CsvWriter.

(** ** Vocabulary of the properties *)

(** A list that starts with a module record. *)
Definition is_module_list (v : value) : bool :=
  match v with
  | VList (VDict _ :: _) => true
  | _ => false
  end.

(** A device stat object the loop body can process: [module_stat] is absent
    or a list that starts with a module record, and [module2_stat] is falsy
    or such a list. *)
Definition well_formed_device (cluster : dict) : bool :=
  match lookup "module_stat" cluster with
  | None => true
  | Some v => is_module_list v
  end
  && (negb (truthy (get cluster "module2_stat"))
      || is_module_list (get cluster "module2_stat")).

Definition first_module (v : value) : value :=
  match v with
  | VList (m :: _) => m
  | _ => VDict []
  end.

(** The record of the primary module, an empty one when the device has no
    [module_stat]. *)
Definition primary_module (cluster : dict) : value :=
  first_module (get_default cluster "module_stat" default_module_stat).

Definition second_module (cluster : dict) : value :=
  first_module (get cluster "module2_stat").

Definition has_second_module (cluster : dict) : bool :=
  truthy (get cluster "module2_stat").

(** The row of a module of a device. *)
Definition cluster_row (cluster : dict) (module : value) : result dict :=
  module_row (get cluster "name") (get cluster "version") (get cluster "id")
    (get cluster "site_id") module.

(** The rows one device contributes: the row of its primary module, then the
    row of its second module when it has one. *)
Definition device_rows (cluster : dict) (rows : list dict) : Prop :=
  exists row1,
    cluster_row cluster (primary_module cluster) = Ok row1 /\
    if has_second_module cluster then
      exists row2,
        cluster_row cluster (second_module cluster) = Ok row2 /\
        rows = [row1; row2]
    else rows = [row1].

(** The row of a device for a module record with no field at all. *)
Definition row_without_module (cluster : dict) : dict :=
  [("cluster_name", get cluster "name");
   ("cluster_version", get cluster "version");
   ("cluster_device_id", get cluster "id");
   ("cluster_site_id", get cluster "site_id");
   ("module_serial", VNone);
   ("module_mac", VNone);
   ("module_model", VNone);
   ("module_version", VNone);
   ("module_backup_version", VNone);
   ("module_need_snapshot", VBool false);
   ("module_pending_version", VNone);
   ("module_need_reboot", VBool false)].

(** A value that is a string with at least one character. *)
Definition is_nonempty_string (v : value) : bool :=
  match v with
  | VStr s => negb (String.eqb s "")
  | _ => false
  end.

(** The keys of a list in the order in which each is first seen. *)
Fixpoint first_seen (ks : list string) : list string :=
  match ks with
  | [] => []
  | k :: rest => k :: filter (fun k' => negb (String.eqb k k')) (first_seen rest)
  end.

(** [pages_from get_next response pages]: the listing that starts at
    [response] has the pages [pages], each linked to the next one and the
    last one with no link. *)
Inductive pages_from (get_next : APIResponse -> APIResponse)
  : APIResponse -> list (list dict) -> Prop :=
| last_page response :
    has_next response = false ->
    pages_from get_next response [data response]
| linked_page response pages :
    has_next response = true ->
    pages_from get_next (get_next response) pages ->
    pages_from get_next response (data response :: pages).

(** The sum of the lengths of the pages. *)
Definition total_length (pages : list (list dict)) : nat :=
  list_sum (map (@List.length dict) pages).

(** ** Sample data *)

Definition sample_module : dict :=
  [("serial", VStr "CW0001"); ("mac", VStr "aabbcc000001");
   ("model", VStr "SRX320"); ("version", VStr "21.4R3");
   ("backup_version", VStr "20.4R1"); ("pending_version", VStr "")].

Definition sample_module2 : dict :=
  [("serial", VStr "CW0002"); ("mac", VStr "aabbcc000002");
   ("model", VStr "SRX320"); ("version", VStr "21.4R3");
   ("backup_version", VStr "21.4R3"); ("pending_version", VStr "22.1R1")].

(** A standalone gateway, and a cluster with a second module. *)
Definition sample_gateways : list dict :=
  [[("name", VStr "gw-1"); ("version", VStr "21.4R3"); ("id", VStr "dev-1");
    ("site_id", VStr "site-1"); ("module_stat", VList [VDict sample_module])];
   [("name", VStr "gw-2"); ("version", VStr "21.4R3"); ("id", VStr "dev-2");
    ("site_id", VStr "site-1"); ("module_stat", VList [VDict sample_module]);
    ("module2_stat", VList [VDict sample_module2])]].

(** A module record whose pending version is the JSON [null]. *)
Definition module_with_null_pending : dict :=
  [("serial", VStr "CW0003"); ("model", VStr "SRX320");
   ("version", VStr "21.4R3"); ("backup_version", VStr "21.4R3");
   ("pending_version", VNone)].

(** A device with no [module_stat] key and a (record with no field as)
    second module. *)
Definition device_with_only_module2 : dict :=
  [("name", VStr "gw-3"); ("id", VStr "dev-3"); ("site_id", VStr "site-1");
   ("module2_stat", VList [VDict []])].

(** A device with no [module_stat] key and no second module. *)
Definition device_without_modules : dict :=
  [("name", VStr "gw-4"); ("id", VStr "dev-4"); ("site_id", VStr "site-1")].

(** A device whose [module_stat] is an empty list. *)
Definition device_with_empty_module_stat : dict :=
  [("name", VStr "gw-5"); ("id", VStr "dev-5"); ("site_id", VStr "site-1");
   ("module_stat", VList [])].

(** A listing of three pages, linked by their [next] field. *)
Definition device (name : string) : dict := [("name", VStr name)].

Definition sample_first_page : APIResponse :=
  mkResponse [device "gw-1"; device "gw-2"] (Some "page-2").

Definition sample_get_next (response : APIResponse) : APIResponse :=
  match next response with
  | Some "page-2" => mkResponse [device "gw-3"] (Some "page-3")
  | Some "page-3" => mkResponse [device "gw-4"; device "gw-5"] None
  | _ => mkResponse [] None
  end.

Definition sample_pages : list (list dict) :=
  [[device "gw-1"; device "gw-2"]; [device "gw-3"];
   [device "gw-4"; device "gw-5"]].

(** The text of a file made of the given records. *)
Definition text_of (records : list string) : string :=
  fold_right String.append "" records.

(** The cell of an entry under a header. *)
Definition cell (entry : dict) (header : string) : value :=
  match lookup header entry with
  | Some v => v
  | None => VStr ""
  end.

(** Two data rows with different keys. *)
Definition sample_rows : list dict :=
  [[("cluster_name", VStr "gw-1"); ("module_need_snapshot", VBool true)];
   [("cluster_name", VStr "gw-2"); ("module_serial", VNone);
    ("module_need_snapshot", VBool false)]].

(** ** More vocabulary *)

(** The keys of a row of the report, in the order of the dict literal of
    [_process_module]. *)
Definition REPORT_COLUMNS : list string :=
  ["cluster_name"; "cluster_version"; "cluster_device_id"; "cluster_site_id";
   "module_serial"; "module_mac"; "module_model"; "module_version";
   "module_backup_version"; "module_need_snapshot"; "module_pending_version";
   "module_need_reboot"].

(** The text holds a line break. *)
Fixpoint has_break (s : string) : bool :=
  match s with
  | EmptyString => false
  | String c r => Ascii.eqb c CR || Ascii.eqb c LF || has_break r
  end.

(** A service that answers every request for the next page with the same
    page, which links to itself. *)
Definition looping_page : APIResponse :=
  mkResponse [device "gw-1"] (Some "page-1").

(** ** The name of the report file *)

(** [s.replace(old, new)] for a non-empty [old]: every occurrence of [old],
    taken from the left and without overlap, becomes [new].  [skip] counts
    the characters of an occurrence that are still to be passed over. *)
Fixpoint replace_from (old new s : string) (skip : nat) : string :=
  match s with
  | EmptyString => EmptyString
  | String c rest =>
      match skip with
      | S skip' => replace_from old new rest skip'
      | O =>
          if String.prefix old s then
            new ++ replace_from old new rest (String.length old - 1)
          else String c (replace_from old new rest 0)
      end
  end.

Definition str_replace (old new s : string) : string := replace_from old new s 0.

(** [s.split('.')[0]]: the text before the first dot. *)
Fixpoint before_first_dot (s : string) : string :=
  match s with
  | EmptyString => EmptyString
  | String c rest =>
      if Ascii.eqb c (ascii_of_nat 46) then EmptyString
      else String c (before_first_dot rest)
  end.

(** The name [_save_as_csv] gives the file.  [now_iso] is the text of
    [datetime.isoformat(datetime.now())], [now_ts] the rounded timestamp of
    the same clock. *)
Definition report_file_name (csv_file : string) (append_dt append_ts : bool)
    (now_iso : string) (now_ts : Z) : string :=
  if append_dt then
    let dt := str_replace ":" "." (before_first_dot now_iso) in
    str_replace ".csv" ("_" ++ dt) csv_file ++ ".csv"
  else if append_ts then
    let ts := str_of_Z now_ts in
    str_replace ".csv" ("_" ++ ts) csv_file ++ ".csv"
  else csv_file.

(** The suffix a date or a timestamp gives: empty when none is asked for. *)
Definition name_suffix (append_dt append_ts : bool) (now_iso : string)
    (now_ts : Z) : string :=
  if append_dt then "_" ++ str_replace ":" "." (before_first_dot now_iso)
  else if append_ts then "_" ++ str_of_Z now_ts
  else "".

(** ** The menu *)

(** How [_show_menu] ends: with an entry of the menu, with [sys.exit], or
    with the [EOFError] of [input] when there is no answer left to read. *)
Inductive menu_result : Type :=
| Chosen (entry : string)
| MenuExit (code : Z)
| MenuEOF.

Definition NOT_A_NUMBER : string :=
  "Please enter a number" ++ String CR (String LF " ").

Definition out_of_range (i : nat) : string :=
  "Please enter a number between 0 and " ++ str_of_Z (Z.of_nat i - 1) ++ ".".

Section Menu.

(** [int(resp)]: [None] when it raises [ValueError]. *)
Variable py_int : string -> option Z.

(** [_show_menu(header, menu)] reading the answers [answers] from the
    terminal: what it ends with, the answers it leaves unread, and the
    messages it sent to [console.error].  What it prints is left out. *)
Fixpoint _show_menu (menu : list string) (answers : list string)
    (errors : list string) : menu_result * list string * list string :=
  match answers with
  | [] => (MenuEOF, [], errors)
  | resp :: rest =>
      if String.eqb (lower resp) "q" then (MenuExit 0, rest, errors)
      else
        match py_int resp with
        | None => _show_menu menu rest (errors ++ [NOT_A_NUMBER])%list
        | Some n =>
            let i := List.length menu in
            if (n <? 0)%Z || (n >=? Z.of_nat i)%Z then
              _show_menu menu rest (errors ++ [out_of_range i])%list
            else
              match nth_error menu (Z.to_nat n) with
              | Some entry => (Chosen entry, rest, errors)
              | None => _show_menu menu rest (errors ++ [NOT_A_NUMBER])%list
              end
        end
  end.

(** An answer the menu does not take: not "q", and no number of an entry. *)
Definition is_rejected (menu : list string) (resp : string) : Prop :=
  lower resp <> "q" /\
  match py_int resp with
  | None => True
  | Some n => (n < 0)%Z \/ (Z.of_nat (List.length menu) <= n)%Z
  end.

End Menu.

(** ** The options of the entry point *)

(** What the option loop sets. *)
Record report_options : Type := mkReportOptions {
  SCOPE : option string;
  SCOPE_ID : option string;
  APPEND_DT : bool;
  APPEND_TS : bool;
  OUT_FILE : string
}.

(** How the option loop ends: with the options, with [usage(error_message)]
    (which exits with code 0), or with the failed [assert]. *)
Inductive parse_result : Type :=
| Parsed (cfg : report_options)
| Usage (error_message : option string)
| Unhandled.

Definition EXCLUSIVE_SCOPES : string :=
  "Invalid Parameters: " ++ String DQUOTE "-o" ++ String DQUOTE "/"
  ++ String DQUOTE "--org_id" ++ String DQUOTE " and " ++ String DQUOTE "-s"
  ++ String DQUOTE "/" ++ String DQUOTE "--site_id" ++ String DQUOTE " are exclusive".

Definition EXCLUSIVE_SUFFIXES : string :=
  "Invalid Parameters: " ++ String DQUOTE "-d" ++ String DQUOTE "/"
  ++ String DQUOTE "--date" ++ String DQUOTE " and " ++ String DQUOTE "-t"
  ++ String DQUOTE "/" ++ String DQUOTE "--timestamp" ++ String DQUOTE " are exclusive".

Definition one_of (o : string) (names : list string) : bool :=
  existsb (String.eqb o) names.

(** [if SCOPE:]. *)
Definition scope_is_set (cfg : report_options) : bool :=
  match SCOPE cfg with
  | Some s => negb (String.eqb s "")
  | None => false
  end.

(** [for o, a in opts: ...] of the entry point. *)
Fixpoint parse_report_opts (opts : list (string * string)) (cfg : report_options)
  : parse_result :=
  match opts with
  | [] => Parsed cfg
  | (o, a) :: rest =>
      if one_of o ["-h"; "--help"] then Usage None
      else if one_of o ["-o"; "--org_id"] then
        if scope_is_set cfg then Usage (Some EXCLUSIVE_SCOPES)
        else parse_report_opts rest
               (mkReportOptions (Some "org") (Some a) (APPEND_DT cfg)
                  (APPEND_TS cfg) (OUT_FILE cfg))
      else if one_of o ["-s"; "--site_id"] then
        if scope_is_set cfg then Usage (Some EXCLUSIVE_SCOPES)
        else parse_report_opts rest
               (mkReportOptions (Some "site") (Some a) (APPEND_DT cfg)
                  (APPEND_TS cfg) (OUT_FILE cfg))
      else if one_of o ["-d"; "--datetime"] then
        if APPEND_TS cfg then Usage (Some EXCLUSIVE_SUFFIXES)
        else parse_report_opts rest
               (mkReportOptions (SCOPE cfg) (SCOPE_ID cfg) true
                  (APPEND_TS cfg) (OUT_FILE cfg))
      else if one_of o ["-t"; "--timestamp"] then
        if APPEND_DT cfg then Usage (Some EXCLUSIVE_SUFFIXES)
        else parse_report_opts rest
               (mkReportOptions (SCOPE cfg) (SCOPE_ID cfg) (APPEND_DT cfg)
                  true (OUT_FILE cfg))
      else if one_of o ["-f"; "--out_file"] then
        parse_report_opts rest
          (mkReportOptions (SCOPE cfg) (SCOPE_ID cfg) (APPEND_DT cfg)
             (APPEND_TS cfg) a)
      else if one_of o ["-e"; "--env"] then parse_report_opts rest cfg
      else if one_of o ["-l"; "--log_file"] then parse_report_opts rest cfg
      else Unhandled
  end.

Definition REPORT_FILE : string := "./report_gateway_firmware.csv".

(** The values the entry point starts the loop with. *)
Definition initial_options : report_options :=
  mkReportOptions None None false false REPORT_FILE.

(** The option sets a scope. *)
Definition is_scope_option (o : string) : bool :=
  one_of o ["-o"; "--org_id"] || one_of o ["-s"; "--site_id"].

Definition scope_options (opts : list (string * string)) : nat :=
  List.length (filter (fun option => is_scope_option (fst option)) opts).

(** ** The run *)

(** How [_start] ends: with [sys.exit] or [EOFError] in the menu, with an
    exception, with a pagination loop still running when the fuel is spent,
    or normally, having written a file (its name and its text) or none. *)
Inductive report_run : Type :=
| RunExits (code : Z)
| RunEOF
| RunRaises (e : exn)
| RunOutOfFuel
| RunDone (saved : option (string * string)).

Section Start.

Variable py_int : string -> option Z.

(** What [mistapi.cli.select_org] and [mistapi.cli.select_site] return. *)
Variable select_org : list string.
Variable select_site : list string.

Variable get_next : APIResponse -> APIResponse.
Variable listOrgDevicesStats : string -> APIResponse.
Variable listSiteDevicesStats : string -> APIResponse.
Variable str_container : value -> string.

(** The clock. *)
Variable now_iso : string.
Variable now_ts : Z.

(** [select(...)[0]]. *)
Definition first_id (ids : list string) : result string :=
  match ids with
  | id :: _ => Ok id
  | [] => Raise IndexError
  end.

(** The part of [_start] after the scope is known: list, process, save. *)
Definition report_scope (fuel : nat) (scope scope_id csv_file : string)
    (append_dt append_ts : bool) : report_run :=
  let listed :=
    if String.eqb scope "org" then
      _get_org_gateways get_next listOrgDevicesStats fuel scope_id
    else if String.eqb scope "site" then
      _get_site_gateways get_next listSiteDevicesStats fuel scope_id
    else Some [] in
  match listed with
  | None => RunOutOfFuel
  | Some [] => RunDone None
  | Some (cluster :: gateways) =>
      match _process_gateways (cluster :: gateways) with
      | Raise e => RunRaises e
      | Ok [] => RunDone None
      | Ok (row :: data) =>
          RunDone
            (Some (report_file_name csv_file append_dt append_ts now_iso now_ts,
                   _save_as_csv str_container (row :: data) scope scope_id))
      end
  end.

(** [_start(apisession, scope, scope_id, csv_file, append_dt, append_ts)],
    the answers [answers] being those typed at the menu.  Without a scope
    the menu asks for one, and the id is the first that the selection
    returns. *)
Definition _start (fuel : nat) (scope : option string) (scope_id : string)
    (csv_file : string) (append_dt append_ts : bool) (answers : list string)
  : report_run :=
  match scope with
  | Some (String c s) =>
      report_scope fuel (String c s) scope_id csv_file append_dt append_ts
  | _ =>
      match _show_menu py_int ["org"; "site"] answers [] with
      | (MenuExit code, _, _) => RunExits code
      | (MenuEOF, _, _) => RunEOF
      | (Chosen scope, _, _) =>
          if String.eqb scope "org" then
            match first_id select_org with
            | Raise e => RunRaises e
            | Ok id => report_scope fuel scope id csv_file append_dt append_ts
            end
          else if String.eqb scope "site" then
            match first_id select_site with
            | Raise e => RunRaises e
            | Ok id => report_scope fuel scope id csv_file append_dt append_ts
            end
          else report_scope fuel scope scope_id csv_file append_dt append_ts
      end
  end.

End Start.

(** ** Vocabulary of the options *)

(** Options the entry point can start the run with: not both suffixes, and
    a scope, "org" or "site", exactly together with its id. *)
Definition options_consistent (cfg : report_options) : Prop :=
  APPEND_DT cfg && APPEND_TS cfg = false /\
  ((SCOPE cfg = None /\ SCOPE_ID cfg = None) \/
   exists a,
     (SCOPE cfg = Some "org" \/ SCOPE cfg = Some "site") /\ SCOPE_ID cfg = Some a).

Definition is_help_option (o : string) : bool := one_of o ["-h"; "--help"].

(** One row, whose name holds a line break. *)
Definition line_break_rows : list dict :=
  [[("cluster_name", VStr ("gw" ++ String LF "1"))]].

(** The text of a field as [csv.writer] writes it. *)
Definition written (s : string) : string :=
  if needs_quotes s then quoted s else s.

(** Two gateways to back up: the name of the first holds a comma, the name
    of the second starts with "#". *)
Definition gateways_to_back_up : list dict :=
  [[("cluster_name", VStr "gw, east"); ("cluster_device_id", VStr "dev-1");
    ("cluster_site_id", VStr "site-1"); ("module_model", VStr "SRX320");
    ("module_need_snapshot", VBool true)];
   [("cluster_name", VStr "#gw"); ("cluster_device_id", VStr "dev-2");
    ("cluster_site_id", VStr "site-1"); ("module_model", VStr "SRX320");
    ("module_need_snapshot", VBool true)]].

End Reporter.

(* ================================================================== *)
(** * fix_gateway_backup_firmware.py *)
(* ================================================================== *)

Module Trigger.
Import Py.

Local Open Scope string_scope.

(** ** Report rows as [csv.DictReader] yields them *)

(** A row: each field name of the header bound to the text of its cell, or
    to [None] when the record is shorter than the header. *)
Definition csv_row : Type := list (string * option string).

(** [row.get(k)]. *)
Fixpoint row_get (row : csv_row) (k : string) : option string :=
  match row with
  | [] => None
  | (k', v) :: row' => if String.eqb k k' then v else row_get row' k
  end.

(** [bool(x)] for a string or [None]. *)
Definition opt_truthy (x : option string) : bool :=
  match x with
  | Some s => negb (String.eqb s "")
  | None => false
  end.

(** [x == y] for strings or [None]. *)
Definition opt_eqb (x y : option string) : bool :=
  match x, y with
  | Some a, Some b => String.eqb a b
  | None, None => true
  | _, _ => false
  end.

(** [x in device_ids]. *)
Definition opt_in (x : option string) (l : list (option string)) : bool :=
  existsb (opt_eqb x) l.

(** ** Reading a file line by line *)

(** The lines of a file opened with [newline='']: a line ends after "\n",
    "\r" or "\r\n", and keeps its ending.  [cur] is the line being read. *)
Fixpoint file_lines (s : string) (cur : string) : list string :=
  match s with
  | EmptyString => if String.eqb cur "" then [] else [cur]
  | String c rest =>
      if Ascii.eqb c LF then
        (cur ++ String LF EmptyString) :: file_lines rest ""
      else if Ascii.eqb c CR then
        match rest with
        | String c2 rest2 =>
            if Ascii.eqb c2 LF then
              (cur ++ String CR (String LF EmptyString)) :: file_lines rest2 ""
            else (cur ++ String CR EmptyString) :: file_lines rest ""
        | EmptyString => [cur ++ String CR EmptyString]
        end
      else file_lines rest (cur ++ String c EmptyString)
  end.

(** [lambda row: row[0] != '#']. *)
Definition not_comment (row : string) : result bool :=
  match row with
  | EmptyString => Raise IndexError
  | String c _ => Ok (negb (Ascii.eqb c HASH))
  end.

(** [filter(lambda row: row[0] != '#', f)]. *)
Fixpoint skip_comments (lines : list string) : result (list string) :=
  match lines with
  | [] => Ok []
  | l :: rest =>
      keep <- not_comment l ;;
      kept <- skip_comments rest ;;
      Ok (if keep then l :: kept else kept)
  end.

(** ** [csv.reader] and [csv.DictReader] *)

(** The parser of [csv.reader] for the default dialect (excel: the comma as
    delimiter, the double quote as quote character, written twice inside a
    quoted field, no escape character, not strict), as the [_csv] module of
    CPython implements it (version 3.11 and later; the earlier ones raise on
    a line that holds a NUL character).  These are the states it reaches
    with no escape character. *)
Inductive parser_state : Type :=
| START_RECORD
| START_FIELD
| IN_FIELD
| IN_QUOTED_FIELD
| QUOTE_IN_QUOTED_FIELD
| EAT_CRNL.

(** The parser: its state, the field being read, and the fields of the
    record read so far. *)
Record parser : Type := mkParser {
  p_state : parser_state;
  p_field : string;
  p_fields : list string
}.

(** [csv.field_size_limit()], which the scripts leave at its default. *)
Definition FIELD_LIMIT : N := 131072.

Definition parse_reset : parser := mkParser START_RECORD "" [].

Definition set_state (p : parser) (s : parser_state) : parser :=
  mkParser s (p_field p) (p_fields p).

Definition parse_save_field (p : parser) : parser :=
  mkParser (p_state p) "" (p_fields p ++ [p_field p])%list.

Definition parse_add_char (p : parser) (c : ascii) : result parser :=
  if (FIELD_LIMIT <=? N.of_nat (String.length (p_field p)))%N then Raise CsvError
  else Ok (mkParser (p_state p) (p_field p ++ String c EmptyString) (p_fields p)).

Definition is_newline (c : ascii) : bool := Ascii.eqb c LF || Ascii.eqb c CR.

(** The case [START_FIELD] of [parse_process_char]. *)
Definition start_field (p : parser) (c : option ascii) : result parser :=
  match c with
  | None => Ok (set_state (parse_save_field p) START_RECORD)
  | Some ch =>
      if is_newline ch then Ok (set_state (parse_save_field p) EAT_CRNL)
      else if Ascii.eqb ch DQUOTE then Ok (set_state p IN_QUOTED_FIELD)
      else if Ascii.eqb ch COMMA then Ok (parse_save_field p)
      else p' <- parse_add_char p ch ;; Ok (set_state p' IN_FIELD)
  end.

(** [parse_process_char]: one character of a line, or the end of the line
    ([None]). *)
Definition parse_process_char (p : parser) (c : option ascii) : result parser :=
  match p_state p with
  | START_RECORD =>
      match c with
      | None => Ok p
      | Some ch =>
          if is_newline ch then Ok (set_state p EAT_CRNL)
          else start_field (set_state p START_FIELD) c
      end
  | START_FIELD => start_field p c
  | IN_FIELD =>
      match c with
      | None => Ok (set_state (parse_save_field p) START_RECORD)
      | Some ch =>
          if is_newline ch then Ok (set_state (parse_save_field p) EAT_CRNL)
          else if Ascii.eqb ch COMMA then Ok (set_state (parse_save_field p) START_FIELD)
          else parse_add_char p ch
      end
  | IN_QUOTED_FIELD =>
      match c with
      | None => Ok p
      | Some ch =>
          if Ascii.eqb ch DQUOTE then Ok (set_state p QUOTE_IN_QUOTED_FIELD)
          else parse_add_char p ch
      end
  | QUOTE_IN_QUOTED_FIELD =>
      match c with
      | None => Ok (set_state (parse_save_field p) START_RECORD)
      | Some ch =>
          if Ascii.eqb ch DQUOTE then
            p' <- parse_add_char p ch ;; Ok (set_state p' IN_QUOTED_FIELD)
          else if Ascii.eqb ch COMMA then
            Ok (set_state (parse_save_field p) START_FIELD)
          else if is_newline ch then Ok (set_state (parse_save_field p) EAT_CRNL)
          else p' <- parse_add_char p ch ;; Ok (set_state p' IN_FIELD)
      end
  | EAT_CRNL =>
      match c with
      | None => Ok (set_state p START_RECORD)
      | Some ch => if is_newline ch then Ok p else Raise CsvError
      end
  end.

(** The characters of one line, then its end. *)
Fixpoint parse_line (p : parser) (line : string) : result parser :=
  match line with
  | EmptyString => parse_process_char p None
  | String c rest =>
      p' <- parse_process_char p (Some c) ;;
      parse_line p' rest
  end.

Definition in_quoted_field (p : parser) : bool :=
  match p_state p with
  | IN_QUOTED_FIELD => true
  | _ => false
  end.

(** The records [csv.reader] yields from [lines], [p] being the parser
    inside the record that is being read: a record ends with the line that
    brings the parser back to [START_RECORD]; when the lines run out inside
    a quoted field, what was read of it ends the last record. *)
Fixpoint csv_reader (lines : list string) (p : parser) : result (list (list string)) :=
  match lines with
  | [] =>
      if negb (String.eqb (p_field p) "") || in_quoted_field p then
        Ok [p_fields (parse_save_field p)]
      else Ok []
  | line :: rest =>
      p' <- parse_line p line ;;
      match p_state p' with
      | START_RECORD =>
          records <- csv_reader rest parse_reset ;;
          Ok (p_fields p' :: records)
      | _ => csv_reader rest p'
      end
  end.

(** [d[k] = v] on a row. *)
Fixpoint row_set (row : csv_row) (k : string) (v : option string) : csv_row :=
  match row with
  | [] => [(k, v)]
  | (k', v') :: rest =>
      if String.eqb k k' then (k', v) :: rest else (k', v') :: row_set rest k v
  end.

(** The dict [csv.DictReader] makes of a record: [dict(zip(fieldnames,
    row))], then [None] under the field names the record does not reach.
    The cells beyond the last field name, which [DictReader] puts in a list
    under the key [None], are left out: the script reads a row with [get]
    on field names only. *)
Fixpoint dict_row (fieldnames : list string) (record : list string) (d : csv_row)
  : csv_row :=
  match fieldnames with
  | [] => d
  | k :: fieldnames' =>
      match record with
      | v :: record' => dict_row fieldnames' record' (row_set d k (Some v))
      | [] => dict_row fieldnames' [] (row_set d k None)
      end
  end.

Definition is_empty_record (record : list string) : bool :=
  match record with
  | [] => true
  | _ :: _ => false
  end.

(** [csv.DictReader(lines)], read to its end: the first record gives the
    field names, and the records with no field at all (blank lines) are
    passed over. *)
Definition csv_DictReader (lines : list string) : result (list csv_row) :=
  records <- csv_reader lines parse_reset ;;
  match records with
  | [] => Ok []
  | fieldnames :: records =>
      Ok (map (fun record => dict_row fieldnames record [])
            (filter (fun record => negb (is_empty_record record)) records))
  end.

(** ** The filter of [_read_csv] *)

(** The [for row in reader] loop with its two accumulators. *)
Fixpoint read_rows (site_id : option string) (rows : list csv_row)
    (data : list csv_row) (device_ids : list (option string))
  : result (list csv_row) :=
  match rows with
  | [] => Ok data
  | row :: rest =>
      match row_get row "module_model" with
      | None => Raise TypeError
      | Some model =>
          if negb (str_contains "SRX" model) then
            read_rows site_id rest data device_ids
          else if opt_truthy site_id
                  && negb (opt_eqb (row_get row "cluster_site_id") site_id) then
            read_rows site_id rest data device_ids
          else if negb (opt_eqb (row_get row "module_need_snapshot") (Some "True")) then
            read_rows site_id rest data device_ids
          else if opt_in (row_get row "cluster_device_id") device_ids then
            read_rows site_id rest data device_ids
          else
            read_rows site_id rest (data ++ [row])%list
              (device_ids ++ [row_get row "cluster_device_id"])%list
      end
  end.

(** ** Effects: progress bar, log, exits *)

(** What a run does that can be observed.  [EvLogMessage], [EvLogSuccess]
    and [EvLogFailure] stand for a call of [PB.log_message], [PB.log_success]
    and [PB.log_failure] (the line in the log file and the step shown on the
    terminal); the bar that [_pb_update] draws is not recorded.  [EvUsage],
    [EvMistapiMissing] and [EvVersionTooOld] stand for the texts that
    [usage], the failed import and [check_mistapi_version] print,
    [EvGetoptError] for [CONSOLE.error(err)], [EvLogin] for the creation of
    the session and its login. *)
Inductive event : Type :=
| EvLogMessage (message : string)
| EvLogSuccess (message : string)
| EvLogFailure (message : string)
| EvLoggerError
| EvLoggerInfo
| EvLoggerCritical
| EvConsoleError (message : string)
| EvConsoleInfo (message : string)
| EvPrint (text : string)
| EvPrettyPrint (data : list csv_row)
| EvInput (prompt : string)
| EvUsage
| EvMistapiMissing
| EvVersionTooOld (required current : string)
| EvGetoptError
| EvLogin
| EvSnapshot (site_id device_id : string).

(** The state a run threads: the counters of the [ProgressBar] singleton
    [PB], the number of snapshot calls issued, and the events so far. *)
Record state : Type := mkState {
  steps_total : nat;
  steps_count : nat;
  api_calls : nat;
  trace : list event
}.

Definition initial_state : state := mkState 0 0 0 [].

(** How a piece of the script ends. *)
Inductive outcome (A : Type) : Type :=
| Returns (a : A)
| Raises (e : exn)
| Exits (code : Z).

Arguments Returns {A} a.
Arguments Raises {A} e.
Arguments Exits {A} code.

Definition M (A : Type) : Type := state -> outcome A * state.

Definition ret {A : Type} (a : A) : M A := fun st => (Returns a, st).

Definition bind {A B : Type} (m : M A) (k : A -> M B) : M B :=
  fun st =>
    match m st with
    | (Returns a, st') => k a st'
    | (Raises e, st') => (Raises e, st')
    | (Exits c, st') => (Exits c, st')
    end.

Notation "x <~ m ;; k" := (bind m (fun x => k))
  (at level 61, m at next level, right associativity).
Notation "m ;;; k" := (bind m (fun _ => k))
  (at level 61, right associativity).

Definition raise {A : Type} (e : exn) : M A := fun st => (Raises e, st).

(** [sys.exit(code)]. *)
Definition sys_exit {A : Type} (code : Z) : M A := fun st => (Exits code, st).

Definition emit (e : event) : M unit :=
  fun st =>
    (Returns tt,
     mkState (steps_total st) (steps_count st) (api_calls st) (trace st ++ [e])%list).

Definition lift {A : Type} (r : result A) : M A :=
  match r with
  | Ok a => ret a
  | Raise e => raise e
  end.

(** [try: body / except: handler].  A bare [except] also catches the
    [SystemExit] of [sys.exit]. *)
Definition try_except {A : Type} (body handler : M A) : M A :=
  fun st =>
    match body st with
    | (Returns a, st') => (Returns a, st')
    | (Raises _, st') => handler st'
    | (Exits _, st') => handler st'
    end.

Fixpoint for_each {A : Type} (body : A -> M unit) (l : list A) : M unit :=
  match l with
  | [] => ret tt
  | x :: rest => body x ;;; for_each body rest
  end.

(** *** [ProgressBar] *)

Definition set_steps_total (n : nat) : M unit :=
  fun st => (Returns tt, mkState n (steps_count st) (api_calls st) (trace st)).

(** [_pb_update]: clamps the count, then divides it by the total to draw
    the bar. *)
Definition _pb_update : M unit :=
  fun st =>
    let count :=
      if Nat.ltb (steps_total st) (steps_count st) then steps_total st
      else steps_count st in
    let st' := mkState (steps_total st) count (api_calls st) (trace st) in
    if Nat.eqb (steps_total st) 0 then (Raises ZeroDivisionError, st')
    else (Returns tt, st').

Definition _pb_new_step (inc display_pbar : bool) : M unit :=
  (fun st =>
     (Returns tt,
      mkState (steps_total st)
        (if inc then steps_count st + 1 else steps_count st)
        (api_calls st) (trace st))) ;;;
  if display_pbar then _pb_update else ret tt.

Definition log_message (message : string) (display_pbar : bool) : M unit :=
  emit (EvLogMessage message) ;;; _pb_new_step false display_pbar.

Definition log_success (message : string) (inc display_pbar : bool) : M unit :=
  emit (EvLogSuccess message) ;;; _pb_new_step inc display_pbar.

Definition log_failure (message : string) (inc display_pbar : bool) : M unit :=
  emit (EvLogFailure message) ;;; _pb_new_step inc display_pbar.

(** ** The script's functions *)

(** What [createSiteDeviceSnapshot] does: raises, or returns a response with
    a status code. *)
Inductive api_result : Type :=
| ApiRaises
| ApiStatus (status_code : Z).

Definition MISTAPI_MIN_VERSION : string := "0.53.0".
Definition CSV_FILE : string := "./report_gateway_firmware.csv".

Section Script.

(** The remote service: the result of the snapshot call number [n] of the
    run (counted from 0), for a site id and a device id. *)
Variable createSiteDeviceSnapshot : nat -> string -> string -> api_result.

(** The file system: the text of the file at a path, when it opens. *)
Variable read_file : string -> option string.

(** [csv.DictReader] over the lines it is given. *)
Variable DictReader : list string -> result (list csv_row).

(** What the user answers at the prompt. *)
Variable answer : string.

Definition call_snapshot (site_id device_id : string) : M Z :=
  fun st =>
    let st' :=
      mkState (steps_total st) (steps_count st) (S (api_calls st))
        (trace st ++ [EvSnapshot site_id device_id])%list in
    match createSiteDeviceSnapshot (api_calls st) site_id device_id with
    | ApiRaises => (Raises ApiError, st')
    | ApiStatus code => (Returns code, st')
    end.

(** The body of the loop of [_process_gateways]. *)
Definition process_gateway (gateway : csv_row) : M unit :=
  let site_id := row_get gateway "cluster_site_id" in
  let device_id := row_get gateway "cluster_device_id" in
  let device_mac := row_get gateway "module_mac" in
  let message := "Processing device " ++ fmt_opt device_id in
  log_message message true ;;;
  if negb (opt_truthy site_id) then
    log_failure message true true ;;;
    emit (EvConsoleError ("Missing site_id for device " ++ fmt_opt device_mac))
  else if negb (opt_truthy device_id) then
    log_failure message true true ;;;
    emit (EvConsoleError ("Missing device_id for device " ++ fmt_opt device_mac))
  else
    try_except
      (status_code <~ call_snapshot (fmt_opt site_id) (fmt_opt device_id) ;;
       if Z.eqb status_code 200 then log_success message true true
       else log_failure message true true)
      (log_failure message true true ;;; emit EvLoggerError).

(** [_process_gateways(apisession, gateways)]. *)
Definition _process_gateways (gateways : list csv_row) : M unit :=
  set_steps_total (List.length gateways) ;;;
  for_each process_gateway gateways.

(** What the [with open(...)] block of [_read_csv] computes. *)
Definition read_report (csv_file : string) (site_id : option string)
  : result (list csv_row) :=
  match read_file csv_file with
  | None => Raise OSError
  | Some text =>
      lines <- skip_comments (file_lines text "") ;;
      rows <- DictReader lines ;;
      read_rows site_id rows [] []
  end.

(** [_read_csv(csv_file, site_id)]. *)
Definition _read_csv (csv_file : string) (site_id : option string)
  : M (list csv_row) :=
  let message := "Reading CSV Report" in
  log_message message false ;;;
  try_except
    (data <~ lift (read_report csv_file site_id) ;;
     log_success message false false ;;;
     ret data)
    (log_failure message false false ;;;
     emit EvLoggerError ;;;
     sys_exit 1).

(** [_request_approval(data)]. *)
Definition _request_approval (data : list csv_row) : M unit :=
  emit (EvPrint "--------------------------------------------------------------------------------") ;;;
  emit (EvPrint "List of gateways to process:") ;;;
  emit (EvPrint "") ;;;
  emit (EvPrettyPrint data) ;;;
  emit (EvInput "Do you want to continue (y/N)? ") ;;;
  if String.eqb (lower answer) "y" then
    emit (EvPrint "--------------------------------------------------------------------------------")
  else
    emit (EvConsoleInfo "process stopped by the user. Exiting...") ;;;
    sys_exit 0.

(** [_start(apisession, site_id, csv_file, auto_approve)]. *)
Definition _start (site_id : option string) (csv_file : string)
    (auto_approve : bool) : M unit :=
  data <~ _read_csv csv_file site_id ;;
  match data with
  | [] =>
      emit (EvPrint "All the gateways are compliant... Exiting...") ;;;
      sys_exit 0
  | _ :: _ =>
      (if auto_approve then
         emit (EvConsoleInfo
                 "auto-approve parameter has been set to True. Starting the process")
       else _request_approval data) ;;;
      _process_gateways data
  end.

(** [usage()]. *)
Definition usage {A : Type} : M A := emit EvUsage ;;; sys_exit 0.

(** [check_mistapi_version()]: the comparison is the one of two strings. *)
Definition check_mistapi_version (mistapi_version : string) : M unit :=
  if str_lt mistapi_version MISTAPI_MIN_VERSION then
    emit EvLoggerCritical ;;;
    emit (EvVersionTooOld MISTAPI_MIN_VERSION mistapi_version) ;;;
    sys_exit 2
  else emit EvLoggerInfo.

(** What the option loop of the entry point sets. *)
Record options : Type := mkOptions {
  SITE_ID : option string;
  AUTO_APPROVE : bool;
  OPT_CSV_FILE : string
}.

Definition one_of (o : string) (names : list string) : bool :=
  existsb (String.eqb o) names.

(** [for o, a in opts: ...]. *)
Fixpoint parse_opts (opts : list (string * string)) (cfg : options) : M options :=
  match opts with
  | [] => ret cfg
  | (o, a) :: rest =>
      if one_of o ["-h"; "--help"] then usage
      else if one_of o ["-s"; "--site_id"] then
        parse_opts rest (mkOptions (Some a) (AUTO_APPROVE cfg) (OPT_CSV_FILE cfg))
      else if one_of o ["-f"; "--in_file"] then
        parse_opts rest (mkOptions (SITE_ID cfg) (AUTO_APPROVE cfg) a)
      else if one_of o ["--auto-approve"] then
        parse_opts rest (mkOptions (SITE_ID cfg) true (OPT_CSV_FILE cfg))
      else if one_of o ["-e"; "--env"] then parse_opts rest cfg
      else if one_of o ["-l"; "--log_file"] then parse_opts rest cfg
      else raise AssertionError
  end.

(** The script from its first line: the import of [mistapi], then the entry
    point.  [opts] is what [getopt.getopt] returns, [None] when it raises
    [GetoptError]. *)
Definition main (mistapi_installed : bool) (mistapi_version : string)
    (opts : option (list (string * string))) : M unit :=
  if negb mistapi_installed then
    emit EvMistapiMissing ;;;
    sys_exit 2
  else
    opts <~ match opts with
            | Some opts => ret opts
            | None => emit EvGetoptError ;;; usage
            end ;;
    cfg <~ parse_opts opts (mkOptions None false CSV_FILE) ;;
    check_mistapi_version mistapi_version ;;;
    emit EvLogin ;;;
    _start (SITE_ID cfg) (OPT_CSV_FILE cfg) (AUTO_APPROVE cfg).

End Script.

(** ** Vocabulary of the properties *)

(** A state after more events. *)
Definition logged (st : state) (events : list event) : state :=
  mkState (steps_total st) (steps_count st) (api_calls st)
    (trace st ++ events)%list.

Definition device_id (row : csv_row) : option string :=
  row_get row "cluster_device_id".

(** The row has a text under "module_model". *)
Definition has_model (row : csv_row) : Prop :=
  exists model, row_get row "module_model" = Some model.

(** A row qualifies on its own fields: its model contains "SRX", its
    need-snapshot field is the string "True", and no site filter was given
    (the site id is [None] or empty) or its site is the one given. *)
Definition Qualifies (site_id : option string) (row : csv_row) : Prop :=
  (exists model before after,
     row_get row "module_model" = Some model /\
     model = before ++ "SRX" ++ after) /\
  row_get row "module_need_snapshot" = Some "True" /\
  (opt_truthy site_id = false \/ row_get row "cluster_site_id" = site_id).

(** The same as a test. *)
Definition qualifies (site_id : option string) (row : csv_row) : bool :=
  match row_get row "module_model" with
  | Some model => str_contains "SRX" model
  | None => false
  end
  && opt_eqb (row_get row "module_need_snapshot") (Some "True")
  && (negb (opt_truthy site_id)
      || opt_eqb (row_get row "cluster_site_id") site_id).

(** The rows selected from [rows] when the device ids in [seen] are already
    selected. *)
Fixpoint select (site_id : option string) (rows : list csv_row)
    (seen : list (option string)) : list csv_row :=
  match rows with
  | [] => []
  | row :: rest =>
      if qualifies site_id row && negb (opt_in (device_id row) seen) then
        row :: select site_id rest (seen ++ [device_id row])%list
      else select site_id rest seen
  end.

(** A candidate has a site id and a device id. *)
Definition has_ids (gateway : csv_row) : bool :=
  opt_truthy (row_get gateway "cluster_site_id")
  && opt_truthy (row_get gateway "cluster_device_id").

(** The verdicts a trace holds, in order: [true] for a success, [false] for
    a failure. *)
Fixpoint verdicts_of (trace : list event) : list bool :=
  match trace with
  | [] => []
  | EvLogSuccess _ :: rest => true :: verdicts_of rest
  | EvLogFailure _ :: rest => false :: verdicts_of rest
  | _ :: rest => verdicts_of rest
  end.

Definition successes (trace : list event) : nat :=
  List.length (filter (fun b => b) (verdicts_of trace)).

Definition failures (trace : list event) : nat :=
  List.length (filter negb (verdicts_of trace)).

(** The snapshot calls a trace holds, in order. *)
Fixpoint snapshots_of (trace : list event) : list (string * string) :=
  match trace with
  | [] => []
  | EvSnapshot site device :: rest => (site, device) :: snapshots_of rest
  | _ :: rest => snapshots_of rest
  end.

(** The prompts a trace holds. *)
Fixpoint prompts_of (trace : list event) : list string :=
  match trace with
  | [] => []
  | EvInput prompt :: rest => prompt :: prompts_of rest
  | _ :: rest => prompts_of rest
  end.

Definition is_200 (r : api_result) : bool :=
  match r with
  | ApiStatus code => Z.eqb code 200
  | ApiRaises => false
  end.

(** The verdict each candidate must get: a success exactly when it has both
    ids and the call issued for it returns status 200.  [n] is the number of
    calls issued before. *)
Fixpoint expected_verdicts (api : nat -> string -> string -> api_result)
    (n : nat) (gateways : list csv_row) : list bool :=
  match gateways with
  | [] => []
  | gateway :: rest =>
      if has_ids gateway then
        is_200 (api n (fmt_opt (row_get gateway "cluster_site_id"))
                  (fmt_opt (row_get gateway "cluster_device_id")))
        :: expected_verdicts api (S n) rest
      else false :: expected_verdicts api n rest
  end.

(** The calls a batch must issue: one per candidate that has both ids. *)
Definition expected_calls (gateways : list csv_row) : list (string * string) :=
  map (fun gateway =>
         (fmt_opt (row_get gateway "cluster_site_id"),
          fmt_opt (row_get gateway "cluster_device_id")))
    (filter has_ids gateways).

(** *** Versions as numbers *)

Definition digit_of (c : ascii) : option nat :=
  let n := nat_of_ascii c in
  if (48 <=? n)%nat && (n <=? 57)%nat then Some (n - 48) else None.

(** The numeric components of a dotted version, "0.53.0" giving 0, 53, 0. *)
Fixpoint version_components (s : string) (cur : nat) : list nat :=
  match s with
  | EmptyString => [cur]
  | String c rest =>
      if Ascii.eqb c (ascii_of_nat 46) then cur :: version_components rest 0
      else match digit_of c with
           | Some d => version_components rest (10 * cur + d)
           | None => version_components rest cur
           end
  end.

Fixpoint components_lt (a b : list nat) : bool :=
  match a, b with
  | [], [] => false
  | [], _ :: _ => true
  | _ :: _, [] => false
  | x :: a', y :: b' =>
      if (x <? y)%nat then true
      else if (y <? x)%nat then false
      else components_lt a' b'
  end.

(** "The version is below the required minimum", read as versions are:
    component by component, as numbers. *)
Definition version_below (version minimum : string) : bool :=
  components_lt (version_components version 0) (version_components minimum 0).

(** ** Sample data *)

Definition report_row (device site model need_snapshot : string) : csv_row :=
  [("cluster_name", Some "gw"); ("cluster_device_id", Some device);
   ("cluster_site_id", Some site); ("module_mac", Some "aabbcc000001");
   ("module_model", Some model); ("module_need_snapshot", Some need_snapshot)].

(** Five candidates, each with its ids. *)
Definition five_candidates : list csv_row :=
  [report_row "dev-1" "site-1" "SRX320" "True";
   report_row "dev-2" "site-1" "SRX320" "True";
   report_row "dev-3" "site-1" "SRX345" "True";
   report_row "dev-4" "site-2" "SRX345" "True";
   report_row "dev-5" "site-2" "SRX1500" "True"].

(** A service whose second and fourth calls raise. *)
Definition second_and_fourth_raise (n : nat) (site device : string) : api_result :=
  match n with
  | 1 | 3 => ApiRaises
  | _ => ApiStatus 200
  end.

(** A report: a cluster with two modules, a switch, and an SRX whose
    backup is up to date. *)
Definition sample_report : list csv_row :=
  [report_row "dev-1" "site-1" "SRX320" "True";
   report_row "dev-1" "site-1" "SRX320" "True";
   report_row "dev-2" "site-1" "EX2300" "True";
   report_row "dev-3" "site-2" "SRX345" "False"].

(** A file system with one report, and readers that yield [sample_report]
    or no row at all. *)
Definition sample_text : string :=
  "#Gateways Firmware Backup for org org-1"
  ++ String CR (String LF "cluster_name,cluster_device_id,cluster_site_id")
  ++ String CR (String LF "").

Definition sample_read_file (path : string) : option string := Some sample_text.

Definition sample_DictReader (lines : list string) : result (list csv_row) :=
  Ok sample_report.

Definition empty_DictReader (lines : list string) : result (list csv_row) :=
  Ok [].

(** ** More vocabulary *)

(** [subsequence l l']: [l] is [l'] with some elements left out, the others
    in their order. *)
Inductive subsequence {A : Type} : list A -> list A -> Prop :=
| subsequence_nil : subsequence [] []
| subsequence_skip x l l' : subsequence l l' -> subsequence l (x :: l')
| subsequence_keep x l l' : subsequence l l' -> subsequence (x :: l) (x :: l').

(** The line starts with "#". *)
Definition is_comment_line (line : string) : bool :=
  match line with
  | String c _ => Ascii.eqb c HASH
  | EmptyString => false
  end.

(** The options other than help that the option loop knows. *)
Definition is_plain_option (o : string) : bool :=
  one_of o ["-s"; "--site_id"; "-f"; "--in_file"; "--auto-approve";
            "-e"; "--env"; "-l"; "--log_file"].

(** A reader for a report whose header has no "module_model" column. *)
Definition headerless_DictReader (lines : list string) : result (list csv_row) :=
  Ok [[("cluster_name", Some "gw-1"); ("cluster_device_id", Some "dev-1")]].

(** ** Vocabulary of the CSV parser *)

(** The characters of a text, with no end of line after them. *)
Fixpoint parse_chars (p : parser) (s : string) : result parser :=
  match s with
  | EmptyString => Ok p
  | String c rest =>
      p' <- parse_process_char p (Some c) ;;
      parse_chars p' rest
  end.

(** A text that fits in a field. *)
Definition within_limit (s : string) : Prop :=
  (N.of_nat (String.length s) <= FIELD_LIMIT)%N.

(** What the parser holds after the text that [csv.writer] writes for a
    field, read from the start of a field. *)
Definition after_field (s : string) (fields : list string) : parser :=
  if Reporter.needs_quotes s then mkParser QUOTE_IN_QUOTED_FIELD s fields
  else match s with
       | EmptyString => mkParser START_FIELD "" fields
       | String _ _ => mkParser IN_FIELD s fields
       end.

(** ** Report files *)

(** The data rows of a report as its layout describes it: the first line is
    the comment, the header follows it, then the data. *)
Definition rows_after_comment (text : string) : result (list csv_row) :=
  csv_DictReader (tl (file_lines text "")).

(** The text of a file from its lines, each ended by "\r\n". *)
Definition text_of_lines (lines : list string) : string :=
  fold_right (fun line text => line ++ String CR (String LF text)) "" lines.

Definition SAMPLE_HEADER : string :=
  "cluster_name,cluster_device_id,cluster_site_id,module_mac,module_model,module_need_snapshot".

(** The file of [sample_report]. *)
Definition sample_report_text : string :=
  text_of_lines
    ["#Gateways Firmware Backup for org org-1";
     SAMPLE_HEADER;
     "gw,dev-1,site-1,aabbcc000001,SRX320,True";
     "gw,dev-1,site-1,aabbcc000001,SRX320,True";
     "gw,dev-2,site-1,aabbcc000001,EX2300,True";
     "gw,dev-3,site-2,aabbcc000001,SRX345,False"].

(** A report with two gateways to back up, the first of them named "#gw". *)
Definition hash_named_text : string :=
  text_of_lines
    ["#Gateways Firmware Backup for org org-1";
     SAMPLE_HEADER;
     "#gw,dev-1,site-1,aabbcc000001,SRX320,True";
     "gw,dev-2,site-1,aabbcc000001,SRX320,True"].

Definition hash_named_row : csv_row :=
  [("cluster_name", Some "#gw"); ("cluster_device_id", Some "dev-1");
   ("cluster_site_id", Some "site-1"); ("module_mac", Some "aabbcc000001");
   ("module_model", Some "SRX320"); ("module_need_snapshot", Some "True")].

(** A file system in which every path holds [text]. *)
Definition file_with (text : string) (path : string) : option string := Some text.

End Trigger.
(* ================================================================== *)
(** * org_admins_import.py *)
(* ================================================================== *)

Module AdminInviter.
Import Py.

Local Open Scope string_scope.

(** One entry of [privileges]. *)
Record privilege : Type := mkPrivilege {
  scope : string;
  org_id : string;
  site_id : string;
  role : string
}.

(** What a run does that can be observed. *)
Inductive event : Type :=
| EvPrint (text : string)
| EvCreateInvite (org : string) (email : string) (privileges : list privilege)
    (first_name last_name : string)
| EvAdminsGet (org : string)
| EvTabulate (admins : value).

(** How the script ends: [exit(0)], or an exception nothing catches. *)
Inductive ending : Type :=
| ExitCode (code : Z)
| Uncaught (e : exn).

(** [row[i]]. *)
Definition row_index (row : list string) (i : nat) : result string :=
  match nth_error row i with
  | Some s => Ok s
  | None => Raise IndexError
  end.

Section Script.

(** [mist_lib.requests.org.admins.create_invite]: whether the call number
    [n] of the run (counted from 0) returns or raises. *)
Variable create_invite :
  nat -> string -> string -> list privilege -> string -> string -> result unit.

(** [mist_lib.requests.org.admins.get(mist, org_id)['result']], after [n]
    invitations. *)
Variable admins_get : nat -> string -> result value.

(** The organisation and the privileges, chosen before the file is read. *)
Variable org : string.
Variable privileges : list privilege.

(** The [for row in invite_file] loop.  [n] counts the invitations issued,
    [trace] holds the events so far; the loop ends normally ([None]) or with
    the exception that leaves it. *)
Fixpoint invite_loop (rows : list (list string)) (n : nat) (trace : list event)
  : nat * list event * option exn :=
  match rows with
  | [] => (n, trace, None)
  | row :: rest =>
      match (email <- row_index row 0 ;;
             first_name <- row_index row 1 ;;
             last_name <- row_index row 2 ;;
             Ok (email, first_name, last_name)) with
      | Raise e => (n, trace, Some e)
      | Ok (email, first_name, last_name) =>
          let trace := (trace ++ [EvPrint (String.concat ", " row)])%list in
          let trace :=
            (trace ++ [EvCreateInvite org email privileges first_name last_name])%list in
          match create_invite n org email privileges first_name last_name with
          | Raise e => (S n, trace, Some e)
          | Ok _ => invite_loop rest (S n) trace
          end
      end
  end.

Definition ERROR_MESSAGE : string := "Error while opening the CSV file... Aborting".

(** The script from [print("Opening CSV file ...")] on.  [file] holds the
    rows [csv.reader] yields, [None] when the file does not open. *)
Definition import_admins (path : string) (file : option (list (list string)))
  : list event * ending :=
  let trace := [EvPrint ("Opening CSV file " ++ path)] in
  let '(n, trace, raised) :=
    match file with
    | None => (0, trace, Some OSError)
    | Some rows => invite_loop rows 0 trace
    end in
  let trace :=
    match raised with
    | Some _ => (trace ++ [EvPrint ERROR_MESSAGE])%list
    | None => trace
    end in
  let trace := (trace ++ [EvAdminsGet org])%list in
  match admins_get n org with
  | Raise e => (trace, Uncaught e)
  | Ok admins => ((trace ++ [EvTabulate admins])%list, ExitCode 0)
  end.

End Script.

(** The invitations a trace holds, as (email, first name, last name). *)
Fixpoint invites_of (trace : list event) : list (string * string * string) :=
  match trace with
  | [] => []
  | EvCreateInvite _ email _ first_name last_name :: rest =>
      (email, first_name, last_name) :: invites_of rest
  | _ :: rest => invites_of rest
  end.

(** ** Vocabulary of the properties *)

(** The field [i] of a row that has it. *)
Definition field (row : list string) (i : nat) : string := nth i row "".

(** The invitation a complete row stands for. *)
Definition invitation (row : list string) : string * string * string :=
  (field row 0, field row 1, field row 2).

(** What the loop does for a complete row: it prints the row and issues the
    invitation. *)
Definition row_events (org : string) (privileges : list privilege)
    (row : list string) : list event :=
  [EvPrint (String.concat ", " row);
   EvCreateInvite org (field row 0) privileges (field row 1) (field row 2)].

(** The calls issued for the rows [rows], the first of them being the call
    number [n], all return. *)
Definition calls_return
    (create_invite :
       nat -> string -> string -> list privilege -> string -> string -> result unit)
    (org : string) (privileges : list privilege) (n : nat)
    (rows : list (list string)) : Prop :=
  forall i row,
    nth_error rows i = Some row ->
    create_invite (n + i) org (field row 0) privileges (field row 1) (field row 2)
    = Ok tt.

(** ** Sample data *)

Definition sample_privileges : list privilege :=
  [mkPrivilege "org" "org-1" "site-1" "admin"].


(** ** The questions before the import *)

(** [roles]. *)
Definition roles : list (string * string) :=
  [("s", "admin"); ("n", "write"); ("o", "read"); ("h", "helpdesk")].

(** [d[key]] for a dict of strings. *)
Fixpoint str_dict_get (d : list (string * string)) (key : string) : result string :=
  match d with
  | [] => Raise KeyError
  | (k, v) :: rest => if String.eqb k key then Ok v else str_dict_get rest key
  end.

(** [key in d]. *)
Definition str_dict_has (d : list (string * string)) (key : string) : bool :=
  existsb (fun entry => String.eqb (fst entry) key) d.

(** How the questions end: [input] finds no answer left, an exception
    leaves the script, or the privileges are set, with the answers that
    were not read. *)
Inductive setup : Type :=
| SetupEOF
| SetupRaises (e : exn)
| SetupDone (privileges : list privilege) (unread : list string).

(** [all_sites.lower() == "y"]. *)
Definition is_yes (all_sites : string) : bool := String.eqb (lower all_sites) "y".

(** [all_sites.lower() == "n" or all_sites == ""]. *)
Definition is_no (all_sites : string) : bool :=
  String.eqb (lower all_sites) "n" || String.eqb all_sites "".

Section Setup.

(** [cli.select_org(mist)]. *)
Variable org : string.

(** [cli.select_site(mist, org_id, True)]. *)
Variable select_site : list string.

(** The list [mist_lib.org.sites.get(mist, org_id)["result"]], or the
    exception of the call or of the subscript. *)
Variable org_sites : result (list string).

(** [while role not in roles: role = input(...)]. *)
Fixpoint ask_role (answers : list string) (role : string)
  : option (string * list string) :=
  if str_dict_has roles role then Some (role, answers)
  else
    match answers with
    | [] => None
    | answer :: rest => ask_role rest answer
    end.

(** [for site_id in site_ids: privileges.append({...})]. *)
Fixpoint site_privileges (role : string) (site_ids : list string)
  : result (list privilege) :=
  match site_ids with
  | [] => Ok []
  | site :: rest =>
      name <- str_dict_get roles role ;;
      others <- site_privileges role rest ;;
      Ok (mkPrivilege "site" org site name :: others)
  end.

(** The privilege of the whole organisation. *)
Definition org_privilege (role : string) : result (list privilege) :=
  sites <- org_sites ;;
  first <- match sites with
           | site :: _ => Ok site
           | [] => Raise IndexError
           end ;;
  name <- str_dict_get roles role ;;
  Ok [mkPrivilege "org" org first name].

(** [while True: all_sites = input(...) ...]. *)
Fixpoint ask_scope (role : string) (answers : list string) : setup :=
  match answers with
  | [] => SetupEOF
  | all_sites :: rest =>
      if is_yes all_sites then
        match site_privileges role select_site with
        | Ok privileges => SetupDone privileges rest
        | Raise e => SetupRaises e
        end
      else if is_no all_sites then
        match org_privilege role with
        | Ok privileges => SetupDone privileges rest
        | Raise e => SetupRaises e
        end
      else ask_scope role rest
  end.

(** The block [if privileges == []: ...], [privileges] being empty and
    [role] being [""] when it starts. *)
Definition ask_privileges (answers : list string) : setup :=
  match ask_role answers "" with
  | None => SetupEOF
  | Some (role, rest) => ask_scope role rest
  end.

End Setup.

(** The names of the roles. *)
Definition ROLE_NAMES : list string := map snd roles.

End AdminInviter.

(* ================================================================== *)
(** * Facts about strings *)
(* ================================================================== *)

Module PyFacts.
Import Py.

Local Open Scope string_scope.

Lemma append_assoc (a b c : string) : (a ++ b) ++ c = a ++ (b ++ c).
Proof. induction a as [|x a IH]; simpl; [reflexivity|now rewrite IH]. Qed.

Lemma append_nil_r (a : string) : a ++ "" = a.
Proof. induction a as [|x a IH]; simpl; [reflexivity|now rewrite IH]. Qed.

Lemma prefix_split (needle haystack : string) :
  String.prefix needle haystack = true <-> exists after, haystack = needle ++ after.
Proof.
  revert haystack. induction needle as [|x needle IH]; intros haystack.
  - split; [intros _; now exists haystack|intros _; now destruct haystack].
  - destruct haystack as [|y haystack]; simpl.
    + split; [discriminate|]. intros (after & H). discriminate H.
    + destruct (ascii_dec x y) as [->|Hxy].
      * rewrite IH. split; intros (after & H); exists after.
        -- now rewrite H.
        -- now injection H.
      * split; [discriminate|]. intros (after & H). injection H as H _.
        now elim Hxy.
Qed.

Lemma str_contains_unfold (needle haystack : string) :
  str_contains needle haystack =
  if String.prefix needle haystack then true
  else match haystack with
       | EmptyString => false
       | String _ rest => str_contains needle rest
       end.
Proof. destruct haystack; reflexivity. Qed.

(** [needle in haystack] says that the haystack is some text, then the
    needle, then some text. *)
Lemma str_contains_split (needle haystack : string) :
  str_contains needle haystack = true <->
  exists before after, haystack = before ++ needle ++ after.
Proof.
  induction haystack as [|y haystack IH]; rewrite str_contains_unfold.
  - destruct (String.prefix needle "") eqn:Hp.
    + split; [|reflexivity]. intros _.
      apply prefix_split in Hp as (after & Hp). now exists "", after.
    + split; [discriminate|]. intros (before & after & H).
      destruct before as [|b before]; [|discriminate H].
      simpl in H. assert (String.prefix needle "" = true) as Hp'
        by (apply prefix_split; now exists after).
      congruence.
  - destruct (String.prefix needle (String y haystack)) eqn:Hp.
    + split; [|reflexivity]. intros _.
      apply prefix_split in Hp as (after & Hp). now exists "", after.
    + rewrite IH. split.
      * intros (before & after & H). exists (String y before), after.
        simpl. now rewrite H.
      * intros (before & after & H). destruct before as [|b before].
        -- simpl in H. assert (String.prefix needle (String y haystack) = true) as Hp'
             by (apply prefix_split; now exists after).
           congruence.
        -- simpl in H. injection H as _ H. now exists before, after.
Qed.

End PyFacts.

(* ================================================================== *)
(** * Properties of report_gateway_firmware.py *)
(* ================================================================== *)

Module ReporterProofs.
Import Py Reporter.

Local Open Scope string_scope.

(** ** Rows *)

Lemma module_row_of_record (n v i s : value) (m : dict) :
  module_row n v i s (VDict m) =
  Ok [("cluster_name", n);
      ("cluster_version", v);
      ("cluster_device_id", i);
      ("cluster_site_id", s);
      ("module_serial", get m "serial");
      ("module_mac", get m "mac");
      ("module_model", get m "model");
      ("module_version", get m "version");
      ("module_backup_version", get m "backup_version");
      ("module_need_snapshot", VBool (py_ne (get m "version") (get m "backup_version")));
      ("module_pending_version", get m "pending_version");
      ("module_need_reboot",
        VBool (py_ne (get_default m "pending_version" (VStr "")) (VStr "")))].
Proof. reflexivity. Qed.

Lemma module_row_not_a_record (n v i s module : value) :
  (forall m, module <> VDict m) ->
  module_row n v i s module = Raise AttributeError.
Proof.
  intros Hnot. destruct module; try reflexivity.
  exfalso. apply (Hnot d). reflexivity.
Qed.

(** The snapshot flag of a row is the comparison of the two versions of its
    module record, whatever the other rows are. *)
Lemma need_snapshot_of_record (n v i s : value) (m row : dict) :
  module_row n v i s (VDict m) = Ok row ->
  get row "module_need_snapshot" =
  VBool (py_ne (get m "version") (get m "backup_version")).
Proof.
  rewrite module_row_of_record. intros H. injection H as <-. reflexivity.
Qed.

(** The reboot flag of a row is set exactly when the record has a
    [pending_version] key bound to something that is not the empty string. *)
Lemma need_reboot_of_record (n v i s : value) (m row : dict) :
  module_row n v i s (VDict m) = Ok row ->
  (get row "module_need_reboot" = VBool true <->
   exists p, lookup "pending_version" m = Some p /\ py_eq p (VStr "") = false).
Proof.
  rewrite module_row_of_record. intros H. injection H as <-.
  unfold get at 1. unfold get_default at 1. simpl lookup.
  unfold get_default, py_ne.
  destruct (lookup "pending_version" m) as [p|].
  - split.
    + intros Hb. exists p. split; [reflexivity|].
      injection Hb as Hb. now apply negb_true_iff in Hb.
    + intros (p' & Hp & Hne). injection Hp as <-. now rewrite Hne.
  - split.
    + intros Hb. discriminate Hb.
    + intros (p' & Hp & _). discriminate Hp.
Qed.

(** For a pending version that is a string or is absent, the reboot flag
    says whether it is a non-empty string. *)
Lemma need_reboot_of_string (n v i s : value) (m row : dict) :
  module_row n v i s (VDict m) = Ok row ->
  (lookup "pending_version" m = None \/
   exists p, lookup "pending_version" m = Some (VStr p)) ->
  get row "module_need_reboot" =
  VBool (is_nonempty_string (get m "pending_version")).
Proof.
  rewrite module_row_of_record. intros H. injection H as <-.
  intros [Hnone | (p & Hp)]; unfold get, get_default; simpl lookup;
    unfold get_default, py_ne.
  - now rewrite Hnone.
  - now rewrite Hp.
Qed.

(** ** One device *)

Lemma is_module_list_inv (v : value) :
  is_module_list v = true -> exists m rest, v = VList (VDict m :: rest).
Proof.
  destruct v as [| | | |l|]; try discriminate.
  destruct l as [|[| | | | |m] rest]; try discriminate.
  intros _. now exists m, rest.
Qed.

Lemma primary_module_is_record (cluster : dict) :
  well_formed_device cluster = true ->
  exists m,
    primary_module cluster = VDict m /\
    index0 (get_default cluster "module_stat" default_module_stat) = Ok (VDict m).
Proof.
  unfold well_formed_device, primary_module, get_default.
  intros Hwf. apply andb_true_iff in Hwf as [Hwf _].
  destruct (lookup "module_stat" cluster) as [v|].
  - apply is_module_list_inv in Hwf as (m & rest & ->). now exists m.
  - now exists [].
Qed.

Lemma second_module_is_record (cluster : dict) :
  well_formed_device cluster = true ->
  has_second_module cluster = true ->
  exists m,
    second_module cluster = VDict m /\
    index0 (get_default cluster "module2_stat" default_module_stat) = Ok (VDict m).
Proof.
  unfold well_formed_device, has_second_module, second_module.
  intros Hwf Htrue. apply andb_true_iff in Hwf as [_ Hwf].
  rewrite Htrue in Hwf. simpl in Hwf.
  apply is_module_list_inv in Hwf as (m & rest & Hv).
  exists m. unfold get in *. unfold get_default in *.
  destruct (lookup "module2_stat" cluster) as [v|].
  - subst v. now split.
  - discriminate Hv.
Qed.

(** What the loop body does for a well-formed device: it appends the rows
    of that device, and nothing else. *)
Lemma process_cluster_appends (cluster : dict) :
  well_formed_device cluster = true ->
  exists rows,
    device_rows cluster rows /\
    forall data, process_cluster cluster data = Ok (data ++ rows)%list.
Proof.
  intros Hwf.
  destruct (primary_module_is_record cluster Hwf) as (m1 & Hp1 & Hi1).
  destruct (has_second_module cluster) eqn:Hsecond.
  - destruct (second_module_is_record cluster Hwf Hsecond) as (m2 & Hp2 & Hi2).
    destruct (cluster_row cluster (VDict m1)) as [row1|] eqn:Hr1;
      [|unfold cluster_row in Hr1; rewrite module_row_of_record in Hr1; discriminate].
    destruct (cluster_row cluster (VDict m2)) as [row2|] eqn:Hr2;
      [|unfold cluster_row in Hr2; rewrite module_row_of_record in Hr2; discriminate].
    exists [row1; row2]. split.
    + exists row1. rewrite Hp1, Hsecond, Hp2. split; [exact Hr1|].
      exists row2. now split.
    + intros data. unfold process_cluster, _process_module.
      unfold has_second_module in Hsecond. rewrite Hi1. cbn [rbind].
      unfold cluster_row in Hr1, Hr2. rewrite Hr1. cbn [rbind].
      rewrite Hsecond, Hi2. cbn [rbind]. rewrite Hr2. cbn [rbind].
      now rewrite <- app_assoc.
  - destruct (cluster_row cluster (VDict m1)) as [row1|] eqn:Hr1;
      [|unfold cluster_row in Hr1; rewrite module_row_of_record in Hr1; discriminate].
    exists [row1]. split.
    + exists row1. rewrite Hp1, Hsecond. now split.
    + intros data. unfold process_cluster, _process_module.
      unfold has_second_module in Hsecond. rewrite Hi1. cbn [rbind].
      unfold cluster_row in Hr1. rewrite Hr1. cbn [rbind].
      now rewrite Hsecond.
Qed.

Lemma process_clusters_rows (gateways : list dict) :
  Forall (fun cluster => well_formed_device cluster = true) gateways ->
  exists groups,
    Forall2 device_rows gateways groups /\
    forall data, process_clusters gateways data = Ok (data ++ List.concat groups)%list.
Proof.
  induction 1 as [|cluster rest Hwf _ IH].
  - exists []. split; [constructor|]. intros data. simpl. now rewrite app_nil_r.
  - destruct (process_cluster_appends cluster Hwf) as (rows & Hrows & Hbody).
    destruct IH as (groups & Hgroups & Hloop).
    exists (rows :: groups). split; [now constructor|].
    intros data. simpl. rewrite Hbody. cbn [rbind]. rewrite Hloop.
    now rewrite app_assoc.
Qed.

(** C8. For every list of well-formed gateway device stat objects,
    [_process_gateways] returns the rows of the devices in device order:
    each device contributes the row of its primary module, followed by the
    row of its second module exactly when [module2_stat] is truthy; so one
    row per device, or two for a cluster with a second module. *)
Theorem process_gateways_one_row_per_module (gateways : list dict) :
  Forall (fun cluster => well_formed_device cluster = true) gateways ->
  exists groups,
    _process_gateways gateways = Ok (List.concat groups) /\
    Forall2 device_rows gateways groups /\
    Forall2 (fun cluster rows =>
               List.length rows = if has_second_module cluster then 2 else 1)
      gateways groups.
Proof.
  intros Hwf.
  destruct (process_clusters_rows gateways Hwf) as (groups & Hgroups & Hloop).
  exists groups. split; [|split].
  - unfold _process_gateways. now rewrite Hloop.
  - exact Hgroups.
  - clear Hloop Hwf. induction Hgroups as [|cluster rows gs gr Hrows _ IH];
      constructor; [|exact IH].
    destruct Hrows as (row1 & _ & Hrows).
    destruct (has_second_module cluster).
    + destruct Hrows as (row2 & _ & ->). reflexivity.
    + now subst rows.
Qed.

(** A run over a concrete list: a standalone gateway and a cluster. *)
Lemma process_gateways_one_row_per_module_witness :
  exists groups,
    _process_gateways sample_gateways = Ok (List.concat groups) /\
    Forall2 device_rows sample_gateways groups /\
    Forall2 (fun cluster rows =>
               List.length rows = if has_second_module cluster then 2 else 1)
      sample_gateways groups.
Proof.
  apply (process_gateways_one_row_per_module sample_gateways).
  repeat constructor.
Defined.

(** The devices [_process_gateways] returns for are the well-formed ones. *)
Lemma process_cluster_returns_only_if_well_formed (cluster : dict) (data data' : list dict) :
  process_cluster cluster data = Ok data' -> well_formed_device cluster = true.
Proof.
  assert (Hrec : forall v (d d' : list dict) a b c e,
             (module <- index0 v ;; _process_module a b c e module d) = Ok d' ->
             is_module_list v = true).
  { intros v d d' a b c e. destruct v as [| | |s|l|]; simpl; try discriminate.
    - destruct s; discriminate.
    - destruct l as [|[| | | | |m] rest]; simpl; try discriminate. reflexivity. }
  unfold process_cluster, well_formed_device. intros Hrun.
  destruct (index0 (get_default cluster "module_stat" default_module_stat))
    as [m1|] eqn:Hi1; [|discriminate]. cbn [rbind] in Hrun.
  destruct (_process_module (get cluster "name") (get cluster "version")
              (get cluster "id") (get cluster "site_id") m1 data)
    as [data1|] eqn:Hp1; [|discriminate]. cbn [rbind] in Hrun.
  apply andb_true_iff. split.
  - unfold get_default in Hi1.
    destruct (lookup "module_stat" cluster) as [v|]; [|reflexivity].
    apply (Hrec v data data1 (get cluster "name") (get cluster "version")
             (get cluster "id") (get cluster "site_id")).
    now rewrite Hi1.
  - destruct (truthy (get cluster "module2_stat")) eqn:Htruthy; [|reflexivity].
    simpl. unfold get in *. unfold get_default in *.
    destruct (lookup "module2_stat" cluster) as [v|]; [|discriminate].
    apply (Hrec v data1 data' (match lookup "name" cluster with Some x => x | None => VNone end)
             (match lookup "version" cluster with Some x => x | None => VNone end)
             (match lookup "id" cluster with Some x => x | None => VNone end)
             (match lookup "site_id" cluster with Some x => x | None => VNone end)).
    exact Hrun.
Qed.

(** ** Devices with no module record *)

Lemma process_clusters_app (pre post : list dict) (data : list dict) :
  process_clusters (pre ++ post) data =
  (data' <- process_clusters pre data ;; process_clusters post data').
Proof.
  revert data. induction pre as [|cluster pre IH]; intros data; simpl.
  - reflexivity.
  - destruct (process_cluster cluster data) as [data'|]; simpl; [apply IH|reflexivity].
Qed.

(** C10, as amended. A device stat object with no "module_stat" key gets,
    for its primary module, exactly one row in which the six module fields
    are [None] and the two flags are [False]; it is the only row of the
    device when "module2_stat" is falsy, and the row of the second module
    follows it when "module2_stat" holds a module record.  A device whose
    "module_stat" is an empty list makes the processing raise
    [IndexError], wherever it stands in a list of well-formed devices. *)
Theorem device_without_module_stat (cluster : dict) :
  (lookup "module_stat" cluster = None ->
   let row := row_without_module cluster in
   cluster_row cluster (primary_module cluster) = Ok row /\
   (get row "module_serial" = VNone /\ get row "module_mac" = VNone /\
    get row "module_model" = VNone /\ get row "module_version" = VNone /\
    get row "module_backup_version" = VNone /\
    get row "module_pending_version" = VNone /\
    get row "module_need_snapshot" = VBool false /\
    get row "module_need_reboot" = VBool false) /\
   (has_second_module cluster = false ->
    _process_gateways [cluster] = Ok [row]) /\
   (forall m2 rest,
      get cluster "module2_stat" = VList (VDict m2 :: rest) ->
      exists row2,
        cluster_row cluster (VDict m2) = Ok row2 /\
        _process_gateways [cluster] = Ok [row; row2])) /\
  (lookup "module_stat" cluster = Some (VList []) ->
   forall pre post,
     Forall (fun c => well_formed_device c = true) pre ->
     _process_gateways (pre ++ cluster :: post) = Raise IndexError).
Proof.
  split.
  - intros Hnone row.
    assert (Hprimary : primary_module cluster = VDict []).
    { unfold primary_module, get_default. now rewrite Hnone. }
    assert (Hindex : index0 (get_default cluster "module_stat" default_module_stat)
                     = Ok (VDict [])).
    { unfold get_default. now rewrite Hnone. }
    assert (Hrow : cluster_row cluster (VDict []) = Ok row) by reflexivity.
    split; [now rewrite Hprimary|].
    split; [repeat split|].
    split.
    + intros Hsecond. unfold _process_gateways. simpl.
      unfold process_cluster, _process_module. rewrite Hindex. cbn [rbind].
      unfold cluster_row in Hrow. rewrite Hrow. cbn [rbind].
      unfold has_second_module in Hsecond. now rewrite Hsecond.
    + intros m2 rest Hm2.
      destruct (cluster_row cluster (VDict m2)) as [row2|] eqn:Hrow2;
        [|unfold cluster_row in Hrow2; rewrite module_row_of_record in Hrow2;
          discriminate].
      exists row2. split; [reflexivity|].
      unfold _process_gateways. simpl.
      unfold process_cluster, _process_module. rewrite Hindex. cbn [rbind].
      unfold cluster_row in Hrow, Hrow2. rewrite Hrow. cbn [rbind].
      rewrite Hm2. cbn [truthy].
      assert (Hi2 : index0 (get_default cluster "module2_stat" default_module_stat)
                    = Ok (VDict m2)).
      { unfold get in Hm2. unfold get_default in *.
        destruct (lookup "module2_stat" cluster); [now subst|discriminate]. }
      rewrite Hi2. cbn [rbind]. rewrite Hrow2. reflexivity.
  - intros Hempty pre post Hpre.
    unfold _process_gateways. rewrite process_clusters_app.
    destruct (process_clusters_rows pre Hpre) as (groups & _ & Hloop).
    rewrite Hloop. cbn [rbind]. simpl.
    unfold process_cluster, get_default. now rewrite Hempty.
Qed.

(** Two concrete devices: one with no "module_stat" key and no second
    module, one whose "module_stat" is the empty list. *)
Lemma device_without_module_stat_witness :
  _process_gateways [device_without_modules]
    = Ok [row_without_module device_without_modules] /\
  _process_gateways (sample_gateways ++ [device_with_empty_module_stat])
    = Raise IndexError.
Proof.
  split.
  - apply (proj1 (device_without_module_stat device_without_modules)
             eq_refl); reflexivity.
  - apply (proj2 (device_without_module_stat device_with_empty_module_stat)
             eq_refl sample_gateways []).
    repeat constructor.
Defined.

(** C10 as stated fails: a device with no "module_stat" key and a truthy
    "module2_stat" gets two rows, both with every module field [None]. *)
Lemma device_without_module_stat_two_rows :
  lookup "module_stat" device_with_only_module2 = None /\
  _process_gateways [device_with_only_module2] =
    Ok [row_without_module device_with_only_module2;
        row_without_module device_with_only_module2] /\
  ~ (exists row, _process_gateways [device_with_only_module2] = Ok [row]).
Proof.
  split; [reflexivity|]. split; [reflexivity|].
  intros (row & Hrow). discriminate Hrow.
Qed.

(** C2, the reboot flag at a pending version that is [null]: the record has
    no pending version (it is no non-empty string), and the row says that a
    reboot is needed. *)
Theorem need_reboot_set_for_null_pending_version (n v i s : value) :
  exists row,
    module_row n v i s (VDict module_with_null_pending) = Ok row /\
    get (module_with_null_pending) "pending_version" = VNone /\
    is_nonempty_string (get module_with_null_pending "pending_version") = false /\
    get row "module_pending_version" = VNone /\
    get row "module_need_reboot" = VBool true.
Proof.
  eexists. split; [apply module_row_of_record|]. repeat split.
Qed.

(** ** Pagination *)

Section PaginationProofs.

Variable get_next : APIResponse -> APIResponse.
Variable listOrgDevicesStats : string -> APIResponse.
Variable listSiteDevicesStats : string -> APIResponse.

Lemma pages_from_head (response : APIResponse) (pages : list (list dict)) :
  pages_from get_next response pages ->
  exists later, pages = data response :: later.
Proof. intros H. destruct H; eauto. Qed.

(** With fuel for every link, the loop returns what it was given followed
    by the pages after the first one. *)
Lemma follow_pages_appends (response : APIResponse) (pages : list (list dict)) :
  pages_from get_next response pages ->
  forall fuel gateways,
    List.length pages <= S fuel ->
    follow_pages get_next fuel response gateways =
    Some (gateways ++ List.concat (tl pages))%list.
Proof.
  induction 1 as [response Hlast | response pages Hmore Hrest IH];
    intros fuel gateways Hfuel.
  - destruct fuel; simpl; rewrite Hlast; now rewrite app_nil_r.
  - destruct (pages_from_head _ _ Hrest) as (later & Hpages).
    destruct fuel as [|fuel]; simpl in Hfuel.
    + subst pages. simpl in Hfuel. lia.
    + simpl. rewrite Hmore. rewrite IH by lia.
      subst pages. simpl. now rewrite <- app_assoc.
Qed.

Lemma listing_concatenates (first : APIResponse) (pages : list (list dict)) :
  pages_from get_next first pages ->
  forall fuel,
    List.length pages <= S fuel ->
    follow_pages get_next fuel first (data first) = Some (List.concat pages).
Proof.
  intros Hpages fuel Hfuel.
  rewrite (follow_pages_appends first pages Hpages) by exact Hfuel.
  destruct (pages_from_head _ _ Hpages) as (later & ->). reflexivity.
Qed.

(** C4. When the listing (of an org or of a site) consists of the pages
    [pages], each linked to the next until none remains, the pagination
    loop ends, with any fuel that covers the links, and returns the
    concatenation of the pages in order: its length is the sum of the page
    lengths and its entries are those of the pages, none dropped and none
    repeated. *)
Theorem pagination_concatenates_pages (scope_id : string) (pages : list (list dict)) :
  (pages_from get_next (listOrgDevicesStats scope_id) pages ->
   forall fuel, List.length pages <= S fuel ->
     exists gateways,
       _get_org_gateways get_next listOrgDevicesStats fuel scope_id = Some gateways /\
       gateways = List.concat pages /\
       List.length gateways = total_length pages /\
       (forall entry, In entry gateways <-> exists page, In page pages /\ In entry page)) /\
  (pages_from get_next (listSiteDevicesStats scope_id) pages ->
   forall fuel, List.length pages <= S fuel ->
     exists gateways,
       _get_site_gateways get_next listSiteDevicesStats fuel scope_id = Some gateways /\
       gateways = List.concat pages /\
       List.length gateways = total_length pages /\
       (forall entry, In entry gateways <-> exists page, In page pages /\ In entry page)).
Proof.
  split; intros Hpages fuel Hfuel; exists (List.concat pages);
    (split; [|split; [reflexivity|split; [apply length_concat|apply in_concat]]]).
  - unfold _get_org_gateways. now apply listing_concatenates.
  - unfold _get_site_gateways. now apply listing_concatenates.
Qed.

End PaginationProofs.

Lemma sample_listing :
  pages_from sample_get_next sample_first_page sample_pages.
Proof.
  apply (linked_page sample_get_next sample_first_page); [reflexivity|].
  apply (linked_page sample_get_next (sample_get_next sample_first_page));
    [reflexivity|].
  apply (last_page sample_get_next
           (sample_get_next (sample_get_next sample_first_page))).
  reflexivity.
Defined.

(** Three pages of two, one and two devices: five gateways, in order. *)
Lemma pagination_concatenates_pages_witness :
  exists gateways,
    _get_org_gateways sample_get_next (fun _ => sample_first_page) 2 "org-1"
      = Some gateways /\
    gateways = List.concat sample_pages /\
    List.length gateways = total_length sample_pages /\
    (forall entry,
       In entry gateways <-> exists page, In page sample_pages /\ In entry page).
Proof.
  apply (proj1 (pagination_concatenates_pages sample_get_next
                  (fun _ => sample_first_page) (fun _ => sample_first_page)
                  "org-1" sample_pages)).
  - exact sample_listing.
  - simpl. lia.
Defined.

(** ** The header of the report *)

Lemma filter_twice {A : Type} (f g h : A -> bool) (l : list A) :
  (forall x, h x = g x && f x) ->
  filter f (filter g l) = filter h l.
Proof.
  intros Hh. induction l as [|x l IH]; simpl; [reflexivity|].
  rewrite Hh. destruct (g x); simpl; [|exact IH].
  destruct (f x); now rewrite IH.
Qed.

Lemma add_keys_app (ks1 ks2 headers : list string) :
  add_keys (ks1 ++ ks2) headers = add_keys ks2 (add_keys ks1 headers).
Proof.
  revert headers. induction ks1 as [|k ks1 IH]; intros headers; simpl;
    [reflexivity|apply IH].
Qed.

Lemma collect_headers_add_keys (data : list dict) (headers : list string) :
  collect_headers data headers = add_keys (List.concat (map keys data)) headers.
Proof.
  revert headers. induction data as [|entry data IH]; intros headers; simpl.
  - reflexivity.
  - now rewrite IH, add_keys_app.
Qed.

(** The header loop adds, after the headers it starts from, the keys it has
    not yet, in the order in which it first sees them. *)
Lemma add_keys_first_seen (ks headers : list string) :
  add_keys ks headers =
  (headers ++
   filter (fun k => negb (existsb (String.eqb k) headers)) (first_seen ks))%list.
Proof.
  revert headers. induction ks as [|k ks IH]; intros headers; simpl.
  - now rewrite app_nil_r.
  - destruct (existsb (String.eqb k) headers) eqn:Hseen; simpl.
    + rewrite IH. f_equal. symmetry. apply filter_twice.
      intros x. destruct (String.eqb_spec k x) as [->|_]; simpl;
        [now rewrite Hseen|reflexivity].
    + rewrite IH, <- app_assoc. simpl. do 2 f_equal. symmetry.
      apply filter_twice. intros x. rewrite existsb_app. simpl.
      rewrite orb_false_r, negb_orb, (String.eqb_sym x k).
      apply andb_comm.
Qed.

Lemma first_seen_In (ks : list string) (k : string) :
  In k (first_seen ks) <-> In k ks.
Proof.
  induction ks as [|x ks IH]; simpl; [reflexivity|].
  rewrite filter_In, IH, negb_true_iff, String.eqb_neq.
  destruct (string_dec x k) as [->|Hne]; tauto.
Qed.

Lemma first_seen_NoDup (ks : list string) : NoDup (first_seen ks).
Proof.
  induction ks as [|x ks IH]; simpl; constructor.
  - rewrite filter_In, String.eqb_refl. intros [_ H]. discriminate H.
  - now apply NoDup_filter.
Qed.

Lemma has_key_In (k : string) (entry : dict) :
  has_key k entry = true <-> In k (keys entry).
Proof.
  unfold has_key, keys. induction entry as [|[k' v] entry IH]; simpl.
  - split; [discriminate|tauto].
  - destruct (String.eqb_spec k k') as [->|Hne].
    + split; [now left|reflexivity].
    + rewrite IH. split; [now right|]. intros [H|H]; [now elim Hne|exact H].
Qed.

(** ** The text of the report *)

Section CsvProofs.

Variable str_container : value -> string.

Lemma write_entries_text (headers : list string) (data : list dict) (f : string) :
  write_entries str_container headers data f =
  f ++ text_of (map (fun entry => writerow str_container (row_cells headers entry)) data).
Proof.
  revert f. induction data as [|entry data IH]; intros f; simpl.
  - now rewrite PyFacts.append_nil_r.
  - now rewrite IH, PyFacts.append_assoc.
Qed.

Lemma needs_quotes_app (a b : string) :
  needs_quotes (a ++ b) = needs_quotes a || needs_quotes b.
Proof.
  induction a as [|x a IH]; simpl; [reflexivity|].
  now rewrite IH, orb_assoc.
Qed.

Lemma comment_needs_no_quotes (scope scope_id : string) :
  needs_quotes scope = false -> needs_quotes scope_id = false ->
  needs_quotes (comment_text scope scope_id) = false.
Proof.
  intros Hscope Hid. unfold comment_text.
  rewrite !needs_quotes_app, Hscope, Hid. reflexivity.
Qed.

(** A single field that needs no quotes and is not empty is written as it
    is, followed by the line terminator. *)
Lemma writerow_plain_field (c : ascii) (s : string) :
  needs_quotes (String c s) = false ->
  writerow str_container [VStr (String c s)] = String c s ++ CRLF.
Proof.
  intros Hplain. unfold writerow, write_field, field_text. simpl map.
  simpl in Hplain. rewrite Hplain. reflexivity.
Qed.

Lemma comment_starts_with_hash (scope scope_id : string) :
  exists tail, comment_text scope scope_id = String HASH tail.
Proof. now eexists. Qed.

Lemma save_as_csv_text (data : list dict) (scope scope_id : string) :
  _save_as_csv str_container data scope scope_id =
  writerow str_container [VStr (comment_text scope scope_id)] ++
  text_of (writerow str_container (map VStr (collect_headers data []))
           :: map (fun entry =>
                     writerow str_container (row_cells (collect_headers data []) entry))
                data).
Proof.
  unfold _save_as_csv. cbv zeta. rewrite write_entries_text.
  cbn [text_of fold_right String.append]. now rewrite PyFacts.append_assoc.
Qed.

(** Reading back a text that starts with a record free of special
    characters: the record is the first line. *)
Lemma file_lines_first_record (s rest cur : string) :
  needs_quotes s = false ->
  Trigger.file_lines (s ++ CRLF ++ rest) cur =
  (cur ++ s ++ CRLF) :: Trigger.file_lines rest "".
Proof.
  revert cur. induction s as [|x s IH]; intros cur Hplain.
  - reflexivity.
  - simpl in Hplain. apply orb_false_iff in Hplain as [Hx Hs].
    unfold is_special in Hx.
    apply orb_false_iff in Hx as [Hx Hlf].
    apply orb_false_iff in Hx as [_ Hcr].
    simpl. rewrite Hlf, Hcr. rewrite IH by exact Hs.
    f_equal. now rewrite PyFacts.append_assoc.
Qed.

End CsvProofs.

(** ** Which device lists are processed *)

Lemma process_clusters_returns_only_if_well_formed (gateways : list dict) :
  forall data data',
    process_clusters gateways data = Ok data' ->
    Forall (fun cluster => well_formed_device cluster = true) gateways.
Proof.
  induction gateways as [|cluster rest IH]; intros data data' Hrun.
  - constructor.
  - simpl in Hrun.
    destruct (process_cluster cluster data) as [data1|] eqn:Hbody; [|discriminate].
    cbn [rbind] in Hrun. constructor.
    + now apply (process_cluster_returns_only_if_well_formed cluster data data1).
    + now apply (IH data1 data').
Qed.

(** X9. [_process_gateways] returns rows exactly for the lists in which
    every device is well formed: "module_stat" absent or a list starting
    with a module record, and "module2_stat" falsy or such a list.  One
    device that is not (an empty "module_stat" list, a "module_stat" that
    is [null], a module that is no record) makes the whole call raise, and
    the rows of the other devices are lost with it. *)
Theorem process_gateways_returns_iff_well_formed (gateways : list dict) :
  (exists data, _process_gateways gateways = Ok data) <->
  Forall (fun cluster => well_formed_device cluster = true) gateways.
Proof.
  split.
  - intros (data & Hrun).
    now apply (process_clusters_returns_only_if_well_formed gateways [] data).
  - intros Hwf. destruct (process_clusters_rows gateways Hwf) as (groups & _ & Hloop).
    exists (List.concat groups). unfold _process_gateways. now rewrite Hloop.
Qed.

(** ** The columns of the report *)

Lemma module_row_keys (n v i s module : value) (row : dict) :
  module_row n v i s module = Ok row -> keys row = REPORT_COLUMNS.
Proof.
  destruct module; try discriminate.
  rewrite module_row_of_record. intros H. injection H as <-. reflexivity.
Qed.

Lemma device_rows_keys (cluster : dict) (rows : list dict) :
  device_rows cluster rows ->
  Forall (fun row => keys row = REPORT_COLUMNS) rows.
Proof.
  intros (row1 & Hrow1 & Hrows). unfold cluster_row in *.
  apply module_row_keys in Hrow1.
  destruct (has_second_module cluster).
  - destruct Hrows as (row2 & Hrow2 & ->). apply module_row_keys in Hrow2.
    repeat constructor; assumption.
  - subst rows. repeat constructor; assumption.
Qed.

Lemma process_gateways_keys (gateways : list dict) (data : list dict) :
  _process_gateways gateways = Ok data ->
  Forall (fun row => keys row = REPORT_COLUMNS) data.
Proof.
  intros Hrun.
  pose proof (process_clusters_returns_only_if_well_formed gateways [] data Hrun)
    as Hwf.
  destruct (process_clusters_rows gateways Hwf) as (groups & Hgroups & Hloop).
  unfold _process_gateways in Hrun. rewrite Hloop in Hrun. injection Hrun as <-.
  simpl. clear Hloop Hwf.
  induction Hgroups as [|cluster rows gs gr Hrows _ IH]; simpl; [constructor|].
  apply Forall_app. split; [now apply (device_rows_keys cluster)|exact IH].
Qed.

Lemma add_keys_known (ks headers : list string) :
  (forall k, In k ks -> In k headers) ->
  add_keys ks headers = headers.
Proof.
  induction ks as [|k ks IH]; intros Hknown; simpl; [reflexivity|].
  assert (Hk : existsb (String.eqb k) headers = true).
  { apply existsb_exists. exists k. split; [apply Hknown; now left|].
    apply String.eqb_refl. }
  rewrite Hk. apply IH. intros k' Hk'. apply Hknown. now right.
Qed.

Lemma collect_headers_known (data : list dict) (headers : list string) :
  Forall (fun row => keys row = headers) data ->
  collect_headers data headers = headers.
Proof.
  induction 1 as [|row data Hrow _ IH]; simpl; [reflexivity|].
  rewrite add_keys_known; [exact IH|]. intros k Hk. now rewrite <- Hrow.
Qed.

Lemma cells_of_own_keys (entry : dict) :
  NoDup (keys entry) ->
  row_cells (keys entry) entry = map snd entry.
Proof.
  unfold row_cells, keys.
  induction entry as [|[k v] entry IH]; intros Hnodup; simpl; [reflexivity|].
  inversion Hnodup as [|? ? Hfresh Hrest]; subst.
  unfold get_default at 1. simpl. rewrite String.eqb_refl. f_equal.
  rewrite <- (IH Hrest). apply map_ext_in. intros h Hh.
  unfold get_default. simpl.
  destruct (String.eqb_spec h k) as [->|_]; [now elim Hfresh|reflexivity].
Qed.

(** X10. Every row [_process_gateways] returns has the same twelve keys, in
    the same order; so the header of the report written from a non-empty
    result is always these twelve columns, and every cell of a data record
    is a value of its row, never the empty-string default. *)
Theorem report_columns_are_fixed (gateways : list dict) (data : list dict) :
  _process_gateways gateways = Ok data ->
  data <> [] ->
  Forall (fun row => keys row = REPORT_COLUMNS) data /\
  collect_headers data [] = REPORT_COLUMNS /\
  Forall (fun row => row_cells (collect_headers data []) row = map snd row) data.
Proof.
  intros Hrun Hdata.
  pose proof (process_gateways_keys gateways data Hrun) as Hkeys.
  assert (Hheaders : collect_headers data [] = REPORT_COLUMNS).
  { destruct data as [|row data]; [now elim Hdata|].
    inversion Hkeys as [|? ? Hrow Hrest]; subst. simpl. rewrite Hrow.
    change (add_keys REPORT_COLUMNS []) with REPORT_COLUMNS.
    now apply collect_headers_known. }
  split; [exact Hkeys|]. split; [exact Hheaders|].
  rewrite Hheaders. apply Forall_forall. intros row Hrow.
  rewrite Forall_forall in Hkeys. specialize (Hkeys row Hrow).
  rewrite <- Hkeys. apply cells_of_own_keys. rewrite Hkeys.
  unfold REPORT_COLUMNS. repeat constructor; simpl; intuition discriminate.
Qed.

Lemma report_columns_are_fixed_witness :
  exists data,
    _process_gateways sample_gateways = Ok data /\
    collect_headers data [] = REPORT_COLUMNS.
Proof.
  eexists. split; [reflexivity|].
  eapply (report_columns_are_fixed sample_gateways).
  - reflexivity.
  - discriminate.
Defined.

(** ** A listing that never ends *)

Section EndlessListing.

Variable get_next : APIResponse -> APIResponse.
Variable listOrgDevicesStats : string -> APIResponse.
Variable listSiteDevicesStats : string -> APIResponse.

Lemma follow_pages_never_returns (linked : APIResponse -> Prop) :
  (forall response, linked response ->
     has_next response = true /\ linked (get_next response)) ->
  forall fuel response gateways,
    linked response ->
    follow_pages get_next fuel response gateways = None.
Proof.
  intros Hlinked. induction fuel as [|fuel IH]; intros response gateways Hr;
    destruct (Hlinked response Hr) as [Hnext Hlater]; simpl; rewrite Hnext.
  - reflexivity.
  - now apply IH.
Qed.

(** X11. The pagination loops have no guard of their own: when every page
    of the listing links to a next page (a link that comes back to an
    earlier page, say), neither loop ever returns, however long it runs. *)
Theorem endless_listing_never_returns (linked : APIResponse -> Prop)
    (scope_id : string) :
  (forall response, linked response ->
     has_next response = true /\ linked (get_next response)) ->
  (linked (listOrgDevicesStats scope_id) ->
   forall fuel,
     _get_org_gateways get_next listOrgDevicesStats fuel scope_id = None) /\
  (linked (listSiteDevicesStats scope_id) ->
   forall fuel,
     _get_site_gateways get_next listSiteDevicesStats fuel scope_id = None).
Proof.
  intros Hlinked. split; intros Hfirst fuel.
  - unfold _get_org_gateways. now apply (follow_pages_never_returns linked).
  - unfold _get_site_gateways. now apply (follow_pages_never_returns linked).
Qed.

End EndlessListing.

Lemma endless_listing_never_returns_witness :
  _get_org_gateways (fun _ => looping_page) (fun _ => looping_page) 1000 "org-1"
  = None.
Proof.
  apply (proj1 (endless_listing_never_returns (fun _ => looping_page)
                  (fun _ => looping_page) (fun _ => looping_page)
                  (fun response => response = looping_page) "org-1"
                  (fun response H =>
                     conj (f_equal has_next H) (eq_refl looping_page)))
           (eq_refl looping_page) 1000).
Defined.

(** ** Records and lines *)

Lemma has_break_app (a b : string) :
  has_break (a ++ b) = has_break a || has_break b.
Proof.
  induction a as [|x a IH]; simpl; [reflexivity|].
  now rewrite IH, !orb_assoc.
Qed.

Lemma has_break_double_quotes (s : string) :
  has_break (double_quotes s) = has_break s.
Proof.
  induction s as [|x s IH]; simpl; [reflexivity|].
  destruct (Ascii.eqb_spec x DQUOTE) as [->|_]; simpl; now rewrite IH.
Qed.

Lemma has_break_quoted (s : string) : has_break (quoted s) = has_break s.
Proof.
  unfold quoted. simpl. rewrite has_break_app, has_break_double_quotes. simpl.
  now rewrite orb_false_r.
Qed.

Lemma has_break_join (fields : list string) :
  Forall (fun field => has_break field = false) fields ->
  has_break (String.concat (String COMMA "") fields) = false.
Proof.
  induction 1 as [|field fields Hfield Hrest IH]; [reflexivity|].
  destruct fields as [|next fields]; [exact Hfield|].
  change (String.concat (String COMMA "") (field :: next :: fields))
    with (field ++ String COMMA "" ++ String.concat (String COMMA "") (next :: fields)).
  rewrite !has_break_app, Hfield, IH. reflexivity.
Qed.

(** A text that starts with a record free of line breaks, read back. *)
Lemma file_lines_record (s rest cur : string) :
  has_break s = false ->
  Trigger.file_lines (s ++ CRLF ++ rest) cur =
  (cur ++ s ++ CRLF) :: Trigger.file_lines rest "".
Proof.
  revert cur. induction s as [|x s IH]; intros cur Hplain.
  - reflexivity.
  - simpl in Hplain. apply orb_false_iff in Hplain as [Hx Hs].
    apply orb_false_iff in Hx as [Hcr Hlf].
    simpl. rewrite Hlf, Hcr. rewrite IH by exact Hs.
    f_equal. now rewrite PyFacts.append_assoc.
Qed.

Lemma file_lines_records (records : list string) :
  Forall (fun record =>
            exists body, record = body ++ CRLF /\ has_break body = false)
    records ->
  Trigger.file_lines (text_of records) "" = records.
Proof.
  induction 1 as [|record records (body & -> & Hbody) _ IH]; [reflexivity|].
  cbn [text_of fold_right]. fold (text_of records).
  rewrite PyFacts.append_assoc, (file_lines_record body _ "" Hbody), IH.
  reflexivity.
Qed.

Section RecordProofs.

Variable str_container : value -> string.

Lemma has_break_write_field (v : value) :
  has_break (write_field str_container v) = has_break (field_text str_container v).
Proof.
  unfold write_field. destruct (needs_quotes (field_text str_container v));
    [apply has_break_quoted|reflexivity].
Qed.

(** A record whose fields hold no line break is one line. *)
Lemma writerow_is_a_line (row : list value) :
  Forall (fun v => has_break (field_text str_container v) = false) row ->
  exists body,
    writerow str_container row = body ++ CRLF /\ has_break body = false.
Proof.
  intros Hrow. unfold writerow.
  assert (Hbody : has_break (String.concat (String COMMA "")
                               (map (write_field str_container) row)) = false).
  { apply has_break_join. apply Forall_map.
    eapply Forall_impl; [|exact Hrow]. intros v Hv.
    now rewrite has_break_write_field. }
  destruct row as [|v row]; [now exists ""|].
  destruct (String.eqb _ ""); eexists; split; try reflexivity.
  exact Hbody.
Qed.

Lemma lookup_In (k : string) (entry : dict) (v : value) :
  lookup k entry = Some v -> In (k, v) entry.
Proof.
  induction entry as [|[k' v'] entry IH]; simpl; [discriminate|].
  destruct (String.eqb_spec k k') as [->|_].
  - intros H. injection H as ->. now left.
  - intros H. right. now apply IH.
Qed.

(** X12. When neither the scope and its id nor any key or value of the data
    rows holds a line break, the file [_save_as_csv] writes reads back as
    one line per record: the comment, the header, then one line per data
    row, so 2 lines more than there are rows. *)
Theorem report_has_one_line_per_record (data : list dict) (scope scope_id : string) :
  has_break scope = false ->
  has_break scope_id = false ->
  (forall entry k v,
     In entry data -> In (k, v) entry ->
     has_break k = false /\ has_break (field_text str_container v) = false) ->
  let headers := collect_headers data [] in
  let lines := Trigger.file_lines (_save_as_csv str_container data scope scope_id) "" in
  lines =
    writerow str_container [VStr (comment_text scope scope_id)]
    :: writerow str_container (map VStr headers)
    :: map (fun entry => writerow str_container (row_cells headers entry)) data /\
  List.length lines = 2 + List.length data.
Proof.
  intros Hscope Hid Hdata headers lines.
  assert (Hheaders : Forall (fun h => has_break h = false) headers).
  { apply Forall_forall. intros h Hh. unfold headers in Hh.
    rewrite collect_headers_add_keys, add_keys_first_seen in Hh. simpl in Hh.
    apply filter_In in Hh as [Hh _]. apply (proj1 (first_seen_In _ _)) in Hh.
    apply in_concat in Hh as (ks & Hks & Hh).
    apply in_map_iff in Hks as (entry & <- & Hentry).
    unfold keys in Hh. apply in_map_iff in Hh as ([k v] & <- & Hkv).
    now apply (Hdata entry k v). }
  assert (Hlines : lines =
    writerow str_container [VStr (comment_text scope scope_id)]
    :: writerow str_container (map VStr headers)
    :: map (fun entry => writerow str_container (row_cells headers entry)) data).
  { unfold lines. rewrite save_as_csv_text. fold headers.
    change (?a ++ text_of ?l) with (text_of (a :: l)).
    apply file_lines_records.
    constructor; [|constructor].
    - apply writerow_is_a_line. constructor; [|constructor].
      unfold comment_text. cbn [field_text].
      now rewrite !has_break_app, Hscope, Hid.
    - apply writerow_is_a_line. apply Forall_map.
      eapply Forall_impl; [|exact Hheaders]. now intros h Hh.
    - apply Forall_map. apply Forall_forall. intros entry Hentry.
      apply writerow_is_a_line. unfold row_cells. apply Forall_map.
      apply Forall_forall. intros h _. unfold get_default.
      destruct (lookup h entry) as [v|] eqn:Hlookup; [|reflexivity].
      now apply (Hdata entry h v Hentry), lookup_In. }
  split; [exact Hlines|]. rewrite Hlines. simpl. now rewrite length_map.
Qed.

End RecordProofs.

Lemma report_has_one_line_per_record_witness :
  List.length
    (Trigger.file_lines (_save_as_csv (fun _ => "") sample_rows "org" "org-1") "")
  = 2 + List.length sample_rows.
Proof.
  apply (report_has_one_line_per_record (fun _ => "") sample_rows "org" "org-1"
           eq_refl eq_refl).
  intros entry k v Hentry Hkv. simpl in Hentry.
  destruct Hentry as [<-|[<-|[]]]; simpl in Hkv;
    repeat (destruct Hkv as [Hkv|Hkv]; [injection Hkv as <- <-; now split|]);
    now destruct Hkv.
Defined.

(** ** The name of the report file *)

Lemma replace_without_occurrence (old new s : string) :
  str_contains old s = false -> str_replace old new s = s.
Proof.
  unfold str_replace. induction s as [|c s IH]; [reflexivity|].
  rewrite PyFacts.str_contains_unfold.
  destruct (String.prefix old (String c s)) eqn:Hprefix; [discriminate|].
  intros Hrest. cbn [replace_from]. rewrite Hprefix. now rewrite IH.
Qed.

(** An occurrence of ".csv" that starts inside [x] lies inside [x], also
    when ".csv" follows [x]. *)
Lemma csv_prefix_inside (x : string) :
  x <> "" ->
  String.prefix ".csv" (x ++ ".csv") = String.prefix ".csv" x.
Proof.
  intros Hx.
  destruct x as [|c1 [|c2 [|c3 [|c4 x]]]]; [now elim Hx| | | |destruct x];
    cbn [String.append String.prefix];
    repeat match goal with
           | |- context [ascii_dec ?a ?b] => destruct (ascii_dec a b)
           end;
    try reflexivity; try discriminate; subst; congruence.
Qed.

Lemma replace_final_csv (new base : string) :
  str_contains ".csv" base = false ->
  str_replace ".csv" new (base ++ ".csv") = base ++ new.
Proof.
  unfold str_replace. induction base as [|c base IH]; intros Hbase.
  - simpl. now rewrite !PyFacts.append_nil_r.
  - rewrite PyFacts.str_contains_unfold in Hbase.
    destruct (String.prefix ".csv" (String c base)) eqn:Hprefix; [discriminate|].
    change (String c base ++ ".csv") with (String c (base ++ ".csv")).
    cbn [replace_from].
    change (String c (base ++ ".csv")) with (String c base ++ ".csv").
    rewrite csv_prefix_inside by discriminate. rewrite Hprefix.
    cbn [String.append]. now rewrite IH.
Qed.

(** X16. With a date or a timestamp asked for, a file name that holds no
    ".csv" gets the extension and nothing else: the date or timestamp is
    left out of the name, so two such reports have the same name. *)
Theorem name_without_csv_gets_no_suffix (csv_file : string)
    (append_dt append_ts : bool) (now_iso : string) (now_ts : Z) :
  str_contains ".csv" csv_file = false ->
  append_dt = true \/ append_ts = true ->
  report_file_name csv_file append_dt append_ts now_iso now_ts = csv_file ++ ".csv".
Proof.
  intros Hname Hasked. unfold report_file_name.
  destruct append_dt; [now rewrite replace_without_occurrence|].
  destruct append_ts; [now rewrite replace_without_occurrence|].
  destruct Hasked; discriminate.
Qed.

Lemma name_without_csv_gets_no_suffix_witness :
  report_file_name "./report" true false "2024-05-06T07:08:09.123456" 1714979289
  = "./report.csv".
Proof.
  apply (name_without_csv_gets_no_suffix "./report" true false
           "2024-05-06T07:08:09.123456" 1714979289 eq_refl).
  now left.
Defined.

(** X17. A file name that ends in ".csv", with no other ".csv" in it, gets
    the date or the timestamp between its base and the extension: the base,
    an underscore, the ISO date and time to the second with its colons
    turned into dots (or the timestamp), then ".csv"; the date wins when
    both are asked for, and the name is left as it is when none is. *)
Theorem name_gets_its_suffix_before_csv (base : string)
    (append_dt append_ts : bool) (now_iso : string) (now_ts : Z) :
  str_contains ".csv" base = false ->
  report_file_name (base ++ ".csv") append_dt append_ts now_iso now_ts =
  base ++ name_suffix append_dt append_ts now_iso now_ts ++ ".csv".
Proof.
  intros Hbase. unfold report_file_name, name_suffix.
  destruct append_dt; [|destruct append_ts].
  - cbv zeta. rewrite replace_final_csv by exact Hbase.
    now rewrite PyFacts.append_assoc.
  - cbv zeta. rewrite replace_final_csv by exact Hbase.
    now rewrite PyFacts.append_assoc.
  - reflexivity.
Qed.

Lemma name_gets_its_suffix_before_csv_witness :
  report_file_name ("./report_gateway_firmware" ++ ".csv") true false
    "2024-05-06T07:08:09.123456" 1714979289
  = "./report_gateway_firmware_2024-05-06T07.08.09.csv".
Proof.
  apply (name_gets_its_suffix_before_csv "./report_gateway_firmware" true false
           "2024-05-06T07:08:09.123456" 1714979289 eq_refl).
Defined.

(** ** The menu *)

Section MenuProofs.

Variable py_int : string -> option Z.

Lemma show_menu_outcome (menu : list string) (answers : list string) :
  forall errors0,
  exists rejected,
    Forall (is_rejected py_int menu) rejected /\
    match _show_menu py_int menu answers errors0 with
    | (Chosen entry, rest, errors) =>
        List.length errors = List.length errors0 + List.length rejected /\
        exists resp n,
          answers = (rejected ++ resp :: rest)%list /\
          lower resp <> "q" /\
          py_int resp = Some n /\
          (0 <= n < Z.of_nat (List.length menu))%Z /\
          nth_error menu (Z.to_nat n) = Some entry
    | (MenuExit code, rest, errors) =>
        List.length errors = List.length errors0 + List.length rejected /\
        code = 0%Z /\
        exists resp,
          answers = (rejected ++ resp :: rest)%list /\ lower resp = "q"
    | (MenuEOF, rest, errors) =>
        List.length errors = List.length errors0 + List.length rejected /\
        answers = rejected /\ rest = []
    end.
Proof.
  induction answers as [|resp answers IH]; intros errors0.
  - exists []. split; [constructor|]. simpl. split; [lia|now split].
  - cbn [_show_menu].
    destruct (String.eqb_spec (lower resp) "q") as [Hq|Hq].
    + exists []. split; [constructor|]. simpl. split; [lia|]. split; [reflexivity|].
      now exists resp.
    + assert (Hnext : forall message,
                is_rejected py_int menu resp ->
                exists rejected,
                  Forall (is_rejected py_int menu) rejected /\
                  match _show_menu py_int menu answers (errors0 ++ [message])%list with
                  | (Chosen entry, rest, errors) =>
                      List.length errors = List.length errors0 + List.length rejected /\
                      exists resp' n,
                        resp :: answers = (rejected ++ resp' :: rest)%list /\
                        lower resp' <> "q" /\
                        py_int resp' = Some n /\
                        (0 <= n < Z.of_nat (List.length menu))%Z /\
                        nth_error menu (Z.to_nat n) = Some entry
                  | (MenuExit code, rest, errors) =>
                      List.length errors = List.length errors0 + List.length rejected /\
                      code = 0%Z /\
                      exists resp',
                        resp :: answers = (rejected ++ resp' :: rest)%list /\
                        lower resp' = "q"
                  | (MenuEOF, rest, errors) =>
                      List.length errors = List.length errors0 + List.length rejected /\
                      resp :: answers = rejected /\ rest = []
                  end).
      { intros message Hrejected.
        destruct (IH (errors0 ++ [message])%list) as (rejected & Hall & Hrun).
        exists (resp :: rejected). split; [now constructor|].
        destruct (_show_menu py_int menu answers (errors0 ++ [message])%list)
          as [[[entry|code|] rest] errors]; rewrite length_app in Hrun;
          cbn [List.length] in *.
        - destruct Hrun as (Hlen & resp' & n & -> & Hrest).
          split; [lia|]. now exists resp', n.
        - destruct Hrun as (Hlen & Hcode & resp' & -> & Hrest).
          split; [lia|]. split; [exact Hcode|]. now exists resp'.
        - destruct Hrun as (Hlen & -> & Hrest). split; [lia|]. now split. }
      destruct (py_int resp) as [n|] eqn:Hint.
      * cbv zeta.
        destruct ((n <? 0)%Z || (n >=? Z.of_nat (List.length menu))%Z) eqn:Hrange.
        -- apply Hnext. split; [exact Hq|]. rewrite Hint.
           apply orb_true_iff in Hrange as [H|H]; [left|right]; lia.
        -- apply orb_false_iff in Hrange as [Hlow Hhigh].
           assert (Hin : Z.to_nat n < List.length menu) by lia.
           destruct (nth_error menu (Z.to_nat n)) as [entry|] eqn:Hnth.
           ++ exists []. split; [constructor|]. simpl. split; [lia|].
              exists resp, n. repeat split; try assumption; lia.
           ++ apply nth_error_None in Hnth. lia.
      * apply Hnext. split; [exact Hq|]. now rewrite Hint.
Qed.

(** X18. [_show_menu] only ever returns an entry of the menu: it reads the
    answers in order, sends one message to [console.error] for each answer
    that is neither "q" nor the number of an entry, and ends at the first
    other answer, with the entry of that number, or with exit code 0 for
    "q" in either case; when the answers run out before, the [EOFError] of
    [input] leaves it. *)
Theorem show_menu_returns_an_entry (menu : list string) (answers : list string) :
  exists rejected,
    Forall (is_rejected py_int menu) rejected /\
    match _show_menu py_int menu answers [] with
    | (Chosen entry, rest, errors) =>
        In entry menu /\
        List.length errors = List.length rejected /\
        exists resp n,
          answers = (rejected ++ resp :: rest)%list /\
          py_int resp = Some n /\
          nth_error menu (Z.to_nat n) = Some entry
    | (MenuExit code, rest, errors) =>
        code = 0%Z /\
        List.length errors = List.length rejected /\
        exists resp,
          answers = (rejected ++ resp :: rest)%list /\ lower resp = "q"
    | (MenuEOF, rest, errors) =>
        List.length errors = List.length rejected /\ answers = rejected
    end.
Proof.
  destruct (show_menu_outcome menu answers []) as (rejected & Hall & Hrun).
  exists rejected. split; [exact Hall|].
  destruct (_show_menu py_int menu answers []) as [[[entry|code|] rest] errors];
    cbn [List.length Nat.add] in Hrun.
  - destruct Hrun as (Hlen & resp & n & Hanswers & _ & Hint & _ & Hnth).
    split; [now apply nth_error_In with (n := Z.to_nat n)|].
    split; [exact Hlen|]. now exists resp, n.
  - destruct Hrun as (Hlen & Hcode & Hresp). now repeat split.
  - destruct Hrun as (Hlen & Hanswers & _). now split.
Qed.

End MenuProofs.

(** ** The options of the entry point *)

Lemma parse_report_opts_keeps (opts : list (string * string)) :
  forall cfg cfg',
    options_consistent cfg ->
    parse_report_opts opts cfg = Parsed cfg' ->
    options_consistent cfg' /\
    scope_options opts + (if scope_is_set cfg then 1 else 0) =
      (if scope_is_set cfg' then 1 else 0) /\
    Forall (fun option => is_help_option (fst option) = false) opts.
Proof.
  induction opts as [|[o a] opts IH]; intros cfg cfg' Hcfg Hrun.
  - simpl in Hrun. injection Hrun as <-. split; [exact Hcfg|]. split; [reflexivity|].
    constructor.
  - cbn [parse_report_opts] in Hrun. unfold scope_options. cbn [filter fst].
    unfold is_scope_option, is_help_option.
    destruct Hcfg as [Hsuffix Hscope].
    destruct (one_of o ["-h"; "--help"]) eqn:Hhelp; [discriminate|].
    destruct (one_of o ["-o"; "--org_id"]) eqn:Horg.
    { destruct (scope_is_set cfg) eqn:Hset; [discriminate|].
      apply IH in Hrun as (Hcfg' & Hcount & Hall).
      - split; [exact Hcfg'|]. split; [|now constructor].
        cbn [orb List.length]. unfold scope_options, is_scope_option in Hcount.
        change (scope_is_set _) with true in Hcount at 1.
        cbv iota in Hcount. rewrite <- Hcount. lia.
      - split; [exact Hsuffix|]. right. exists a. now split; [left|]. }
    destruct (one_of o ["-s"; "--site_id"]) eqn:Hsite.
    { destruct (scope_is_set cfg) eqn:Hset; [discriminate|].
      apply IH in Hrun as (Hcfg' & Hcount & Hall).
      - split; [exact Hcfg'|]. split; [|now constructor].
        cbn [orb List.length]. unfold scope_options, is_scope_option in Hcount.
        change (scope_is_set _) with true in Hcount at 1.
        cbv iota in Hcount. rewrite <- Hcount. lia.
      - split; [exact Hsuffix|]. right. exists a. now split; [right|]. }
    cbn [orb].
    assert (Hother : forall cfg1,
              options_consistent cfg1 ->
              scope_is_set cfg1 = scope_is_set cfg ->
              parse_report_opts opts cfg1 = Parsed cfg' ->
              options_consistent cfg' /\
              List.length (filter (fun option =>
                                     one_of (fst option) ["-o"; "--org_id"]
                                     || one_of (fst option) ["-s"; "--site_id"]) opts)
              + (if scope_is_set cfg then 1 else 0) =
                (if scope_is_set cfg' then 1 else 0) /\
              Forall (fun option => one_of (fst option) ["-h"; "--help"] = false)
                ((o, a) :: opts)).
    { intros cfg1 Hcfg1 Hsame Hrun1.
      apply IH in Hrun1 as (Hcfg' & Hcount & Hall); [|exact Hcfg1].
      split; [exact Hcfg'|]. split; [|now constructor].
      unfold scope_options, is_scope_option in Hcount. now rewrite <- Hsame. }
    destruct (one_of o ["-d"; "--datetime"]).
    { destruct (APPEND_TS cfg) eqn:Hts; [discriminate|].
      apply Hother in Hrun; [exact Hrun| |reflexivity].
      split; [reflexivity|exact Hscope]. }
    destruct (one_of o ["-t"; "--timestamp"]).
    { destruct (APPEND_DT cfg) eqn:Hdt; [discriminate|].
      apply Hother in Hrun; [exact Hrun| |reflexivity].
      split; [reflexivity|exact Hscope]. }
    destruct (one_of o ["-f"; "--out_file"]).
    { apply Hother in Hrun; [exact Hrun| |reflexivity]. now split. }
    destruct (one_of o ["-e"; "--env"]).
    { apply Hother in Hrun; [exact Hrun| |reflexivity]. now split. }
    destruct (one_of o ["-l"; "--log_file"]); [|discriminate].
    apply Hother in Hrun; [exact Hrun| |reflexivity]. now split.
Qed.

(** X19. When the option loop of the entry point ends with options to run
    with, they are consistent: the date and the timestamp suffix are never
    both asked for; the scope is "org" or "site" and has its id exactly
    when one scope option was given, and is unset when none was; and the
    command line held no second scope option and no help option (these end
    in the usage text). *)
Theorem parsed_options_are_consistent (opts : list (string * string))
    (cfg : report_options) :
  parse_report_opts opts initial_options = Parsed cfg ->
  options_consistent cfg /\
  scope_options opts = (if scope_is_set cfg then 1 else 0) /\
  scope_options opts <= 1 /\
  Forall (fun option => is_help_option (fst option) = false) opts.
Proof.
  intros Hrun.
  assert (Hinit : options_consistent initial_options).
  { split; [reflexivity|]. left. now split. }
  destruct (parse_report_opts_keeps opts initial_options cfg Hinit Hrun)
    as (Hcfg & Hcount & Hall).
  cbn [scope_is_set initial_options SCOPE] in Hcount. rewrite Nat.add_0_r in Hcount.
  split; [exact Hcfg|]. split; [exact Hcount|]. split; [|exact Hall].
  rewrite Hcount. destruct (scope_is_set cfg); lia.
Qed.

Lemma parsed_options_are_consistent_witness :
  options_consistent
    (mkReportOptions (Some "org") (Some "org-1") true false "out.csv") /\
  scope_options [("-o", "org-1"); ("-d", ""); ("-f", "out.csv")] = 1.
Proof.
  destruct (parsed_options_are_consistent
              [("-o", "org-1"); ("-d", ""); ("-f", "out.csv")]
              (mkReportOptions (Some "org") (Some "org-1") true false "out.csv")
              eq_refl)
    as (Hcfg & Hcount & _).
  split; [exact Hcfg|exact Hcount].
Defined.

(** ** The run *)

Lemma processed_gateways_give_rows (gateways data : list dict) :
  gateways <> [] ->
  _process_gateways gateways = Ok data ->
  data <> [].
Proof.
  intros Hne Hrun.
  pose proof (process_clusters_returns_only_if_well_formed gateways [] data Hrun)
    as Hwf.
  destruct (process_clusters_rows gateways Hwf) as (groups & Hgroups & Hloop).
  unfold _process_gateways in Hrun. rewrite Hloop in Hrun. injection Hrun as <-.
  destruct Hgroups as [|cluster rows gs gr Hrows _]; [now elim Hne|].
  destruct Hrows as (row1 & _ & Hrows). simpl.
  destruct (has_second_module cluster).
  - destruct Hrows as (row2 & _ & ->). discriminate.
  - subst rows. discriminate.
Qed.

Section StartProofs.

Variable py_int : string -> option Z.
Variable select_org : list string.
Variable select_site : list string.
Variable get_next : APIResponse -> APIResponse.
Variable listOrgDevicesStats : string -> APIResponse.
Variable listSiteDevicesStats : string -> APIResponse.
Variable str_container : value -> string.
Variable now_iso : string.
Variable now_ts : Z.

(** X20. With a scope given and a listing that returns, [_start] writes a
    report exactly when the listing holds a gateway and the processing of
    the gateways returns: an empty listing ends the run with no file; an
    exception of the processing leaves the run, with no file either; and
    otherwise the file written is the report of all the rows, which are at
    least one, under the name computed from the flags. *)
Theorem report_is_written_when_there_are_gateways (fuel : nat)
    (scope scope_id csv_file : string) (append_dt append_ts : bool)
    (answers : list string) (gateways : list dict) :
  (scope = "org" /\
   _get_org_gateways get_next listOrgDevicesStats fuel scope_id = Some gateways) \/
  (scope = "site" /\
   _get_site_gateways get_next listSiteDevicesStats fuel scope_id = Some gateways) ->
  let run :=
    _start py_int select_org select_site get_next listOrgDevicesStats
      listSiteDevicesStats str_container now_iso now_ts
      fuel (Some scope) scope_id csv_file append_dt append_ts answers in
  (gateways = [] -> run = RunDone None) /\
  (forall e, _process_gateways gateways = Raise e -> run = RunRaises e) /\
  (forall data,
     gateways <> [] ->
     _process_gateways gateways = Ok data ->
     data <> [] /\
     run = RunDone
             (Some (report_file_name csv_file append_dt append_ts now_iso now_ts,
                    _save_as_csv str_container data scope scope_id))).
Proof.
  intros Hlisted run.
  assert (Hrun : run =
    match gateways with
    | [] => RunDone None
    | _ :: _ =>
        match _process_gateways gateways with
        | Raise e => RunRaises e
        | Ok [] => RunDone None
        | Ok (row :: data) =>
            RunDone
              (Some (report_file_name csv_file append_dt append_ts now_iso now_ts,
                     _save_as_csv str_container (row :: data) scope scope_id))
        end
    end).
  { unfold run. destruct Hlisted as [[-> Hlisted]|[-> Hlisted]];
      cbn [_start]; unfold report_scope; cbn [String.eqb Ascii.eqb Bool.eqb];
      rewrite Hlisted; now destruct gateways. }
  split; [|split].
  - intros ->. exact Hrun.
  - intros e Hraise. rewrite Hrun.
    destruct gateways as [|cluster gateways]; [discriminate Hraise|].
    now rewrite Hraise.
  - intros data Hne Hdata.
    pose proof (processed_gateways_give_rows gateways data Hne Hdata) as Hrows.
    split; [exact Hrows|]. rewrite Hrun.
    destruct gateways as [|cluster gateways]; [now elim Hne|].
    rewrite Hdata. destruct data; [now elim Hrows|reflexivity].
Qed.

End StartProofs.

Lemma report_is_written_when_there_are_gateways_witness :
  exists text,
    _start (fun _ => None) [] [] sample_get_next (fun _ => sample_first_page)
      (fun _ => sample_first_page) (fun _ => "") "2024-05-06T07:08:09.123456"
      1714979289 2 (Some "org") "org-1" "./report_gateway_firmware.csv" false true []
    = RunDone (Some ("./report_gateway_firmware_1714979289.csv", text)).
Proof.
  eexists.
  eapply (proj2 (proj2 (report_is_written_when_there_are_gateways
                          (fun _ => None) [] [] sample_get_next
                          (fun _ => sample_first_page) (fun _ => sample_first_page)
                          (fun _ => "") "2024-05-06T07:08:09.123456" 1714979289
                          2 "org" "org-1" "./report_gateway_firmware.csv" false true
                          [] (List.concat sample_pages)
                          (or_introl (conj eq_refl eq_refl))))).
  - discriminate.
  - reflexivity.
Defined.

End ReporterProofs.

(* ================================================================== *)
(** * Properties of fix_gateway_backup_firmware.py *)
(* ================================================================== *)

Module TriggerProofs.
Import Py Trigger.

Local Open Scope string_scope.

(** ** The filter of the report *)

Lemma opt_eqb_eq (x y : option string) : opt_eqb x y = true <-> x = y.
Proof.
  destruct x as [a|], y as [b|]; simpl; try (split; [discriminate|congruence]).
  - rewrite String.eqb_eq. split; congruence.
  - tauto.
Qed.

Lemma opt_in_In (x : option string) (l : list (option string)) :
  opt_in x l = true <-> In x l.
Proof.
  unfold opt_in. rewrite existsb_exists. split.
  - intros (y & Hy & Heq). apply opt_eqb_eq in Heq. now subst.
  - intros Hx. exists x. split; [exact Hx|now apply opt_eqb_eq].
Qed.

(** The test [qualifies] says what [Qualifies] states. *)
Lemma qualifies_Qualifies (site_id : option string) (row : csv_row) :
  qualifies site_id row = true <-> Qualifies site_id row.
Proof.
  unfold qualifies, Qualifies. rewrite !andb_true_iff, orb_true_iff.
  rewrite negb_true_iff, !opt_eqb_eq. split.
  - intros [[Hmodel Hsnap] Hsite]. split; [|now split].
    destruct (row_get row "module_model") as [model|]; [|discriminate].
    apply PyFacts.str_contains_split in Hmodel as (before & after & ->).
    now exists (before ++ "SRX" ++ after), before, after.
  - intros [(model & before & after & Hmodel & Hsplit) [Hsnap Hsite]].
    split; [split|]; [|exact Hsnap|exact Hsite].
    rewrite Hmodel. apply PyFacts.str_contains_split. now exists before, after.
Qed.

(** On rows that all have a model, the loop of [_read_csv] does not raise
    and appends the selected rows to its accumulator. *)
Lemma read_rows_select (site_id : option string) (rows : list csv_row) :
  Forall has_model rows ->
  forall data device_ids,
    read_rows site_id rows data device_ids =
    Ok (data ++ select site_id rows device_ids)%list.
Proof.
  induction 1 as [|row rows [model Hmodel] _ IH]; intros data device_ids.
  - simpl. now rewrite app_nil_r.
  - simpl. unfold qualifies, device_id. rewrite Hmodel.
    destruct (str_contains "SRX" model); simpl; [|apply IH].
    destruct (opt_truthy site_id); simpl.
    + destruct (opt_eqb (row_get row "cluster_site_id") site_id); simpl;
        [|rewrite andb_false_r; apply IH].
      destruct (opt_eqb (row_get row "module_need_snapshot") (Some "True"));
        simpl; [|apply IH].
      destruct (opt_in (row_get row "cluster_device_id") device_ids); simpl;
        [apply IH|].
      rewrite IH. now rewrite <- app_assoc.
    + rewrite andb_true_r.
      destruct (opt_eqb (row_get row "module_need_snapshot") (Some "True"));
        simpl; [|apply IH].
      destruct (opt_in (row_get row "cluster_device_id") device_ids); simpl;
        [apply IH|].
      rewrite IH. now rewrite <- app_assoc.
Qed.

(** A row with no model makes the loop raise, wherever it stands. *)
Lemma read_rows_raises (site_id : option string) (rows : list csv_row) :
  Exists (fun row => row_get row "module_model" = None) rows ->
  forall data device_ids,
    read_rows site_id rows data device_ids = Raise TypeError.
Proof.
  induction rows as [|row rows IH]; intros Hex data device_ids.
  - inversion Hex.
  - simpl. destruct (row_get row "module_model") as [model|] eqn:Hmodel;
      [|reflexivity].
    assert (Hrest : Exists (fun row => row_get row "module_model" = None) rows).
    { inversion Hex as [? ? Hnone|? ? Hrest]; subst; [congruence|exact Hrest]. }
    repeat match goal with
           | |- (if ?c then _ else _) = _ => destruct c
           end; now apply IH.
Qed.

Lemma select_app (site_id : option string) (pre post : list csv_row)
    (seen : list (option string)) :
  select site_id (pre ++ post) seen =
  (select site_id pre seen ++
   select site_id post (seen ++ map device_id (select site_id pre seen)))%list.
Proof.
  revert seen. induction pre as [|row pre IH]; intros seen; simpl.
  - now rewrite app_nil_r.
  - destruct (qualifies site_id row && negb (opt_in (device_id row) seen)); simpl.
    + rewrite IH. now rewrite <- app_assoc.
    + apply IH.
Qed.

(** The device ids selected after a prefix are those of its qualifying rows. *)
Lemma select_device_ids (site_id : option string) (pre : list csv_row) :
  forall seen d,
    In d (seen ++ map device_id (select site_id pre seen)) <->
    In d seen \/
    exists row, In row pre /\ qualifies site_id row = true /\ device_id row = d.
Proof.
  induction pre as [|row pre IH]; intros seen d; simpl.
  - rewrite app_nil_r. split; [now left|].
    intros [H|(r & [] & _)]. exact H.
  - destruct (qualifies site_id row) eqn:Hq; simpl.
    + destruct (opt_in (device_id row) seen) eqn:Hin; simpl.
      * rewrite IH. apply opt_in_In in Hin. split.
        -- intros [H|(r & Hr & Hqr & Hd)]; [now left|].
           right. exists r. now split; [right|].
        -- intros [H|(r & [<-|Hr] & Hqr & Hd)]; [now left| |].
           ++ left. now subst d.
           ++ right. now exists r.
      * change (seen ++ device_id row :: ?l)%list
          with (seen ++ [device_id row] ++ l)%list.
        rewrite app_assoc, IH, in_app_iff. simpl. split.
        -- intros [[H|[<-|[]]]|(r & Hr & Hqr & Hd)].
           ++ now left.
           ++ right. exists row. now split; [left|].
           ++ right. exists r. now split; [right|].
        -- intros [H|(r & [<-|Hr] & Hqr & Hd)].
           ++ now left; left.
           ++ left. right. now left.
           ++ right. now exists r.
    + rewrite IH. split.
      * intros [H|(r & Hr & Hqr & Hd)]; [now left|].
        right. exists r. now split; [right|].
      * intros [H|(r & [<-|Hr] & Hqr & Hd)]; [now left|congruence|].
        right. now exists r.
Qed.

Lemma select_incl (site_id : option string) (rows : list csv_row) :
  forall seen, incl (select site_id rows seen) rows.
Proof.
  induction rows as [|row rows IH]; intros seen; simpl.
  - apply incl_refl.
  - destruct (qualifies site_id row && negb (opt_in (device_id row) seen)).
    + apply incl_cons; [now left|]. apply incl_tl, IH.
    + apply incl_tl, IH.
Qed.

(** ** Reading the report *)

Section ScriptProofs.

Variable createSiteDeviceSnapshot : nat -> string -> string -> api_result.
Variable read_file : string -> option string.
Variable DictReader : list string -> result (list csv_row).
Variable answer : string.

(** When the report is read, [_read_csv] returns its selection and logs a
    success. *)
Lemma read_csv_returns (csv_file : string) (site_id : option string)
    (data : list csv_row) (st : state) :
  read_report read_file DictReader csv_file site_id = Ok data ->
  _read_csv read_file DictReader csv_file site_id st =
  (Returns data,
   logged st [EvLogMessage "Reading CSV Report"; EvLogSuccess "Reading CSV Report"]).
Proof.
  intros Hread. unfold _read_csv, try_except, bind, log_message, log_success,
    _pb_new_step, bind, emit, ret, logged.
  rewrite Hread. simpl. now rewrite <- app_assoc.
Qed.

(** When reading the report raises, [_read_csv] logs a failure and exits
    with code 1. *)
Lemma read_csv_exits (csv_file : string) (site_id : option string)
    (e : exn) (st : state) :
  read_report read_file DictReader csv_file site_id = Raise e ->
  _read_csv read_file DictReader csv_file site_id st =
  (Exits 1,
   logged st [EvLogMessage "Reading CSV Report"; EvLogFailure "Reading CSV Report";
              EvLoggerError]).
Proof.
  intros Hread. unfold _read_csv, try_except, bind, log_message, log_failure,
    _pb_new_step, bind, emit, sys_exit, ret, logged.
  rewrite Hread. simpl. now rewrite <- !app_assoc.
Qed.

(** ** The batch *)

Lemma verdicts_of_app (l l' : list event) :
  verdicts_of (l ++ l') = (verdicts_of l ++ verdicts_of l')%list.
Proof. induction l as [|[] l IH]; simpl; rewrite ?IH; reflexivity. Qed.

Lemma snapshots_of_app (l l' : list event) :
  snapshots_of (l ++ l') = (snapshots_of l ++ snapshots_of l')%list.
Proof. induction l as [|[] l IH]; simpl; rewrite ?IH; reflexivity. Qed.

Lemma prompts_of_app (l l' : list event) :
  prompts_of (l ++ l') = (prompts_of l ++ prompts_of l')%list.
Proof. induction l as [|[] l IH]; simpl; rewrite ?IH; reflexivity. Qed.

(** One turn of the loop, once the total of the progress bar is not 0: it
    returns, whatever the service does, with one verdict for the candidate
    and at most one call. *)
Lemma process_gateway_step (gateway : csv_row) (st : state) :
  steps_total st <> 0 ->
  exists count new,
    process_gateway createSiteDeviceSnapshot gateway st =
      (Returns tt,
       mkState (steps_total st) count
         (if has_ids gateway then S (api_calls st) else api_calls st)
         (trace st ++ new)%list) /\
    verdicts_of new = expected_verdicts createSiteDeviceSnapshot (api_calls st) [gateway] /\
    snapshots_of new = expected_calls [gateway].
Proof.
  destruct st as [total count calls tr]. simpl. intros Htotal.
  destruct total as [|total]; [now elim Htotal|].
  unfold process_gateway, expected_calls, has_ids. simpl.
  unfold bind, log_message, log_failure, log_success, try_except, call_snapshot,
    _pb_new_step, _pb_update, bind, emit, ret. simpl.
  destruct (opt_truthy (row_get gateway "cluster_site_id")); simpl.
  - destruct (opt_truthy (row_get gateway "cluster_device_id")); simpl.
    + destruct (createSiteDeviceSnapshot calls
                  (fmt_opt (row_get gateway "cluster_site_id"))
                  (fmt_opt (row_get gateway "cluster_device_id")))
        as [|code]; simpl.
      * rewrite <- !app_assoc. simpl.
        eexists. eexists. split; [reflexivity|]. split; reflexivity.
      * destruct (Z.eqb code 200); simpl; rewrite <- !app_assoc; simpl;
          eexists; eexists; (split; [reflexivity|]); split; reflexivity.
    + rewrite <- !app_assoc. simpl.
      eexists. eexists. split; [reflexivity|]. split; reflexivity.
  - rewrite <- !app_assoc. simpl.
    eexists. eexists. split; [reflexivity|]. split; reflexivity.
Qed.

Lemma expected_verdicts_cons (n : nat) (gateway : csv_row) (rest : list csv_row) :
  expected_verdicts createSiteDeviceSnapshot n (gateway :: rest) =
  (expected_verdicts createSiteDeviceSnapshot n [gateway] ++
   expected_verdicts createSiteDeviceSnapshot
     (n + (if has_ids gateway then 1 else 0)) rest)%list.
Proof.
  simpl. destruct (has_ids gateway); simpl.
  - now rewrite Nat.add_1_r.
  - now rewrite Nat.add_0_r.
Qed.

Lemma expected_calls_cons (gateway : csv_row) (rest : list csv_row) :
  expected_calls (gateway :: rest) =
  (expected_calls [gateway] ++ expected_calls rest)%list.
Proof.
  unfold expected_calls. simpl. now destruct (has_ids gateway).
Qed.

Lemma expected_verdicts_length (n : nat) (gateways : list csv_row) :
  List.length (expected_verdicts createSiteDeviceSnapshot n gateways) =
  List.length gateways.
Proof.
  revert n. induction gateways as [|gateway rest IH]; intros n; simpl;
    [reflexivity|].
  destruct (has_ids gateway); simpl; now rewrite IH.
Qed.

(** The loop over the candidates. *)
Lemma for_each_gateway (gateways : list csv_row) :
  forall st,
    steps_total st <> 0 ->
    exists count new,
      for_each (process_gateway createSiteDeviceSnapshot) gateways st =
        (Returns tt,
         mkState (steps_total st) count
           (api_calls st + List.length (filter has_ids gateways))
           (trace st ++ new)%list) /\
      verdicts_of new = expected_verdicts createSiteDeviceSnapshot (api_calls st) gateways /\
      snapshots_of new = expected_calls gateways.
Proof.
  induction gateways as [|gateway rest IH]; intros st Htotal.
  - exists (steps_count st), []. simpl. unfold ret.
    rewrite Nat.add_0_r, app_nil_r. destruct st. now split.
  - destruct (process_gateway_step gateway st Htotal)
      as (count1 & new1 & Hstep & Hverdicts1 & Hcalls1).
    cbn [for_each]. unfold bind at 1. rewrite Hstep.
    destruct (IH (mkState (steps_total st) count1
                    (if has_ids gateway then S (api_calls st) else api_calls st)
                    (trace st ++ new1)%list) Htotal)
      as (count2 & new2 & Hloop & Hverdicts2 & Hcalls2).
    rewrite Hloop. cbn [steps_total api_calls trace] in *.
    exists count2, (new1 ++ new2)%list. split; [|split].
    + f_equal. f_equal; [|now rewrite app_assoc].
      simpl. destruct (has_ids gateway); simpl; lia.
    + rewrite verdicts_of_app, expected_verdicts_cons, Hverdicts1, Hverdicts2.
      f_equal. f_equal. destruct (has_ids gateway); lia.
    + now rewrite snapshots_of_app, expected_calls_cons, Hcalls1, Hcalls2.
Qed.

Lemma verdict_counts (verdicts : list bool) :
  List.length (filter (fun b => b) verdicts) + List.length (filter negb verdicts) =
  List.length verdicts.
Proof.
  induction verdicts as [|[] verdicts IH]; simpl; lia.
Qed.

(** The whole batch: it returns, with the verdicts and the calls expected. *)
Lemma process_gateways_run (gateways : list csv_row) (st : state) :
  exists count new,
    _process_gateways createSiteDeviceSnapshot gateways st =
      (Returns tt,
       mkState (List.length gateways) count
         (api_calls st + List.length (filter has_ids gateways))
         (trace st ++ new)%list) /\
    verdicts_of new =
      expected_verdicts createSiteDeviceSnapshot (api_calls st) gateways /\
    snapshots_of new = expected_calls gateways.
Proof.
  unfold _process_gateways, bind, set_steps_total.
  destruct gateways as [|gateway rest].
  - exists (steps_count st), []. simpl. unfold ret. simpl.
    rewrite Nat.add_0_r, app_nil_r. now split.
  - apply (for_each_gateway (gateway :: rest)
             (mkState (List.length (gateway :: rest)) (steps_count st)
                (api_calls st) (trace st))).
    simpl. discriminate.
Qed.

(** C3. Whatever the service does, [_process_gateways] returns: no
    exception leaves the batch.  It gives each candidate one verdict, in
    order, a success exactly when the candidate has a site id and a device
    id and the call issued for it returns status 200, a failure when the
    call raises, returns another status, or an id is missing; successes and
    failures add up to the number of candidates; one call is issued per
    candidate that has both ids, and none twice.  So for five candidates
    with their ids, of which the calls for the second and the fourth raise
    and the others return 200, the batch ends with 3 successes and 2
    failures. *)
Theorem process_gateways_batch (gateways : list csv_row) (st : state) :
  exists st' new,
    _process_gateways createSiteDeviceSnapshot gateways st = (Returns tt, st') /\
    trace st' = (trace st ++ new)%list /\
    verdicts_of new = expected_verdicts createSiteDeviceSnapshot (api_calls st) gateways /\
    successes new + failures new = List.length gateways /\
    snapshots_of new = expected_calls gateways /\
    api_calls st' = api_calls st + List.length (expected_calls gateways) /\
    (forall g1 g2 g3 g4 g5,
       gateways = [g1; g2; g3; g4; g5] ->
       forallb has_ids gateways = true ->
       let call k g :=
         createSiteDeviceSnapshot (api_calls st + k)
           (fmt_opt (row_get g "cluster_site_id"))
           (fmt_opt (row_get g "cluster_device_id")) in
       call 0 g1 = ApiStatus 200 -> call 1 g2 = ApiRaises ->
       call 2 g3 = ApiStatus 200 -> call 3 g4 = ApiRaises ->
       call 4 g5 = ApiStatus 200 ->
       successes new = 3 /\ failures new = 2).
Proof.
  destruct (process_gateways_run gateways st)
    as (count & new & Hrun & Hverdicts & Hcalls).
  eexists. exists new. split; [exact Hrun|]. cbn [trace api_calls].
  split; [reflexivity|]. split; [exact Hverdicts|].
  split.
  { unfold successes, failures.
    now rewrite verdict_counts, Hverdicts, expected_verdicts_length. }
  split; [exact Hcalls|].
  split; [unfold expected_calls; now rewrite length_map|].
  intros g1 g2 g3 g4 g5 -> Hids H1 H2 H3 H4 H5.
  unfold successes, failures. rewrite Hverdicts. clear Hverdicts Hcalls Hrun.
  simpl in Hids. rewrite !andb_true_iff in Hids.
  destruct Hids as (I1 & I2 & I3 & I4 & I5 & _).
  simpl. rewrite I1, I2, I3, I4, I5.
  rewrite Nat.add_0_r in H1.
  replace (S (api_calls st)) with (api_calls st + 1) by lia.
  replace (S (api_calls st + 1)) with (api_calls st + 2) by lia.
  replace (S (api_calls st + 2)) with (api_calls st + 3) by lia.
  replace (S (api_calls st + 3)) with (api_calls st + 4) by lia.
  rewrite H1, H2, H3, H4, H5. simpl. split; reflexivity.
Qed.

(** ** Nothing to do *)

(** C5. When the selection read from the report is empty, [_start] prints
    that all the gateways are compliant and exits with code 0: after the two
    log lines of the reading there is this one event, so no prompt and no
    snapshot call, whether or not the run is auto-approved. *)
Theorem start_exits_when_nothing_to_do (site_id : option string)
    (csv_file : string) (auto_approve : bool) (st : state) :
  read_report read_file DictReader csv_file site_id = Ok [] ->
  exists st',
    _start createSiteDeviceSnapshot read_file DictReader answer
      site_id csv_file auto_approve st = (Exits 0, st') /\
    trace st' =
      (trace st ++
       [EvLogMessage "Reading CSV Report"; EvLogSuccess "Reading CSV Report";
        EvPrint "All the gateways are compliant... Exiting..."])%list /\
    prompts_of (trace st') = prompts_of (trace st) /\
    snapshots_of (trace st') = snapshots_of (trace st) /\
    api_calls st' = api_calls st.
Proof.
  intros Hread. eexists. split.
  - unfold _start, bind. rewrite (read_csv_returns _ _ _ _ Hread).
    unfold emit, sys_exit, logged. cbn. reflexivity.
  - cbn. rewrite <- app_assoc. split; [reflexivity|].
    rewrite prompts_of_app, snapshots_of_app. simpl. now rewrite !app_nil_r.
Qed.

(** ** Exit codes *)

(** [_start] ends in one of three ways: it returns after the batch, it
    exits with code 0 (nothing to do, or the user declined), or it exits
    with code 1 (the report could not be read). *)
Lemma start_outcomes (site_id : option string) (csv_file : string)
    (auto_approve : bool) (st : state) :
  let run := _start createSiteDeviceSnapshot read_file DictReader answer
               site_id csv_file auto_approve st in
  fst run = Returns tt \/ fst run = Exits 0 \/ fst run = Exits 1.
Proof.
  intros run. unfold run, _start, bind.
  destruct (read_report read_file DictReader csv_file site_id) as [data|e] eqn:Hread.
  - rewrite (read_csv_returns _ _ _ _ Hread).
    destruct data as [|row data]; [right; left; reflexivity|].
    unfold bind. destruct auto_approve.
    + unfold emit. left.
      match goal with
      | |- fst (_process_gateways _ ?g ?s) = _ =>
          destruct (process_gateways_run g s) as (count & new & Hrun & _)
      end.
      now rewrite Hrun.
    + unfold _request_approval, bind, emit, sys_exit.
      destruct (String.eqb (lower answer) "y"); [left|right; left; reflexivity].
      match goal with
      | |- fst (_process_gateways _ ?g ?s) = _ =>
          destruct (process_gateways_run g s) as (count & new & Hrun & _)
      end.
      now rewrite Hrun.
  - rewrite (read_csv_exits _ _ _ _ Hread). right; right; reflexivity.
Qed.

(** The exit codes of the script.  Code 2: [mistapi] is missing, or its
    version string is smaller, as a string, than the minimum.  Code 0: the
    options do not parse, help comes first among them, or the user declines.
    Code 1: the report cannot be read. *)
Lemma exit_codes (mistapi_version : string) (st : state) :
  let main := main createSiteDeviceSnapshot read_file DictReader answer in
  let _start := _start createSiteDeviceSnapshot read_file DictReader answer in
  (forall opts, fst (main false mistapi_version opts st) = Exits 2) /\
  fst (main true mistapi_version None st) = Exits 0 /\
  (forall a rest, fst (main true mistapi_version (Some (("-h", a) :: rest)) st) = Exits 0) /\
  (forall a rest, fst (main true mistapi_version (Some (("--help", a) :: rest)) st) = Exits 0) /\
  (str_lt mistapi_version MISTAPI_MIN_VERSION = true ->
   fst (main true mistapi_version (Some []) st) = Exits 2) /\
  (forall site_id csv_file e,
     read_report read_file DictReader csv_file site_id = Raise e ->
     fst (_start site_id csv_file false st) = Exits 1) /\
  (forall site_id csv_file row data,
     read_report read_file DictReader csv_file site_id = Ok (row :: data) ->
     String.eqb (lower answer) "y" = false ->
     fst (_start site_id csv_file false st) = Exits 0).
Proof.
  cbv zeta. repeat split.
  - intros Hold. unfold main, bind, ret, parse_opts, check_mistapi_version. simpl.
    rewrite Hold. reflexivity.
  - intros site_id csv_file e Hread. unfold _start, bind.
    now rewrite (read_csv_exits _ _ _ _ Hread).
  - intros site_id csv_file row data Hread Hno. unfold _start, bind.
    rewrite (read_csv_returns _ _ _ _ Hread).
    unfold _request_approval, bind, emit, sys_exit. now rewrite Hno.
Qed.

(** C7, the version check at the version "0.6.0": it is below the minimum
    "0.53.0" as a version, and not as a string ("6" comes after "5"); the
    check lets it pass, and the script goes on to log in and start, so that
    it does not exit with code 2. *)
Theorem version_check_misses_older_version (st : state) :
  version_below "0.6.0" MISTAPI_MIN_VERSION = true /\
  str_lt "0.6.0" MISTAPI_MIN_VERSION = false /\
  check_mistapi_version "0.6.0" st = (Returns tt, logged st [EvLoggerInfo]) /\
  fst (main createSiteDeviceSnapshot read_file DictReader answer
         true "0.6.0" (Some []) st) <> Exits 2.
Proof.
  split; [reflexivity|]. split; [reflexivity|]. split; [reflexivity|].
  unfold main, bind, ret, parse_opts, check_mistapi_version. simpl.
  unfold emit, bind.
  match goal with
  | |- fst (_start _ _ _ _ ?s ?f ?a ?st0) <> _ =>
      destruct (start_outcomes s f a st0) as [H|[H|H]]; rewrite H; discriminate
  end.
Qed.

End ScriptProofs.

(** ** Runs on sample data *)

(** Five candidates, the calls for the second and the fourth raise. *)
Lemma process_gateways_batch_witness :
  exists st',
    _process_gateways second_and_fourth_raise five_candidates initial_state
      = (Returns tt, st') /\
    successes (trace st') = 3 /\ failures (trace st') = 2.
Proof.
  destruct (process_gateways_batch second_and_fourth_raise five_candidates
              initial_state)
    as (st' & new & Hrun & Htrace & _ & _ & _ & _ & Hfive).
  exists st'. split; [exact Hrun|].
  simpl in Htrace. rewrite Htrace.
  apply (Hfive _ _ _ _ _ eq_refl eq_refl); reflexivity.
Defined.

(** A report with no row: the run exits at once. *)
Lemma start_exits_when_nothing_to_do_witness :
  exists st',
    _start second_and_fourth_raise sample_read_file empty_DictReader "y"
      None CSV_FILE false initial_state = (Exits 0, st') /\
    trace st' =
      ([] ++
       [EvLogMessage "Reading CSV Report"; EvLogSuccess "Reading CSV Report";
        EvPrint "All the gateways are compliant... Exiting..."])%list /\
    prompts_of (trace st') = prompts_of [] /\
    snapshots_of (trace st') = snapshots_of [] /\
    api_calls st' = 0.
Proof.
  apply (start_exits_when_nothing_to_do second_and_fourth_raise sample_read_file
           empty_DictReader "y" None CSV_FILE false initial_state).
  reflexivity.
Defined.

(** ** Lines of a file and the comment filter *)

Lemma text_of_lines_bounded (n : nat) :
  forall s cur,
    String.length s <= n ->
    Reporter.text_of (file_lines s cur) = cur ++ s /\
    Forall (fun line => line <> "") (file_lines s cur).
Proof.
  induction n as [|n IH]; intros s cur Hlen.
  - destruct s; [|simpl in Hlen; lia]. simpl.
    destruct (String.eqb_spec cur "") as [->|Hne]; simpl.
    + now split.
    + rewrite !PyFacts.append_nil_r. split; [reflexivity|]. now constructor.
  - destruct s as [|c rest].
    + simpl. destruct (String.eqb_spec cur "") as [->|Hne]; simpl.
      * now split.
      * rewrite !PyFacts.append_nil_r. split; [reflexivity|]. now constructor.
    + simpl in Hlen. cbn [file_lines].
      assert (Hnonempty : forall a x, a ++ String x "" <> "").
      { intros a x. destruct a; discriminate. }
      assert (Hnonempty2 : forall a x y, a ++ String x (String y "") <> "").
      { intros a x y. destruct a; discriminate. }
      destruct (Ascii.eqb_spec c LF) as [->|Hlf].
      * destruct (IH rest "" ltac:(lia)) as [Htext Hall].
        cbn [Reporter.text_of fold_right]. fold (Reporter.text_of (file_lines rest "")).
        rewrite Htext. split; [now rewrite PyFacts.append_assoc|].
        constructor; [apply Hnonempty|exact Hall].
      * destruct (Ascii.eqb_spec c CR) as [->|Hcr].
        -- destruct rest as [|c2 rest2].
           ++ cbn [Reporter.text_of fold_right].
              rewrite PyFacts.append_nil_r. split; [reflexivity|].
              constructor; [apply Hnonempty|constructor].
           ++ destruct (Ascii.eqb_spec c2 LF) as [->|Hlf2].
              ** simpl in Hlen.
                 destruct (IH rest2 "" ltac:(lia)) as [Htext Hall].
                 cbn [Reporter.text_of fold_right].
                 fold (Reporter.text_of (file_lines rest2 "")).
                 rewrite Htext. split; [now rewrite PyFacts.append_assoc|].
                 constructor; [apply Hnonempty2|exact Hall].
              ** destruct (IH (String c2 rest2) "" ltac:(lia)) as [Htext Hall].
                 cbn [Reporter.text_of fold_right].
                 fold (Reporter.text_of (file_lines (String c2 rest2) "")).
                 rewrite Htext. split; [now rewrite PyFacts.append_assoc|].
                 constructor; [apply Hnonempty|exact Hall].
        -- destruct (IH rest (cur ++ String c "") ltac:(lia)) as [Htext Hall].
           rewrite Htext. split; [now rewrite PyFacts.append_assoc|exact Hall].
Qed.

Lemma skip_comments_filter (lines : list string) :
  Forall (fun line => line <> "") lines ->
  skip_comments lines = Ok (filter (fun line => negb (is_comment_line line)) lines).
Proof.
  induction 1 as [|line lines Hline _ IH]; [reflexivity|].
  cbn [skip_comments filter]. destruct line as [|c line]; [now elim Hline|].
  cbn [not_comment rbind is_comment_line]. rewrite IH. cbn [rbind].
  now destruct (Ascii.eqb c HASH).
Qed.

(** X1. The lines read from a file opened with [newline=''] are never empty
    and, put end to end, give back the text of the file; so the comment
    filter [row[0] != '#'] never raises on them, and what it keeps are
    exactly the lines that do not start with "#", in their order. *)
Theorem comment_filter_on_file_lines (text : string) :
  Reporter.text_of (file_lines text "") = text /\
  Forall (fun line => line <> "") (file_lines text "") /\
  skip_comments (file_lines text "") =
    Ok (filter (fun line => negb (is_comment_line line)) (file_lines text "")).
Proof.
  destruct (text_of_lines_bounded (String.length text) text "" (le_n _))
    as [Htext Hall].
  split; [exact Htext|]. split; [exact Hall|].
  now apply skip_comments_filter.
Qed.

(** ** The rows read from the report file *)

(** What the [with] block computes from a file that opens: the selection
    from the CSV rows of the lines that do not start with "#". *)
Lemma read_report_of_file (read_file : string -> option string)
    (csv_file : string) (site_id : option string) (text : string)
    (rows : list csv_row) :
  read_file csv_file = Some text ->
  csv_DictReader
    (filter (fun line => negb (is_comment_line line)) (file_lines text ""))
  = Ok rows ->
  Forall has_model rows ->
  read_report read_file csv_DictReader csv_file site_id
  = Ok (select site_id rows []).
Proof.
  intros Hfile Hrows Hmodels. unfold read_report. rewrite Hfile.
  destruct (text_of_lines_bounded (String.length text) text "" (le_n _))
    as [_ Hall].
  rewrite (skip_comments_filter _ Hall). cbn [rbind]. rewrite Hrows.
  cbn [rbind]. now rewrite (read_rows_select _ _ Hmodels).
Qed.

(** C1, as amended. [_read_csv] leaves out every line of the file that
    starts with "#" (the leading comment, and any other such line) and
    reads the remaining lines as CSV, the first record being the header.
    Let the data rows read this way be [pre], then [row], then [post], each
    with a model.  [_read_csv] returns the rows selected from [pre], then
    [row] if and only if it qualifies (its model contains "SRX", its
    need-snapshot field is "True", no site filter was given or its site is
    the one given) and its device id is not among those already selected,
    then rows of [post].  A device id is already selected exactly when a
    qualifying row of [pre] has it: of the qualifying rows with one device
    id, the first is retained and no other. *)
Theorem read_csv_selects (read_file : string -> option string)
    (csv_file : string) (site_id : option string) (text : string)
    (pre : list csv_row) (row : csv_row) (post : list csv_row) (st : state) :
  read_file csv_file = Some text ->
  csv_DictReader
    (filter (fun line => negb (is_comment_line line)) (file_lines text ""))
  = Ok (pre ++ row :: post)%list ->
  Forall has_model (pre ++ row :: post) ->
  exists before after,
    read_rows site_id pre [] [] = Ok before /\
    incl before pre /\
    incl after post /\
    fst (_read_csv read_file csv_DictReader csv_file site_id st) =
      Returns (before
               ++ (if qualifies site_id row
                      && negb (opt_in (device_id row) (map device_id before))
                   then [row] else [])
               ++ after)%list /\
    (qualifies site_id row = true <-> Qualifies site_id row) /\
    (opt_in (device_id row) (map device_id before) = true <->
     exists earlier,
       In earlier pre /\ Qualifies site_id earlier /\
       device_id earlier = device_id row).
Proof.
  intros Hfile Hrows Hmodels.
  set (before := select site_id pre []).
  set (picked := qualifies site_id row
                 && negb (opt_in (device_id row) (map device_id before))).
  set (seen := (map device_id before ++ (if picked then [device_id row] else []))%list).
  exists before, (select site_id post seen).
  assert (Hpre : Forall has_model pre).
  { apply Forall_app in Hmodels. tauto. }
  split; [now rewrite (read_rows_select site_id pre Hpre)|].
  split; [apply select_incl|].
  split; [apply select_incl|].
  split.
  - rewrite (read_csv_returns _ _ _ _ _ st
               (read_report_of_file read_file csv_file site_id text _
                  Hfile Hrows Hmodels)).
    cbn [fst]. f_equal.
    rewrite select_app. fold before. f_equal.
    change ([] ++ map device_id before)%list with (map device_id before).
    cbn [select]. fold picked. unfold seen.
    destruct picked; simpl; rewrite ?app_nil_r; reflexivity.
  - split; [apply qualifies_Qualifies|].
    rewrite opt_in_In.
    pose proof (select_device_ids site_id pre [] (device_id row)) as Hids.
    simpl in Hids. fold before in Hids. rewrite Hids. split.
    + intros [[]|(r & Hr & Hq & Hd)]. exists r.
      split; [exact Hr|]. split; [now apply qualifies_Qualifies|exact Hd].
    + intros (r & Hr & Hq & Hd). right. exists r.
      split; [exact Hr|]. split; [now apply qualifies_Qualifies|exact Hd].
Qed.

(** The sample file: its second data line has the device of the first one,
    the third is a switch, the fourth needs no snapshot. *)
Lemma read_csv_selects_witness :
  csv_DictReader
    (filter (fun line => negb (is_comment_line line))
       (file_lines sample_report_text ""))
  = Ok sample_report /\
  exists before after,
    read_rows None [report_row "dev-1" "site-1" "SRX320" "True"] [] [] = Ok before /\
    incl before [report_row "dev-1" "site-1" "SRX320" "True"] /\
    incl after [report_row "dev-2" "site-1" "EX2300" "True";
                report_row "dev-3" "site-2" "SRX345" "False"] /\
    fst (_read_csv (file_with sample_report_text) csv_DictReader CSV_FILE None
           initial_state) =
      Returns (before
               ++ (if qualifies None (report_row "dev-1" "site-1" "SRX320" "True")
                      && negb (opt_in (device_id (report_row "dev-1" "site-1" "SRX320" "True"))
                                 (map device_id before))
                   then [report_row "dev-1" "site-1" "SRX320" "True"] else [])
               ++ after)%list /\
    (qualifies None (report_row "dev-1" "site-1" "SRX320" "True") = true <->
     Qualifies None (report_row "dev-1" "site-1" "SRX320" "True")) /\
    (opt_in (device_id (report_row "dev-1" "site-1" "SRX320" "True"))
       (map device_id before) = true <->
     exists earlier,
       In earlier [report_row "dev-1" "site-1" "SRX320" "True"] /\
       Qualifies None earlier /\
       device_id earlier = device_id (report_row "dev-1" "site-1" "SRX320" "True")).
Proof.
  split; [reflexivity|].
  apply (read_csv_selects (file_with sample_report_text) CSV_FILE None
           sample_report_text
           [report_row "dev-1" "site-1" "SRX320" "True"]
           (report_row "dev-1" "site-1" "SRX320" "True")
           [report_row "dev-2" "site-1" "EX2300" "True";
            report_row "dev-3" "site-2" "SRX345" "False"]
           initial_state eq_refl eq_refl).
  repeat (apply Forall_cons; [eexists; reflexivity|]). apply Forall_nil.
Defined.

(** C1 as stated fails: the first data row of this file qualifies and no
    row before it has its device id, yet it is not selected, because its
    line starts with "#" (the gateway is named "#gw") and goes with the
    comment. *)
Lemma read_csv_drops_hash_row :
  rows_after_comment hash_named_text
  = Ok [hash_named_row; report_row "dev-2" "site-1" "SRX320" "True"] /\
  Qualifies None hash_named_row /\
  fst (_read_csv (file_with hash_named_text) csv_DictReader CSV_FILE None
         initial_state)
  = Returns [report_row "dev-2" "site-1" "SRX320" "True"].
Proof.
  split; [reflexivity|]. split; [now apply qualifies_Qualifies|].
  reflexivity.
Qed.

(** ** Invariants of the selection *)

Lemma select_subsequence (site_id : option string) (rows : list csv_row) :
  forall seen, subsequence (select site_id rows seen) rows.
Proof.
  induction rows as [|row rows IH]; intros seen; simpl.
  - constructor.
  - destruct (qualifies site_id row && negb (opt_in (device_id row) seen));
      constructor; apply IH.
Qed.

Lemma select_qualifies (site_id : option string) (rows : list csv_row) :
  forall seen, Forall (Qualifies site_id) (select site_id rows seen).
Proof.
  induction rows as [|row rows IH]; intros seen; simpl.
  - constructor.
  - destruct (qualifies site_id row) eqn:Hq; simpl; [|apply IH].
    destruct (opt_in (device_id row) seen); simpl; [apply IH|].
    constructor; [now apply qualifies_Qualifies|apply IH].
Qed.

Lemma select_NoDup (site_id : option string) (rows : list csv_row) :
  forall seen,
    NoDup seen ->
    NoDup (seen ++ map device_id (select site_id rows seen)).
Proof.
  induction rows as [|row rows IH]; intros seen Hseen; simpl.
  - now rewrite app_nil_r.
  - destruct (qualifies site_id row); simpl; [|now apply IH].
    destruct (opt_in (device_id row) seen) eqn:Hin; simpl; [now apply IH|].
    change (seen ++ device_id row :: ?l)%list
      with (seen ++ [device_id row] ++ l)%list.
    rewrite app_assoc. apply IH.
    apply NoDup_app_remove_l with (l := []). simpl.
    assert (Hnot : ~ In (device_id row) seen).
    { intros Hd. apply opt_in_In in Hd. congruence. }
    clear -Hseen Hnot. induction seen as [|x seen IHs]; simpl.
    + constructor; [tauto|constructor].
    + inversion Hseen as [|? ? Hx Hrest]; subst. constructor.
      * rewrite in_app_iff. simpl. intros [H|[H|[]]]; [tauto|].
        apply Hnot. now left.
      * apply IHs; [exact Hrest|]. intros H. apply Hnot. now right.
Qed.

Lemma read_rows_returns_only_with_models (site_id : option string)
    (rows : list csv_row) :
  forall data device_ids result,
    read_rows site_id rows data device_ids = Ok result ->
    Forall has_model rows.
Proof.
  induction rows as [|row rows IH]; intros data device_ids result Hrun.
  - constructor.
  - simpl in Hrun.
    destruct (row_get row "module_model") as [model|] eqn:Hmodel; [|discriminate].
    constructor; [now exists model|].
    repeat match type of Hrun with
           | (if ?c then _ else _) = _ => destruct c
           end; eapply IH; exact Hrun.
Qed.

Lemma expected_calls_distinct (data : list csv_row) :
  NoDup (map device_id data) ->
  NoDup (map snd (expected_calls data)).
Proof.
  unfold expected_calls. rewrite map_map. cbn [snd].
  induction data as [|gateway data IH]; intros Hnodup; simpl; [constructor|].
  inversion Hnodup as [|? ? Hfresh Hrest]; subst.
  destruct (has_ids gateway) eqn:Hids; [|now apply IH].
  simpl. constructor; [|now apply IH].
  intros Hin. apply in_map_iff in Hin as (other & Hsame & Hother).
  apply filter_In in Hother as [Hother Hids'].
  apply Hfresh. apply in_map_iff. exists other. split; [|exact Hother].
  unfold has_ids in Hids, Hids'. apply andb_true_iff in Hids as [_ Hids].
  apply andb_true_iff in Hids' as [_ Hids']. unfold device_id.
  destruct (row_get gateway "cluster_device_id") as [a|]; [|discriminate].
  destruct (row_get other "cluster_device_id") as [b|]; [|discriminate].
  simpl in Hsame. now subst.
Qed.

Lemma lower_is_y (answer : string) :
  String.eqb (lower answer) "y" = true <-> answer = "y" \/ answer = "Y".
Proof.
  rewrite String.eqb_eq. split.
  - destruct answer as [|c [|c2 rest]]; simpl; try discriminate.
    intros H. injection H as H.
    destruct c as [[] [] [] [] [] [] [] []]; try discriminate H; auto.
  - intros [->| ->]; reflexivity.
Qed.

Section RunProofs.

Variable createSiteDeviceSnapshot : nat -> string -> string -> api_result.
Variable read_file : string -> option string.
Variable DictReader : list string -> result (list csv_row).
Variable answer : string.

(** What [read_report] returns is the selection from the rows of the file. *)
Lemma read_report_selection (csv_file : string) (site_id : option string)
    (data : list csv_row) :
  read_report read_file DictReader csv_file site_id = Ok data ->
  exists rows, Forall has_model rows /\ data = select site_id rows [].
Proof.
  unfold read_report. destruct (read_file csv_file) as [text|]; [|discriminate].
  destruct (skip_comments (file_lines text "")) as [lines|]; [|discriminate].
  cbn [rbind]. destruct (DictReader lines) as [rows|]; [|discriminate].
  cbn [rbind]. intros Hrows. exists rows.
  pose proof (read_rows_returns_only_with_models _ _ _ _ _ Hrows) as Hmodels.
  split; [exact Hmodels|].
  rewrite (read_rows_select site_id rows Hmodels) in Hrows.
  now injection Hrows.
Qed.

(** X2. When every data row read from the report has a model, what
    [_read_csv] returns is a subsequence of the rows read, which are the CSV
    rows of the lines of the file that do not start with "#" (their order
    is kept), every row of it qualifies, no two of its rows have the same
    device id, and every qualifying row read has its device id in it. *)
Theorem read_csv_selection_invariants (csv_file : string)
    (site_id : option string) (text : string) (rows : list csv_row)
    (st : state) :
  read_file csv_file = Some text ->
  csv_DictReader
    (filter (fun line => negb (is_comment_line line)) (file_lines text ""))
  = Ok rows ->
  Forall has_model rows ->
  exists data,
    fst (_read_csv read_file csv_DictReader csv_file site_id st) = Returns data /\
    subsequence data rows /\
    Forall (Qualifies site_id) data /\
    NoDup (map device_id data) /\
    (forall row,
       In row rows -> Qualifies site_id row ->
       In (device_id row) (map device_id data)).
Proof.
  intros Hfile Hrows Hmodels. exists (select site_id rows []).
  rewrite (read_csv_returns _ _ _ _ _ st
             (read_report_of_file read_file csv_file site_id text _
                Hfile Hrows Hmodels)).
  split; [reflexivity|]. split; [apply select_subsequence|].
  split; [apply select_qualifies|].
  split; [apply (select_NoDup site_id rows [] (NoDup_nil _))|].
  intros row Hrow Hq.
  apply (select_device_ids site_id rows [] (device_id row)). right.
  exists row. split; [exact Hrow|]. split; [now apply qualifies_Qualifies|reflexivity].
Qed.

(** X3. When the report cannot be read, because the file does not open,
    the CSV reader raises, or a data row has no text under "module_model"
    (the column is missing or the record is short), [_read_csv] logs one
    failure and exits with code 1 whatever the other rows are, and so does
    [_start]: nothing is selected, no prompt is shown and no snapshot call
    is issued. *)
Theorem unreadable_report_exits_1 (csv_file : string) (site_id : option string)
    (auto_approve : bool) (st : state) :
  (read_file csv_file = None \/
   exists text lines,
     read_file csv_file = Some text /\
     skip_comments (file_lines text "") = Ok lines /\
     ((exists e, DictReader lines = Raise e) \/
      exists rows,
        DictReader lines = Ok rows /\
        Exists (fun row => row_get row "module_model" = None) rows)) ->
  let failed :=
    logged st [EvLogMessage "Reading CSV Report";
               EvLogFailure "Reading CSV Report"; EvLoggerError] in
  _read_csv read_file DictReader csv_file site_id st = (Exits 1, failed) /\
  _start createSiteDeviceSnapshot read_file DictReader answer
    site_id csv_file auto_approve st = (Exits 1, failed) /\
  api_calls failed = api_calls st /\
  prompts_of (trace failed) = prompts_of (trace st) /\
  snapshots_of (trace failed) = snapshots_of (trace st).
Proof.
  intros Hcause failed.
  assert (Hread : exists e,
             read_report read_file DictReader csv_file site_id = Raise e).
  { unfold read_report.
    destruct Hcause as [Hfile|(text & lines & Hfile & Hlines & Hcause)].
    - rewrite Hfile. now exists OSError.
    - rewrite Hfile, Hlines. cbn [rbind].
      destruct Hcause as [(e & Hreader)|(rows & Hreader & Hrow)];
        rewrite Hreader; cbn [rbind].
      + now exists e.
      + exists TypeError. now apply read_rows_raises. }
  destruct Hread as (e & Hread).
  split; [now apply read_csv_exits with (e := e)|].
  split.
  - unfold _start, bind. now rewrite (read_csv_exits _ _ _ _ e _ Hread).
  - unfold failed, logged. cbn [api_calls trace].
    rewrite prompts_of_app, snapshots_of_app. simpl.
    now rewrite !app_nil_r.
Qed.

(** ** The progress bar *)

(** X4. The logging methods of the progress bar divide by [steps_total]
    when they draw the bar: with the bar displayed they raise
    [ZeroDivisionError] exactly when the total is 0 (no call of
    [set_steps_total] yet) and otherwise return with the count at most the
    total; with the bar hidden they always return.  The step is logged
    before the division in either case. *)
Theorem logging_divides_by_the_total (message : string) (inc : bool) (st : state) :
  let shown := [log_message message true st; log_success message inc true st;
                log_failure message inc true st] in
  let hidden := [log_message message false st; log_success message inc false st;
                 log_failure message inc false st] in
  (steps_total st = 0 ->
   Forall (fun run => fst run = Raises ZeroDivisionError) shown) /\
  (steps_total st <> 0 ->
   Forall (fun run => fst run = Returns tt /\
                      steps_count (snd run) <= steps_total (snd run)) shown) /\
  Forall (fun run => fst run = Returns tt) hidden /\
  Forall (fun run => exists event, trace (snd run) = (trace st ++ [event])%list)
    (shown ++ hidden).
Proof.
  destruct st as [total count calls tr]. cbv zeta. cbn [steps_total].
  unfold log_message, log_success, log_failure, _pb_new_step, _pb_update,
    bind, emit, ret. cbn [steps_total steps_count api_calls trace].
  split; [|split; [|split]].
  - intros ->. repeat (apply Forall_cons; [reflexivity|]). apply Forall_nil.
  - intros Htotal. destruct total as [|total]; [now elim Htotal|].
    repeat (apply Forall_cons;
            [split; [reflexivity|];
             cbn [fst snd steps_total steps_count Nat.eqb];
             match goal with
             | |- (if ?c then _ else _) <= _ =>
                 destruct c eqn:Hc; [lia|apply Nat.ltb_ge in Hc; lia]
             end|]).
    apply Forall_nil.
  - repeat (apply Forall_cons; [reflexivity|]). apply Forall_nil.
  - cbn [app].
    repeat (apply Forall_cons;
            [destruct (Nat.eqb total 0); cbn [snd trace]; eexists; reflexivity|]).
    apply Forall_nil.
Qed.

(** One turn of the loop, with the counters of the bar. *)
Lemma process_gateway_counters (gateway : csv_row) (st : state) :
  steps_total st <> 0 ->
  let run := process_gateway createSiteDeviceSnapshot gateway st in
  fst run = Returns tt /\
  steps_total (snd run) = steps_total st /\
  steps_count (snd run) =
    Nat.min (S (Nat.min (steps_count st) (steps_total st))) (steps_total st).
Proof.
  destruct st as [total count calls tr]. cbn [steps_total steps_count].
  intros Htotal. destruct total as [|total]; [now elim Htotal|].
  assert (Hclamp : forall c t, (if Nat.ltb t c then t else c) = Nat.min c t).
  { intros c t. destruct (Nat.ltb t c) eqn:H;
      [apply Nat.ltb_lt in H|apply Nat.ltb_ge in H]; lia. }
  cbv zeta. unfold process_gateway.
  unfold bind, log_message, log_failure, log_success, try_except, call_snapshot,
    _pb_new_step, _pb_update, bind, emit, ret.
  cbn [steps_total steps_count api_calls trace Nat.eqb fst snd negb].
  repeat (match goal with
          | |- context [opt_truthy ?x] => destruct (opt_truthy x)
          | |- context [createSiteDeviceSnapshot ?a ?b ?c] =>
              destruct (createSiteDeviceSnapshot a b c)
          | |- context [Z.eqb ?a ?b] => destruct (Z.eqb a b)
          end;
          cbn [steps_total steps_count api_calls trace Nat.eqb fst snd negb]);
    rewrite ?Hclamp, ?Nat.add_1_r;
    (split; [reflexivity|split; [reflexivity|lia]]).
Qed.

Lemma for_each_counters (gateways : list csv_row) :
  forall st,
    steps_total st <> 0 ->
    let run := for_each (process_gateway createSiteDeviceSnapshot) gateways st in
    steps_total (snd run) = steps_total st /\
    steps_count (snd run) =
      match gateways with
      | [] => steps_count st
      | _ :: _ =>
          Nat.min (Nat.min (steps_count st) (steps_total st) + List.length gateways)
            (steps_total st)
      end.
Proof.
  induction gateways as [|gateway rest IH]; intros st Htotal; cbv zeta.
  - now split.
  - destruct (process_gateway_counters gateway st Htotal) as (Hret & Ht & Hc).
    cbn [for_each]. unfold bind.
    destruct (process_gateway createSiteDeviceSnapshot gateway st) as [o st1].
    cbn [fst snd] in Hret, Ht, Hc. subst o. cbv beta iota.
    assert (Htotal1 : steps_total st1 <> 0) by congruence.
    destruct (IH st1 Htotal1) as (Ht' & Hc'). cbv zeta in Ht', Hc'.
    split; [congruence|]. rewrite Hc'.
    destruct rest as [|g rest]; cbn [List.length]; rewrite ?Ht, Hc; lia.
Qed.

(** X5. After a batch of at least one candidate the progress bar is full:
    its total and its count are both the number of candidates, whatever the
    counters were before and whatever the service answered. *)
Theorem batch_fills_the_progress_bar (gateways : list csv_row) (st : state) :
  gateways <> [] ->
  let st' := snd (_process_gateways createSiteDeviceSnapshot gateways st) in
  steps_total st' = List.length gateways /\
  steps_count st' = List.length gateways.
Proof.
  intros Hne. cbv zeta. unfold _process_gateways, bind, set_steps_total.
  destruct gateways as [|gateway rest]; [now elim Hne|].
  match goal with
  | |- context [for_each _ ?g ?s] =>
      destruct (for_each_counters g s) as (Ht & Hc); [cbn; discriminate|]
  end.
  cbv zeta in Ht, Hc. cbn [steps_total steps_count] in Ht, Hc.
  split; [exact Ht|]. rewrite Hc. cbn [List.length]. lia.
Qed.

(** The batch asks nothing. *)
Lemma process_gateway_prompts (gateway : csv_row) (st : state) :
  prompts_of (trace (snd (process_gateway createSiteDeviceSnapshot gateway st))) =
  prompts_of (trace st).
Proof.
  destruct st as [total count calls tr].
  unfold process_gateway.
  unfold bind, log_message, log_failure, log_success, try_except, call_snapshot,
    _pb_new_step, _pb_update, bind, emit, ret.
  cbn [steps_total steps_count api_calls trace fst snd negb].
  repeat (match goal with
          | |- context [Nat.eqb ?a ?b] => destruct (Nat.eqb a b)
          | |- context [opt_truthy ?x] => destruct (opt_truthy x)
          | |- context [createSiteDeviceSnapshot ?a ?b ?c] =>
              destruct (createSiteDeviceSnapshot a b c)
          | |- context [Z.eqb ?a ?b] => destruct (Z.eqb a b)
          end;
          cbn [steps_total steps_count api_calls trace fst snd negb]);
    rewrite ?prompts_of_app; simpl; now rewrite ?app_nil_r.
Qed.

Lemma for_each_prompts (gateways : list csv_row) :
  forall st,
    prompts_of
      (trace (snd (for_each (process_gateway createSiteDeviceSnapshot) gateways st))) =
    prompts_of (trace st).
Proof.
  induction gateways as [|gateway rest IH]; intros st; [reflexivity|].
  cbn [for_each]. unfold bind.
  pose proof (process_gateway_prompts gateway st) as Hstep.
  destruct (process_gateway createSiteDeviceSnapshot gateway st) as [[| |] st1];
    cbn [snd] in *; [now rewrite IH|exact Hstep|exact Hstep].
Qed.

Lemma process_gateways_prompts (gateways : list csv_row) (st : state) :
  prompts_of (trace (snd (_process_gateways createSiteDeviceSnapshot gateways st))) =
  prompts_of (trace st).
Proof.
  unfold _process_gateways, bind, set_steps_total. cbv beta iota.
  now rewrite for_each_prompts.
Qed.

(** ** The confirmation and the run that follows *)

(** X6. Without auto-approve and with candidates to process, any answer
    other than "y" or "Y" (the empty answer, "yes", ...) stops the run: the
    candidates are shown, the prompt is asked once, and the script exits
    with code 0 without a single snapshot call. *)
Theorem declined_run_issues_no_call (site_id : option string) (csv_file : string)
    (data : list csv_row) (st : state) :
  read_report read_file DictReader csv_file site_id = Ok data ->
  data <> [] ->
  answer <> "y" -> answer <> "Y" ->
  let st' :=
    logged st
      [EvLogMessage "Reading CSV Report"; EvLogSuccess "Reading CSV Report";
       EvPrint "--------------------------------------------------------------------------------";
       EvPrint "List of gateways to process:"; EvPrint "";
       EvPrettyPrint data; EvInput "Do you want to continue (y/N)? ";
       EvConsoleInfo "process stopped by the user. Exiting..."] in
  _start createSiteDeviceSnapshot read_file DictReader answer
    site_id csv_file false st = (Exits 0, st') /\
  api_calls st' = api_calls st /\
  snapshots_of (trace st') = snapshots_of (trace st).
Proof.
  intros Hread Hdata Hy HY st'.
  assert (Hno : String.eqb (lower answer) "y" = false).
  { destruct (String.eqb (lower answer) "y") eqn:Heq; [|reflexivity].
    apply lower_is_y in Heq as [H|H]; contradiction. }
  split; [|split].
  - unfold _start, bind. rewrite (read_csv_returns _ _ _ _ _ _ Hread).
    destruct data as [|row data]; [now elim Hdata|].
    unfold _request_approval, bind, emit, sys_exit. rewrite Hno.
    unfold st', logged. cbn [steps_total steps_count api_calls trace].
    now rewrite <- !app_assoc.
  - reflexivity.
  - unfold st', logged. cbn [trace]. rewrite snapshots_of_app. simpl.
    now rewrite app_nil_r.
Qed.

(** X7. With candidates to process and the run approved (auto-approve, or
    the answer "y" or "Y"), [_start] returns after issuing exactly one
    snapshot call per selected candidate that has its two ids, in the order
    of the report, and never two calls for one device id; the prompt is
    asked once, or not at all under auto-approve. *)
Theorem approved_run_calls_each_device_once (site_id : option string)
    (csv_file : string) (auto_approve : bool) (data : list csv_row) (st : state) :
  read_report read_file DictReader csv_file site_id = Ok data ->
  data <> [] ->
  auto_approve = true \/ answer = "y" \/ answer = "Y" ->
  exists st' new,
    _start createSiteDeviceSnapshot read_file DictReader answer
      site_id csv_file auto_approve st = (Returns tt, st') /\
    trace st' = (trace st ++ new)%list /\
    snapshots_of new = expected_calls data /\
    NoDup (map snd (snapshots_of new)) /\
    prompts_of new =
      (if auto_approve then [] else ["Do you want to continue (y/N)? "]) /\
    api_calls st' = api_calls st + List.length (expected_calls data).
Proof.
  intros Hread Hdata Happroved.
  assert (Hdistinct : NoDup (map snd (expected_calls data))).
  { destruct (read_report_selection _ _ _ Hread) as (rows & _ & ->).
    apply expected_calls_distinct.
    apply (select_NoDup site_id rows [] (NoDup_nil _)). }
  assert (Hbatch : forall s,
             exists st' new,
               _process_gateways createSiteDeviceSnapshot data s = (Returns tt, st') /\
               trace st' = (trace s ++ new)%list /\
               snapshots_of new = expected_calls data /\
               prompts_of new = [] /\
               api_calls st' = api_calls s + List.length (expected_calls data)).
  { intros s.
    destruct (process_gateways_run createSiteDeviceSnapshot data s)
      as (count & new & Hrun & _ & Hcalls).
    pose proof (process_gateways_prompts data s) as Hprompts.
    rewrite Hrun in Hprompts. cbn [snd trace] in Hprompts.
    rewrite prompts_of_app in Hprompts.
    eexists. exists new. split; [exact Hrun|]. cbn [trace api_calls].
    split; [reflexivity|]. split; [exact Hcalls|]. split.
    - apply (app_inv_head (prompts_of (trace s))). now rewrite app_nil_r.
    - unfold expected_calls. now rewrite length_map. }
  unfold _start, bind. rewrite (read_csv_returns _ _ _ _ _ _ Hread).
  destruct data as [|row data]; [now elim Hdata|].
  set (candidates := row :: data) in *.
  destruct auto_approve.
  - unfold emit, logged. cbn [steps_total steps_count api_calls trace].
    match goal with
    | |- context [_process_gateways _ candidates ?s] =>
        destruct (Hbatch s) as (st' & new & Hrun & Htrace & Hcalls & Hprompts & Hn)
    end.
    rewrite Hrun. cbn [api_calls trace] in *.
    exists st'. eexists. split; [reflexivity|].
    split; [rewrite Htrace, <- !app_assoc; reflexivity|].
    rewrite !snapshots_of_app, !prompts_of_app, Hcalls, Hprompts. simpl.
    split; [reflexivity|]. split; [exact Hdistinct|]. now split.
  - assert (Hyes : String.eqb (lower answer) "y" = true).
    { apply lower_is_y. destruct Happroved as [H|H]; [discriminate|exact H]. }
    unfold _request_approval, bind, emit, logged. rewrite Hyes.
    cbn [steps_total steps_count api_calls trace].
    match goal with
    | |- context [_process_gateways _ candidates ?s] =>
        destruct (Hbatch s) as (st' & new & Hrun & Htrace & Hcalls & Hprompts & Hn)
    end.
    rewrite Hrun. cbn [api_calls trace] in *.
    exists st'. eexists. split; [reflexivity|].
    split; [rewrite Htrace, <- !app_assoc; reflexivity|].
    rewrite !snapshots_of_app, !prompts_of_app, Hcalls, Hprompts. simpl.
    split; [reflexivity|]. split; [exact Hdistinct|]. now split.
Qed.

(** ** Help *)

(** An option other than help is consumed by the option loop, which goes on
    with the next one. *)
Lemma parse_opts_plain_option (o a : string) (rest : list (string * string))
    (cfg : options) (st : state) :
  is_plain_option o = true ->
  exists cfg',
    parse_opts ((o, a) :: rest) cfg st = parse_opts rest cfg' st.
Proof.
  unfold is_plain_option, one_of. cbn [existsb].
  rewrite !orb_true_iff, !String.eqb_eq.
  intros [->|[->|[->|[->|[->|[->|[->|[->|[->|H]]]]]]]]];
    try discriminate H; eexists; reflexivity.
Qed.

(** X8. When "-h" or "--help" stands among the options, after options the
    script knows, the script prints the usage and exits with code 0 at
    once: the version of [mistapi] is not checked, no session is opened,
    the report is not read and no call is issued, whatever follows the help
    option. *)
Theorem help_stops_the_script (mistapi_version : string)
    (before : list (string * string)) (h a : string)
    (after : list (string * string)) (st : state) :
  Forall (fun option => is_plain_option (fst option) = true) before ->
  h = "-h" \/ h = "--help" ->
  main createSiteDeviceSnapshot read_file DictReader answer true
    mistapi_version (Some (before ++ (h, a) :: after)%list) st =
  (Exits 0, logged st [EvUsage]).
Proof.
  intros Hbefore Hhelp.
  assert (Hparse : forall cfg,
             parse_opts (before ++ (h, a) :: after)%list cfg st =
             (Exits 0, logged st [EvUsage])).
  { induction Hbefore as [|[o b] before Ho _ IH]; intros cfg.
    - destruct Hhelp as [->| ->]; reflexivity.
    - cbn [fst] in Ho. cbn [app].
      destruct (parse_opts_plain_option o b (before ++ (h, a) :: after)%list
                  cfg st Ho) as (cfg' & ->).
      apply IH. }
  unfold main, bind, ret. cbn [negb]. now rewrite Hparse.
Qed.

End RunProofs.

(** ** More runs on sample data *)

Lemma read_csv_selection_invariants_witness :
  exists data,
    fst (_read_csv (file_with sample_report_text) csv_DictReader CSV_FILE None
           initial_state)
      = Returns data /\
    subsequence data sample_report /\
    Forall (Qualifies None) data /\
    NoDup (map device_id data) /\
    (forall row,
       In row sample_report -> Qualifies None row ->
       In (device_id row) (map device_id data)).
Proof.
  apply (read_csv_selection_invariants (file_with sample_report_text) CSV_FILE
           None sample_report_text sample_report initial_state eq_refl eq_refl).
  repeat (apply Forall_cons; [eexists; reflexivity|]). apply Forall_nil.
Defined.

(** A report whose header has no "module_model" column. *)
Lemma unreadable_report_exits_1_witness :
  fst (_start second_and_fourth_raise sample_read_file headerless_DictReader "y"
         None CSV_FILE true initial_state) = Exits 1.
Proof.
  assert (Hcause :
    sample_read_file CSV_FILE = None \/
    exists text lines,
      sample_read_file CSV_FILE = Some text /\
      skip_comments (file_lines text "") = Ok lines /\
      ((exists e, headerless_DictReader lines = Raise e) \/
       exists rows,
         headerless_DictReader lines = Ok rows /\
         Exists (fun row => row_get row "module_model" = None) rows)).
  { right. eexists. eexists. split; [reflexivity|]. split; [reflexivity|].
    right. eexists. split; [reflexivity|]. now left. }
  destruct (unreadable_report_exits_1 second_and_fourth_raise sample_read_file
              headerless_DictReader "y" CSV_FILE None true initial_state Hcause)
    as (_ & Hstart & _).
  now rewrite Hstart.
Defined.

Lemma batch_fills_the_progress_bar_witness :
  steps_total (snd (_process_gateways second_and_fourth_raise five_candidates
                      initial_state)) = 5 /\
  steps_count (snd (_process_gateways second_and_fourth_raise five_candidates
                      initial_state)) = 5.
Proof.
  apply (batch_fills_the_progress_bar second_and_fourth_raise five_candidates
           initial_state).
  discriminate.
Defined.

(** The user just presses return. *)
Lemma declined_run_issues_no_call_witness :
  fst (_start second_and_fourth_raise sample_read_file sample_DictReader ""
         None CSV_FILE false initial_state) = Exits 0 /\
  api_calls (snd (_start second_and_fourth_raise sample_read_file sample_DictReader ""
                    None CSV_FILE false initial_state)) = 0.
Proof.
  destruct (declined_run_issues_no_call second_and_fourth_raise sample_read_file
              sample_DictReader "" None CSV_FILE
              [report_row "dev-1" "site-1" "SRX320" "True"] initial_state)
    as (Hrun & Hcalls & _).
  - reflexivity.
  - discriminate.
  - discriminate.
  - discriminate.
  - rewrite Hrun. split; reflexivity.
Defined.

Lemma approved_run_calls_each_device_once_witness :
  exists st' new,
    _start second_and_fourth_raise sample_read_file sample_DictReader "Y"
      None CSV_FILE false initial_state = (Returns tt, st') /\
    trace st' = ([] ++ new)%list /\
    snapshots_of new = [("site-1", "dev-1")] /\
    NoDup (map snd (snapshots_of new)) /\
    prompts_of new = ["Do you want to continue (y/N)? "] /\
    api_calls st' = 0 + 1.
Proof.
  apply (approved_run_calls_each_device_once second_and_fourth_raise
           sample_read_file sample_DictReader "Y" None CSV_FILE false
           [report_row "dev-1" "site-1" "SRX320" "True"] initial_state).
  - reflexivity.
  - discriminate.
  - right. now right.
Defined.

Lemma help_stops_the_script_witness :
  main second_and_fourth_raise sample_read_file sample_DictReader "y" true
    "0.1.0" (Some [("--auto-approve", ""); ("-h", ""); ("-s", "site-1")])
    initial_state =
  (Exits 0, logged initial_state [EvUsage]).
Proof.
  apply (help_stops_the_script second_and_fourth_raise sample_read_file
           sample_DictReader "y" "0.1.0" [("--auto-approve", "")] "-h" ""
           [("-s", "site-1")] initial_state).
  - repeat constructor.
  - now left.
Defined.

End TriggerProofs.
(* ================================================================== *)
(** * The report file, from the reporter to the backup trigger *)
(* ================================================================== *)

Module ReportFileProofs.
Import Py Reporter.

Local Open Scope string_scope.

Lemma collect_headers_first_seen (data : list dict) :
  collect_headers data [] = first_seen (List.concat (map keys data)).
Proof.
  rewrite ReporterProofs.collect_headers_add_keys,
    ReporterProofs.add_keys_first_seen.
  simpl. induction (first_seen (List.concat (map keys data))) as [|k l IH];
    simpl; [reflexivity|now rewrite IH].
Qed.

Lemma no_quotes_no_break (s : string) :
  needs_quotes s = false -> has_break s = false.
Proof.
  induction s as [|c s IH]; [reflexivity|]. simpl. unfold is_special.
  intros H. apply orb_false_iff in H as [Hc Hs].
  apply orb_false_iff in Hc as [Hc Hlf]. apply orb_false_iff in Hc as [_ Hcr].
  now rewrite Hcr, Hlf, (IH Hs).
Qed.

Lemma record_is_not_empty (record : string) :
  (exists body, record = body ++ CRLF /\ has_break body = false) ->
  record <> "".
Proof.
  intros (body & -> & _). destruct body; discriminate.
Qed.

Section ReportFile.

Variable str_container : value -> string.

(** The lines of the file when no key and no value holds a line break: one
    per record written. *)
Lemma save_as_csv_lines (data : list dict) (scope scope_id : string) :
  has_break scope = false ->
  has_break scope_id = false ->
  (forall entry k v,
     In entry data -> In (k, v) entry ->
     has_break k = false /\ has_break (field_text str_container v) = false) ->
  let headers := collect_headers data [] in
  let records :=
    writerow str_container [VStr (comment_text scope scope_id)]
    :: writerow str_container (map VStr headers)
    :: map (fun entry => writerow str_container (row_cells headers entry)) data in
  Trigger.file_lines (_save_as_csv str_container data scope scope_id) "" = records /\
  Forall (fun record => record <> "") records.
Proof.
  intros Hscope Hid Hdata headers records.
  assert (Hheaders : Forall (fun h => has_break h = false) headers).
  { apply Forall_forall. intros h Hh. unfold headers in Hh.
    rewrite collect_headers_first_seen in Hh.
    apply (proj1 (ReporterProofs.first_seen_In _ _)) in Hh.
    apply in_concat in Hh as (ks & Hks & Hh).
    apply in_map_iff in Hks as (entry & <- & Hentry).
    unfold keys in Hh. apply in_map_iff in Hh as ([k v] & <- & Hkv).
    now apply (Hdata entry k v). }
  assert (Hrecords :
    Forall (fun record =>
              exists body, record = body ++ CRLF /\ has_break body = false)
      records).
  { unfold records. constructor; [|constructor].
    - apply ReporterProofs.writerow_is_a_line. constructor; [|constructor].
      unfold comment_text. cbn [field_text].
      now rewrite !ReporterProofs.has_break_app, Hscope, Hid.
    - apply ReporterProofs.writerow_is_a_line. apply Forall_map.
      eapply Forall_impl; [|exact Hheaders]. now intros h Hh.
    - apply Forall_map. apply Forall_forall. intros entry Hentry.
      apply ReporterProofs.writerow_is_a_line. unfold row_cells. apply Forall_map.
      apply Forall_forall. intros h _. unfold get_default.
      destruct (lookup h entry) as [v|] eqn:Hlookup; [|reflexivity].
      now apply (Hdata entry h v Hentry), ReporterProofs.lookup_In. }
  split.
  - rewrite ReporterProofs.save_as_csv_text. fold headers.
    change (?a ++ text_of ?l) with (text_of (a :: l)).
    now apply ReporterProofs.file_lines_records.
  - eapply Forall_impl; [|exact Hrecords]. intros record.
    apply record_is_not_empty.
Qed.

(** C9, as amended.  Let the scope and its id hold no comma, quote or line
    break (an org or site and its identifier), and the keys and values of
    the data rows no line break.  Then the lines of the file that
    [_save_as_csv] writes are: first the comment "#Gateways Firmware Backup
    for <scope> <id>"; second the header record, made of the keys of the
    data rows, each once, in the order in which they are first seen; then
    one line per data row, the record of its values under each header, the
    empty string where the row has no such key.  Reading the file back, the
    line filter of the Backup Trigger raises on no line, drops the comment,
    and passes on the header line and the data lines, those that start with
    "#" excepted. *)
Theorem csv_report_layout (data : list dict) (scope scope_id : string) :
  needs_quotes scope = false ->
  needs_quotes scope_id = false ->
  (forall entry k v,
     In entry data -> In (k, v) entry ->
     has_break k = false /\ has_break (field_text str_container v) = false) ->
  let headers := first_seen (List.concat (map keys data)) in
  let header_line := writerow str_container (map VStr headers) in
  let data_lines :=
    map (fun entry => writerow str_container (map (cell entry) headers)) data in
  let lines :=
    Trigger.file_lines (_save_as_csv str_container data scope scope_id) "" in
  lines =
    ("#Gateways Firmware Backup for " ++ scope ++ " " ++ scope_id ++ CRLF)
    :: header_line :: data_lines /\
  List.length lines = 2 + List.length data /\
  NoDup headers /\
  (forall k, In k headers <-> exists entry, In entry data /\ has_key k entry = true) /\
  Trigger.skip_comments lines =
    Ok (filter (fun line => negb (Trigger.is_comment_line line))
          (header_line :: data_lines)).
Proof.
  intros Hscope Hid Hdata headers header_line data_lines lines.
  destruct (save_as_csv_lines data scope scope_id
              (no_quotes_no_break _ Hscope) (no_quotes_no_break _ Hid) Hdata)
    as [Hlines Hall].
  rewrite collect_headers_first_seen in Hlines, Hall. fold headers in Hlines, Hall.
  assert (Hcomment :
    writerow str_container [VStr (comment_text scope scope_id)]
    = "#Gateways Firmware Backup for " ++ scope ++ " " ++ scope_id ++ CRLF).
  { destruct (ReporterProofs.comment_starts_with_hash scope scope_id)
      as (tail & Hhash).
    pose proof (ReporterProofs.comment_needs_no_quotes scope scope_id Hscope Hid)
      as Hplain.
    rewrite Hhash in Hplain |- *.
    rewrite (ReporterProofs.writerow_plain_field str_container _ _ Hplain).
    rewrite <- Hhash. unfold comment_text.
    now rewrite !PyFacts.append_assoc. }
  assert (Hfile : lines =
    ("#Gateways Firmware Backup for " ++ scope ++ " " ++ scope_id ++ CRLF)
    :: header_line :: data_lines).
  { unfold lines. rewrite Hlines, Hcomment. reflexivity. }
  split; [exact Hfile|].
  split; [rewrite Hfile; unfold data_lines; simpl; now rewrite length_map|].
  split; [apply ReporterProofs.first_seen_NoDup|].
  split.
  { intros k. unfold headers.
    rewrite ReporterProofs.first_seen_In, in_concat. split.
    - intros (ks & Hks & Hk). apply in_map_iff in Hks as (entry & <- & Hentry).
      exists entry. split; [exact Hentry|now apply ReporterProofs.has_key_In].
    - intros (entry & Hentry & Hk). exists (keys entry).
      split; [now apply in_map|now apply ReporterProofs.has_key_In]. }
  rewrite TriggerProofs.skip_comments_filter.
  - rewrite Hfile. reflexivity.
  - unfold lines. rewrite Hlines. exact Hall.
Qed.

End ReportFile.

(** The report of an org with two rows of different keys: four lines, of
    which the Backup Trigger reads the last three, as a header and two
    rows. *)
Lemma csv_report_layout_witness :
  Trigger.file_lines
    (_save_as_csv (fun _ => "") sample_rows "org" "9777c1a0-6ef6-11e6-8bbf-02e208b2d34f")
    "" =
  ["#Gateways Firmware Backup for org 9777c1a0-6ef6-11e6-8bbf-02e208b2d34f" ++ CRLF;
   "cluster_name,module_need_snapshot,module_serial" ++ CRLF;
   "gw-1,True," ++ CRLF;
   "gw-2,False," ++ CRLF] /\
  Trigger.skip_comments
    (Trigger.file_lines
       (_save_as_csv (fun _ => "") sample_rows "org"
          "9777c1a0-6ef6-11e6-8bbf-02e208b2d34f") "") =
  Ok ["cluster_name,module_need_snapshot,module_serial" ++ CRLF;
      "gw-1,True," ++ CRLF;
      "gw-2,False," ++ CRLF] /\
  Trigger.csv_DictReader
    ["cluster_name,module_need_snapshot,module_serial" ++ CRLF;
     "gw-1,True," ++ CRLF;
     "gw-2,False," ++ CRLF] =
  Ok [[("cluster_name", Some "gw-1"); ("module_need_snapshot", Some "True");
       ("module_serial", Some "")];
      [("cluster_name", Some "gw-2"); ("module_need_snapshot", Some "False");
       ("module_serial", Some "")]].
Proof.
  destruct (csv_report_layout (fun _ => "") sample_rows "org"
              "9777c1a0-6ef6-11e6-8bbf-02e208b2d34f" eq_refl eq_refl)
    as (Hlines & _ & _ & _ & Hkept).
  - intros entry k v Hentry Hkv. simpl in Hentry.
    destruct Hentry as [<-|[<-|[]]]; simpl in Hkv;
      repeat (destruct Hkv as [Hkv|Hkv]; [injection Hkv as <- <-; now split|]);
      now destruct Hkv.
  - split; [exact Hlines|]. split; [exact Hkept|reflexivity].
Defined.

(** C9 as stated fails: a value with a line break takes two lines of the
    file, so this data set of one row gives a file of four lines, and the
    data row is not one line. *)
Lemma csv_report_layout_line_break :
  Trigger.file_lines
    (_save_as_csv (fun _ => "") line_break_rows "org" "org-1") "" =
  ["#Gateways Firmware Backup for org org-1" ++ CRLF;
   "cluster_name" ++ CRLF;
   String DQUOTE ("gw" ++ String LF "");
   "1" ++ String DQUOTE CRLF] /\
  List.length line_break_rows = 1.
Proof. split; reflexivity. Qed.

(** ** Reading the report back *)

Import Trigger.

Lemma length_app (a b : string) :
  String.length (a ++ b) = String.length a + String.length b.
Proof. induction a as [|c a IH]; simpl; [reflexivity|now rewrite IH]. Qed.

Lemma parse_chars_app (s t : string) :
  forall p,
    parse_chars p (s ++ t) =
    rbind (parse_chars p s) (fun p' => parse_chars p' t).
Proof.
  induction s as [|c s IH]; intros p; simpl; [reflexivity|].
  destruct (parse_process_char p (Some c)) as [p'|e]; simpl; [apply IH|reflexivity].
Qed.

Lemma parse_line_app (s t : string) :
  forall p,
    parse_line p (s ++ t) =
    rbind (parse_chars p s) (fun p' => parse_line p' t).
Proof.
  induction s as [|c s IH]; intros p; simpl; [reflexivity|].
  destruct (parse_process_char p (Some c)) as [p'|e]; simpl; [apply IH|reflexivity].
Qed.

Lemma add_char_within (st : parser_state) (acc : string) (fields : list string)
    (c : ascii) :
  (N.of_nat (String.length acc) < FIELD_LIMIT)%N ->
  parse_add_char (mkParser st acc fields) c =
  Ok (mkParser st (acc ++ String c "") fields).
Proof.
  intros Hlen. unfold parse_add_char. cbn [p_field p_state p_fields].
  destruct (N.leb_spec FIELD_LIMIT (N.of_nat (String.length acc))); [lia|reflexivity].
Qed.

Lemma plain_chars_in_field (s : string) :
  forall acc fields,
    needs_quotes s = false ->
    within_limit (acc ++ s) ->
    parse_chars (mkParser IN_FIELD acc fields) s =
    Ok (mkParser IN_FIELD (acc ++ s) fields).
Proof.
  induction s as [|c s IH]; intros acc fields Hplain Hlen.
  - simpl. now rewrite PyFacts.append_nil_r.
  - simpl in Hplain. apply orb_false_iff in Hplain as [Hc Hs].
    unfold is_special in Hc.
    apply orb_false_iff in Hc as [Hc Hlf]. apply orb_false_iff in Hc as [Hc Hcr].
    apply orb_false_iff in Hc as [Hcomma Hquote].
    unfold within_limit in Hlen. rewrite length_app in Hlen. simpl in Hlen.
    cbn [parse_chars parse_process_char p_state]. unfold is_newline.
    rewrite Hlf, Hcr, Hcomma. cbn [orb].
    rewrite add_char_within by lia. cbn [rbind].
    rewrite IH; [|exact Hs|].
    + now rewrite PyFacts.append_assoc.
    + unfold within_limit. rewrite !length_app. simpl. lia.
Qed.

Ltac parser_norm :=
  unfold set_state, parse_save_field;
  cbn [p_state p_field p_fields rbind].

Lemma quoted_chars_in_field (s : string) :
  forall acc fields,
    within_limit (acc ++ s) ->
    parse_chars (mkParser IN_QUOTED_FIELD acc fields) (double_quotes s) =
    Ok (mkParser IN_QUOTED_FIELD (acc ++ s) fields).
Proof.
  induction s as [|c s IH]; intros acc fields Hlen.
  - simpl. now rewrite PyFacts.append_nil_r.
  - unfold within_limit in Hlen. rewrite length_app in Hlen. simpl in Hlen.
    assert (Hnext : within_limit ((acc ++ String c "") ++ s)).
    { unfold within_limit. rewrite !length_app. simpl. lia. }
    cbn [double_quotes]. destruct (Ascii.eqb_spec c DQUOTE) as [->|Hc].
    + cbn [parse_chars parse_process_char p_state].
      change (Ascii.eqb DQUOTE DQUOTE) with true. parser_norm.
      cbn [parse_process_char p_state].
      change (Ascii.eqb DQUOTE DQUOTE) with true. parser_norm.
      rewrite add_char_within by lia. parser_norm.
      rewrite IH by exact Hnext. now rewrite PyFacts.append_assoc.
    + cbn [parse_chars parse_process_char p_state].
      apply Ascii.eqb_neq in Hc. rewrite Hc.
      rewrite add_char_within by lia. cbn [rbind].
      rewrite IH by exact Hnext. now rewrite PyFacts.append_assoc.
Qed.

Lemma written_field_parsed (s : string) (fields : list string) :
  within_limit s ->
  parse_chars (mkParser START_FIELD "" fields)
    (if needs_quotes s then quoted s else s)
  = Ok (after_field s fields).
Proof.
  intros Hlen. unfold after_field. destruct (needs_quotes s) eqn:Hq.
  - unfold quoted. cbn [parse_chars parse_process_char p_state start_field].
    change (is_newline DQUOTE) with false. change (Ascii.eqb DQUOTE DQUOTE) with true.
    parser_norm. rewrite parse_chars_app.
    rewrite quoted_chars_in_field by exact Hlen. parser_norm.
    cbn [append parse_chars parse_process_char p_state].
    change (Ascii.eqb DQUOTE DQUOTE) with true. parser_norm. reflexivity.
  - destruct s as [|c s]; [reflexivity|].
    pose proof Hq as Hplain. simpl in Hq. apply orb_false_iff in Hq as [Hc Hs].
    unfold is_special in Hc.
    apply orb_false_iff in Hc as [Hc Hlf]. apply orb_false_iff in Hc as [Hc Hcr].
    apply orb_false_iff in Hc as [Hcomma Hquote].
    cbn [parse_chars parse_process_char p_state start_field]. unfold is_newline.
    rewrite Hlf, Hcr, Hcomma, Hquote. cbn [orb].
    unfold within_limit in Hlen. simpl in Hlen.
    rewrite add_char_within by (simpl; lia). parser_norm.
    cbn [append].
    rewrite (plain_chars_in_field s (String c "") fields Hs); [reflexivity|].
    unfold within_limit. simpl. lia.
Qed.

Lemma after_field_comma (s : string) (fields : list string) :
  parse_process_char (after_field s fields) (Some COMMA)
  = Ok (mkParser START_FIELD "" (fields ++ [s])).
Proof.
  unfold after_field. destruct (needs_quotes s); [reflexivity|].
  now destruct s.
Qed.

Lemma after_field_crlf (s : string) (fields : list string) :
  parse_line (after_field s fields) CRLF
  = Ok (mkParser START_RECORD "" (fields ++ [s])).
Proof.
  unfold after_field. destruct (needs_quotes s); [reflexivity|].
  now destruct s.
Qed.

Lemma concat_cons2 (sep x y : string) (l : list string) :
  String.concat sep (x :: y :: l) = x ++ sep ++ String.concat sep (y :: l).
Proof. reflexivity. Qed.

Lemma written_fields_parsed (texts : list string) :
  texts <> [] ->
  Forall within_limit texts ->
  forall fields,
    parse_line (mkParser START_FIELD "" fields)
      (String.concat (String COMMA "") (map written texts) ++ CRLF)
    = Ok (mkParser START_RECORD "" (fields ++ texts)).
Proof.
  induction texts as [|s texts IH]; intros Hne Hlen fields; [now elim Hne|].
  inversion Hlen as [|? ? Hs Htexts]; subst.
  destruct texts as [|s2 texts].
  - cbn [map String.concat]. rewrite parse_line_app. unfold written.
    pose proof (written_field_parsed s fields Hs) as Hfield.
    rewrite Hfield. cbn [rbind].
    apply after_field_crlf.
  - cbn [map]. rewrite concat_cons2, !PyFacts.append_assoc.
    rewrite parse_line_app. unfold written at 1.
    pose proof (written_field_parsed s fields Hs) as Hfield.
    rewrite Hfield. cbn [rbind].
    cbn [append parse_line]. rewrite after_field_comma. cbn [rbind].
    cbn [map] in IH.
    rewrite (IH ltac:(discriminate) Htexts). now rewrite <- app_assoc.
Qed.

Lemma start_of_record (c : ascii) (line : string) :
  is_newline c = false ->
  parse_line parse_reset (String c line) =
  parse_line (mkParser START_FIELD "" []) (String c line).
Proof.
  intros Hc. cbn [parse_line parse_process_char parse_reset p_state].
  now rewrite Hc.
Qed.

Lemma written_starts (s : string) :
  s <> "" ->
  exists c rest, written s = String c rest /\ is_newline c = false.
Proof.
  intros Hne. unfold written. destruct (needs_quotes s) eqn:Hq.
  - unfold quoted. eexists _, _. split; reflexivity.
  - destruct s as [|c s]; [now elim Hne|]. exists c, s. split; [reflexivity|].
    simpl in Hq. apply orb_false_iff in Hq as [Hc _]. unfold is_special in Hc.
    apply orb_false_iff in Hc as [Hc Hlf]. apply orb_false_iff in Hc as [_ Hcr].
    unfold is_newline. now rewrite Hlf, Hcr.
Qed.

Section WrittenRecords.

Variable str_container : value -> string.

Lemma write_field_written (v : value) :
  write_field str_container v = written (field_text str_container v).
Proof. reflexivity. Qed.

(** A record that [csv.writer] wrote is read back as the texts of its
    fields. *)
Lemma writerow_parsed (row : list value) :
  Forall within_limit (map (field_text str_container) row) ->
  parse_line parse_reset (writerow str_container row)
  = Ok (mkParser START_RECORD "" (map (field_text str_container) row)).
Proof.
  intros Hlen. destruct row as [|v row]; [reflexivity|].
  unfold writerow.
  replace (map (write_field str_container) (v :: row))
    with (map written (map (field_text str_container) (v :: row)))
    by (rewrite map_map; reflexivity).
  set (texts := map (field_text str_container) (v :: row)) in *.
  assert (Hne : texts <> []) by discriminate.
  destruct (String.eqb_spec (String.concat (String COMMA "") (map written texts)) "")
    as [Hempty|Hbody].
  - (* one field, with no text *)
    unfold texts in *. cbn [map] in Hempty |- *.
    destruct row as [|v2 row].
    + cbn [map String.concat] in Hempty.
      assert (Htext : field_text str_container v = "").
      { unfold written in Hempty.
        destruct (needs_quotes (field_text str_container v));
          [discriminate Hempty|exact Hempty]. }
      rewrite Htext. reflexivity.
    + cbn [map] in Hempty. rewrite concat_cons2 in Hempty.
      destruct (written (field_text str_container v)); discriminate Hempty.
  - pose proof (written_fields_parsed texts Hne Hlen []) as Hparsed.
    cbn [app] in Hparsed. rewrite <- Hparsed.
    destruct (String.concat (String COMMA "") (map written texts) ++ CRLF)
      as [|c line] eqn:Hline.
    + destruct (String.concat (String COMMA "") (map written texts));
        discriminate Hline.
    + apply start_of_record.
      unfold texts in Hline. cbn [map] in Hline.
      destruct (String.eqb_spec (field_text str_container v) "") as [Htext|Htext].
      * rewrite Htext in Hline. change (written "") with "" in Hline.
        destruct row as [|v2 row].
        -- unfold texts in Hbody. cbn [map String.concat] in Hbody.
           rewrite Htext in Hbody. now elim Hbody.
        -- cbn [map] in Hline. rewrite concat_cons2 in Hline.
           cbn [append] in Hline. injection Hline as <- _. reflexivity.
      * destruct (written_starts _ Htext) as (c' & rest & Hw & Hc').
        destruct row as [|v2 row].
        -- cbn [map String.concat] in Hline. rewrite Hw in Hline.
           cbn [append] in Hline. injection Hline as <- _. exact Hc'.
        -- cbn [map] in Hline. rewrite concat_cons2, Hw in Hline.
           cbn [append] in Hline. injection Hline as <- _. exact Hc'.
Qed.

Lemma written_rows_read (rows : list (list value)) :
  Forall (fun row => Forall within_limit (map (field_text str_container) row)) rows ->
  csv_reader (map (writerow str_container) rows) parse_reset
  = Ok (map (map (field_text str_container)) rows).
Proof.
  induction 1 as [|row rows Hrow _ IH]; [reflexivity|].
  cbn [map csv_reader]. rewrite (writerow_parsed row Hrow). cbn [rbind p_state p_fields].
  now rewrite IH.
Qed.

End WrittenRecords.

Lemma row_set_fresh (d : csv_row) (k : string) (v : option string) :
  ~ In k (map fst d) -> row_set d k v = (d ++ [(k, v)])%list.
Proof.
  induction d as [|[k' v'] d IH]; intros Hfresh; [reflexivity|].
  cbn [row_set app]. cbn [map fst In] in Hfresh.
  destruct (String.eqb_spec k k') as [->|_]; [tauto|].
  rewrite IH; [reflexivity|tauto].
Qed.

Lemma dict_row_of_fieldnames (f : string -> string) (fieldnames : list string) :
  NoDup fieldnames ->
  forall d,
    (forall k, In k fieldnames -> ~ In k (map fst d)) ->
    dict_row fieldnames (map f fieldnames) d =
    (d ++ map (fun k => (k, Some (f k))) fieldnames)%list.
Proof.
  induction 1 as [|k fieldnames Hk _ IH]; intros d Hfresh.
  - simpl. now rewrite app_nil_r.
  - cbn [map dict_row]. rewrite row_set_fresh by (apply Hfresh; now left).
    rewrite IH.
    + now rewrite <- app_assoc.
    + intros k' Hk'. rewrite map_app, in_app_iff. cbn [map fst In].
      intros [Hin|[->|[]]]; [|exact (Hk Hk')].
      apply (Hfresh k'); [now right|exact Hin].
Qed.

Lemma filter_of_map {A B : Type} (f : B -> bool) (g : A -> B) (l : list A) :
  filter f (map g l) = map g (filter (fun x => f (g x)) l).
Proof.
  induction l as [|x l IH]; simpl; [reflexivity|].
  destruct (f (g x)); simpl; now rewrite IH.
Qed.

Lemma filter_all {A : Type} (f : A -> bool) (l : list A) :
  (forall x, In x l -> f x = true) -> filter f l = l.
Proof.
  induction l as [|x l IH]; intros Hall; [reflexivity|].
  cbn [filter]. rewrite (Hall x (or_introl eq_refl)).
  rewrite IH; [reflexivity|]. intros y Hy. apply Hall. now right.
Qed.

Lemma within_limit_empty : within_limit "".
Proof. unfold within_limit, FIELD_LIMIT. simpl. lia. Qed.

Section ReadBack.

Variable str_container : value -> string.
Variable read_file : string -> option string.

(** X23. The Backup Trigger reads back the report that the Reporter wrote.
    Let the scope and its id hold no comma, quote or line break, the keys
    and the values of the data rows no line break (and fit in a CSV
    field), let there be a key, and let the header line not start with
    "#".  Then on the file [_save_as_csv] writes, the [with] block of
    [_read_csv] runs its selection on exactly one row per data row whose
    line does not start with "#", in the order of the data, each binding
    every header to the text of the row's cell (the empty string for [None]
    and for a key the row does not have), whatever commas and quotes the
    cells hold.  The data rows whose line starts with "#" are lost. *)
Theorem report_is_read_back (data : list dict) (scope scope_id : string)
    (csv_file : string) (site_id : option string) :
  needs_quotes scope = false ->
  needs_quotes scope_id = false ->
  (forall entry k v,
     In entry data -> In (k, v) entry ->
     (has_break k = false /\ within_limit k) /\
     (has_break (field_text str_container v) = false /\
      within_limit (field_text str_container v))) ->
  let headers := first_seen (List.concat (map keys data)) in
  let data_line entry := writerow str_container (map (cell entry) headers) in
  let rows :=
    map (fun entry =>
           map (fun header =>
                  (header, Some (field_text str_container (cell entry header))))
             headers)
      (filter (fun entry => negb (is_comment_line (data_line entry))) data) in
  headers <> [] ->
  is_comment_line (writerow str_container (map VStr headers)) = false ->
  read_file csv_file = Some (_save_as_csv str_container data scope scope_id) ->
  read_report read_file csv_DictReader csv_file site_id =
  read_rows site_id rows [] [].
Proof.
  intros Hscope Hid Hdata headers data_line rows Hheaders Hheader Hfile.
  assert (Hbreaks : forall entry k v,
            In entry data -> In (k, v) entry ->
            has_break k = false /\ has_break (field_text str_container v) = false).
  { intros entry k v Hentry Hkv. destruct (Hdata entry k v Hentry Hkv). tauto. }
  destruct (save_as_csv_lines str_container data scope scope_id
              (no_quotes_no_break _ Hscope)
              (no_quotes_no_break _ Hid) Hbreaks)
    as [Hlines Hall].
  rewrite collect_headers_first_seen in Hlines, Hall.
  fold headers in Hlines, Hall.
  unfold read_report. rewrite Hfile, Hlines.
  rewrite (TriggerProofs.skip_comments_filter _ Hall). cbn [rbind].
  set (kept := filter (fun entry => negb (is_comment_line (data_line entry))) data)
    in *.
  assert (Hkept :
    filter (fun line => negb (is_comment_line line))
      (writerow str_container [VStr (comment_text scope scope_id)]
       :: writerow str_container (map VStr headers)
       :: map (fun entry => writerow str_container (row_cells headers entry)) data)
    = map (writerow str_container)
        (map VStr headers :: map (fun entry => map (cell entry) headers) kept)).
  { cbn [filter].
    destruct (ReporterProofs.comment_starts_with_hash scope scope_id)
      as (tail & Hhash).
    pose proof (ReporterProofs.comment_needs_no_quotes scope scope_id Hscope Hid)
      as Hplain.
    rewrite Hhash in Hplain |- *.
    rewrite (ReporterProofs.writerow_plain_field str_container _ _ Hplain).
    cbn [append is_comment_line]. change (Ascii.eqb HASH HASH) with true.
    cbn [negb]. rewrite Hheader. cbn [negb map]. f_equal.
    rewrite filter_of_map, map_map. reflexivity. }
  rewrite Hkept. unfold csv_DictReader.
  assert (Hheaders_in : forall h, In h headers ->
            exists entry v, In entry data /\ In (h, v) entry).
  { intros h Hh. unfold headers in Hh.
    apply (proj1 (ReporterProofs.first_seen_In _ _)) in Hh.
    apply in_concat in Hh as (ks & Hks & Hh).
    apply in_map_iff in Hks as (entry & <- & Hentry).
    unfold keys in Hh. apply in_map_iff in Hh as ([k v] & <- & Hkv).
    now exists entry, v. }
  rewrite written_rows_read.
  - cbn [rbind map]. rewrite !map_map. cbn [field_text]. rewrite map_id.
    f_equal. unfold rows. fold kept.
    rewrite filter_all.
    + rewrite map_map. apply map_ext. intros entry.
      rewrite map_map.
      rewrite (dict_row_of_fieldnames
                 (fun header => field_text str_container (cell entry header))
                 headers (ReporterProofs.first_seen_NoDup _) []);
        [reflexivity|]. intros k _ [].
    + intros record Hrecord. apply in_map_iff in Hrecord as (entry & <- & _).
      destruct headers; [now elim Hheaders|reflexivity].
  - constructor.
    + rewrite map_map. cbn [field_text]. rewrite map_id.
      apply Forall_forall. intros h Hh.
      destruct (Hheaders_in h Hh) as (entry & v & Hentry & Hkv).
      now destruct (Hdata entry h v Hentry Hkv) as [[_ Hlimit] _].
    + apply Forall_map. apply Forall_forall. intros entry Hentry.
      apply filter_In in Hentry as [Hentry _].
      rewrite map_map. apply Forall_map. apply Forall_forall. intros h _.
      unfold cell. destruct (lookup h entry) as [v|] eqn:Hlookup.
      * apply ReporterProofs.lookup_In in Hlookup.
        now destruct (Hdata entry h v Hentry Hlookup) as [_ [_ Hlimit]].
      * apply within_limit_empty.
Qed.

End ReadBack.

(** Two gateways to back up, one named "gw, east" and one named "#gw": the
    first comes back with its name, the second is lost. *)
Lemma report_is_read_back_witness :
  read_report (file_with (_save_as_csv (fun _ => "") gateways_to_back_up "org" "org-1"))
    csv_DictReader CSV_FILE None
  = Ok [[("cluster_name", Some "gw, east"); ("cluster_device_id", Some "dev-1");
         ("cluster_site_id", Some "site-1"); ("module_model", Some "SRX320");
         ("module_need_snapshot", Some "True")]].
Proof.
  rewrite (report_is_read_back (fun _ => "")
             (file_with (_save_as_csv (fun _ => "") gateways_to_back_up "org" "org-1"))
             gateways_to_back_up "org" "org-1" CSV_FILE None eq_refl eq_refl).
  - reflexivity.
  - intros entry k v Hentry Hkv. simpl in Hentry.
    destruct Hentry as [<-|[<-|[]]]; simpl in Hkv;
      repeat (destruct Hkv as [Hkv|Hkv];
              [injection Hkv as <- <-;
               repeat split; try reflexivity;
               unfold within_limit, FIELD_LIMIT; simpl; lia|]);
      now destruct Hkv.
  - discriminate.
  - reflexivity.
  - reflexivity.
Defined.

End ReportFileProofs.

(* ================================================================== *)
(** * Properties of org_admins_import.py *)
(* ================================================================== *)

Module AdminInviterProofs.
Import Py AdminInviter.

Local Open Scope string_scope.

Lemma invites_of_app (l l' : list event) :
  invites_of (l ++ l') = (invites_of l ++ invites_of l')%list.
Proof. induction l as [|[] l IH]; simpl; rewrite ?IH; reflexivity. Qed.

Lemma invites_of_rows (org : string) (privileges : list privilege)
    (rows : list (list string)) :
  invites_of (flat_map (row_events org privileges) rows) = map invitation rows.
Proof.
  induction rows as [|row rows IH]; simpl; [reflexivity|now rewrite IH].
Qed.

Lemma invites_of_run (org : string) (privileges : list privilege)
    (text : string) (rows : list (list string)) (tail : list event) :
  invites_of (EvPrint text :: flat_map (row_events org privileges) rows ++ tail) =
  (map invitation rows ++ invites_of tail)%list.
Proof.
  change (invites_of (EvPrint text :: ?l)) with (invites_of l).
  now rewrite invites_of_app, invites_of_rows.
Qed.

Section ScriptProofs.

Variable create_invite :
  nat -> string -> string -> list privilege -> string -> string -> result unit.
Variable admins_get : nat -> string -> result value.
Variable org : string.
Variable privileges : list privilege.




End ScriptProofs.


Section MoreScriptProofs.

Variable create_invite :
  nat -> string -> string -> list privilege -> string -> string -> result unit.
Variable admins_get : nat -> string -> result value.
Variable org : string.
Variable privileges : list privilege.

(** Complete rows whose calls return are all processed; the loop goes on
    with what follows them. *)
Lemma invite_loop_complete_rows (pre rest : list (list string)) :
  Forall (fun row => 3 <= List.length row) pre ->
  forall n trace,
    calls_return create_invite org privileges n pre ->
    invite_loop create_invite org privileges (pre ++ rest) n trace =
    invite_loop create_invite org privileges rest (n + List.length pre)
      (trace ++ flat_map (row_events org privileges) pre)%list.
Proof.
  induction 1 as [|row pre Hrow _ IH]; intros n trace Hcalls.
  - simpl. now rewrite Nat.add_0_r, app_nil_r.
  - destruct row as [|a [|b [|c row]]]; simpl in Hrow; try lia.
    pose proof (Hcalls 0 (a :: b :: c :: row) eq_refl) as Hcall.
    rewrite Nat.add_0_r in Hcall. cbn [field nth] in Hcall.
    cbn [app invite_loop row_index nth_error rbind]. rewrite Hcall.
    rewrite IH.
    + cbn [List.length flat_map row_events field nth].
      replace (S n + List.length pre) with (n + S (List.length pre)) by lia.
      now rewrite <- !app_assoc.
    + intros i r Hr. replace (S n + i) with (n + S i) by lia. now apply Hcalls.
Qed.




(** X14. When every row of the file has at least 3 columns and every call
    returns, one invitation is issued per row, in the order of the file,
    with the first three fields of the row (further columns are ignored);
    the handler does not run, so its message is not printed, and the script
    prints the admin list and exits with code 0 when fetching the list
    returns. *)
Theorem complete_file_invites_every_row (path : string) (rows : list (list string)) :
  Forall (fun row => 3 <= List.length row) rows ->
  calls_return create_invite org privileges 0 rows ->
  let run := import_admins create_invite admins_get org privileges path (Some rows) in
  run =
    (let done :=
       (EvPrint ("Opening CSV file " ++ path)
        :: flat_map (row_events org privileges) rows
        ++ [EvAdminsGet org])%list in
     match admins_get (List.length rows) org with
     | Ok admins => ((done ++ [EvTabulate admins])%list, ExitCode 0)
     | Raise e => (done, Uncaught e)
     end) /\
  invites_of (fst run) = map invitation rows.
Proof.
  intros Hrows Hcalls run.
  assert (Hrun : run =
    (let done :=
       (EvPrint ("Opening CSV file " ++ path)
        :: flat_map (row_events org privileges) rows
        ++ [EvAdminsGet org])%list in
     match admins_get (List.length rows) org with
     | Ok admins => ((done ++ [EvTabulate admins])%list, ExitCode 0)
     | Raise e => (done, Uncaught e)
     end)).
  { unfold run, import_admins.
    rewrite <- (app_nil_r rows) at 1.
    rewrite (invite_loop_complete_rows rows [] Hrows 0 _ Hcalls).
    cbn [invite_loop Nat.add app].
    destruct (admins_get (List.length rows) org);
      cbn [app]; rewrite <- ?app_assoc; cbn [app]; reflexivity. }
  split; [exact Hrun|].
  rewrite Hrun. cbv zeta.
  destruct (admins_get (List.length rows) org); cbn [fst];
    rewrite ?invites_of_app, invites_of_run; simpl; now rewrite ?app_nil_r.
Qed.

(** X15. When the call for a complete row raises, after rows whose calls
    returned, the loop is left at that row: the rows before it and the row
    itself have had their call, no row after it has one, and the handler
    prints the same message as for a file that does not open, "Error while
    opening the CSV file... Aborting", before the admin list is fetched. *)
Theorem failed_call_aborts_the_import (path : string) (pre : list (list string))
    (row : list string) (post : list (list string)) (e : exn) :
  Forall (fun row => 3 <= List.length row) pre ->
  3 <= List.length row ->
  calls_return create_invite org privileges 0 pre ->
  create_invite (List.length pre) org (field row 0) privileges
    (field row 1) (field row 2) = Raise e ->
  let run := import_admins create_invite admins_get org privileges path
               (Some (pre ++ row :: post)%list) in
  run =
    (let done :=
       (EvPrint ("Opening CSV file " ++ path)
        :: flat_map (row_events org privileges) (pre ++ [row])
        ++ [EvPrint ERROR_MESSAGE; EvAdminsGet org])%list in
     match admins_get (S (List.length pre)) org with
     | Ok admins => ((done ++ [EvTabulate admins])%list, ExitCode 0)
     | Raise e' => (done, Uncaught e')
     end) /\
  invites_of (fst run) = map invitation (pre ++ [row]).
Proof.
  intros Hpre Hrow Hcalls Hraise run.
  assert (Hrun : run =
    (let done :=
       (EvPrint ("Opening CSV file " ++ path)
        :: flat_map (row_events org privileges) (pre ++ [row])
        ++ [EvPrint ERROR_MESSAGE; EvAdminsGet org])%list in
     match admins_get (S (List.length pre)) org with
     | Ok admins => ((done ++ [EvTabulate admins])%list, ExitCode 0)
     | Raise e' => (done, Uncaught e')
     end)).
  { unfold run, import_admins.
    rewrite (invite_loop_complete_rows pre (row :: post) Hpre 0 _ Hcalls).
    destruct row as [|a [|b [|c row]]]; simpl in Hrow; try lia.
    cbn [field nth] in Hraise.
    cbn [invite_loop row_index nth_error rbind Nat.add]. rewrite Hraise.
    rewrite flat_map_app. cbn [flat_map row_events field nth].
    destruct (admins_get (S (List.length pre)) org);
      cbn [app]; rewrite <- ?app_assoc; cbn [app]; rewrite ?app_nil_r;
      reflexivity. }
  split; [exact Hrun|].
  rewrite Hrun. cbv zeta.
  destruct (admins_get (S (List.length pre)) org); cbn [fst];
    rewrite ?invites_of_app, invites_of_run; simpl; now rewrite ?app_nil_r.
Qed.

End MoreScriptProofs.

(** A file of two complete rows, the second with a fourth column. *)
Lemma complete_file_invites_every_row_witness :
  invites_of
    (fst (import_admins (fun _ _ _ _ _ _ => Ok tt) (fun _ _ => Ok (VList []))
            "org-1" sample_privileges "admins.csv"
            (Some [["ann@example.org"; "Ann"; "Lee"];
                   ["cy@example.org"; "Cy"; "Young"; "extra"]])))
  = [("ann@example.org", "Ann", "Lee"); ("cy@example.org", "Cy", "Young")].
Proof.
  apply (complete_file_invites_every_row (fun _ _ _ _ _ _ => Ok tt)
           (fun _ _ => Ok (VList [])) "org-1" sample_privileges "admins.csv"
           [["ann@example.org"; "Ann"; "Lee"];
            ["cy@example.org"; "Cy"; "Young"; "extra"]]).
  - repeat constructor.
  - intros i row _. reflexivity.
Defined.

(** A service that refuses the second invitation. *)
Lemma failed_call_aborts_the_import_witness :
  invites_of
    (fst (import_admins
            (fun n _ _ _ _ _ => match n with 1 => Raise ApiError | _ => Ok tt end)
            (fun _ _ => Ok (VList []))
            "org-1" sample_privileges "admins.csv"
            (Some [["ann@example.org"; "Ann"; "Lee"];
                   ["bo@example.org"; "Bo"; "Diaz"];
                   ["cy@example.org"; "Cy"; "Young"]])))
  = [("ann@example.org", "Ann", "Lee"); ("bo@example.org", "Bo", "Diaz")].
Proof.
  apply (failed_call_aborts_the_import
           (fun n _ _ _ _ _ => match n with 1 => Raise ApiError | _ => Ok tt end)
           (fun _ _ => Ok (VList [])) "org-1" sample_privileges "admins.csv"
           [["ann@example.org"; "Ann"; "Lee"]] ["bo@example.org"; "Bo"; "Diaz"]
           [["cy@example.org"; "Cy"; "Young"]] ApiError).
  - repeat constructor.
  - simpl. lia.
  - intros [|i] row Hrow.
    + reflexivity.
    + destruct i; discriminate Hrow.
  - reflexivity.
Defined.

(** ** The questions before the import *)

Lemma role_has_a_name (role : string) :
  str_dict_has roles role = true ->
  exists name, str_dict_get roles role = Ok name /\ In name ROLE_NAMES.
Proof.
  unfold str_dict_has, roles, ROLE_NAMES. cbn [existsb str_dict_get fst map snd].
  destruct (String.eqb "s" role); [intros _; eexists; split; [reflexivity|cbn; tauto]|].
  destruct (String.eqb "n" role); [intros _; eexists; split; [reflexivity|cbn; tauto]|].
  destruct (String.eqb "o" role); [intros _; eexists; split; [reflexivity|cbn; tauto]|].
  destruct (String.eqb "h" role); [intros _; eexists; split; [reflexivity|cbn; tauto]|].
  discriminate.
Qed.


Lemma ask_role_skips (rejected : list string) :
  forall role key rest,
    str_dict_has roles role = false ->
    Forall (fun answer => str_dict_has roles answer = false) rejected ->
    str_dict_has roles key = true ->
    ask_role (rejected ++ key :: rest) role = Some (key, rest).
Proof.
  induction rejected as [|answer rejected IH]; intros role key rest Hrole Hrej Hkey.
  - cbn [app ask_role]. rewrite Hrole. destruct rest; cbn [ask_role]; now rewrite Hkey.
  - cbn [app ask_role]. rewrite Hrole. inversion Hrej as [|? ? Hanswer Hrej']; subst.
    now apply IH.
Qed.

Section SetupProofs.

Variable org : string.
Variable select_site : list string.
Variable org_sites : result (list string).

Lemma site_privileges_named (role name : string) (site_ids : list string) :
  str_dict_get roles role = Ok name ->
  site_privileges org role site_ids
  = Ok (map (fun site => mkPrivilege "site" org site name) site_ids).
Proof.
  intros Hname. induction site_ids as [|site site_ids IH]; [reflexivity|].
  cbn [site_privileges map]. rewrite Hname. cbn [rbind]. now rewrite IH.
Qed.

Lemma org_privilege_named (role name : string) :
  str_dict_get roles role = Ok name ->
  org_privilege org org_sites role
  = match org_sites with
    | Ok (first :: _) => Ok [mkPrivilege "org" org first name]
    | Ok [] => Raise IndexError
    | Raise e => Raise e
    end.
Proof.
  intros Hname. unfold org_privilege.
  destruct org_sites as [[|first others]|e]; cbn [rbind]; try reflexivity.
  now rewrite Hname.
Qed.

Lemma ask_scope_skips (role : string) (rejected : list string) :
  forall all_sites rest,
    Forall (fun answer => is_yes answer = false /\ is_no answer = false) rejected ->
    ask_scope org select_site org_sites role (rejected ++ all_sites :: rest)
    = ask_scope org select_site org_sites role (all_sites :: rest).
Proof.
  induction rejected as [|answer rejected IH]; intros all_sites rest Hrej;
    [reflexivity|].
  inversion Hrej as [|? ? [Hyes Hno] Hrej']; subst.
  cbn [app ask_scope]. rewrite Hyes, Hno. now apply IH.
Qed.


(** X22. Each question is asked again until it gets an answer it accepts,
    the answers in between being dropped: the first answer that is a key of
    [roles] (in lower case, as written there) sets the role, and the first
    answer after it that is [y], [n] (in either case) or empty sets the
    scope.  With [y] there is one privilege per selected site; otherwise
    the privilege of the organisation, or the exception of listing its
    sites.  The answers after these stay unread. *)
Theorem questions_are_repeated_until_answered
    (rejected_roles rejected_scopes rest : list string) (key all_sites : string) :
  Forall (fun answer => str_dict_has roles answer = false) rejected_roles ->
  str_dict_has roles key = true ->
  Forall (fun answer => is_yes answer = false /\ is_no answer = false)
    rejected_scopes ->
  is_yes all_sites || is_no all_sites = true ->
  exists name,
    str_dict_get roles key = Ok name /\
    ask_privileges org select_site org_sites
      (rejected_roles ++ key :: rejected_scopes ++ all_sites :: rest)
    = if is_yes all_sites then
        SetupDone (map (fun site => mkPrivilege "site" org site name) select_site) rest
      else
        match org_sites with
        | Ok (first :: _) => SetupDone [mkPrivilege "org" org first name] rest
        | Ok [] => SetupRaises IndexError
        | Raise e => SetupRaises e
        end.
Proof.
  intros Hroles Hkey Hscopes Hanswer.
  destruct (role_has_a_name key Hkey) as (name & Hname & _).
  exists name. split; [exact Hname|].
  unfold ask_privileges.
  rewrite (ask_role_skips rejected_roles "" key _ eq_refl Hroles Hkey).
  rewrite (ask_scope_skips key rejected_scopes all_sites rest Hscopes).
  cbn [ask_scope]. destruct (is_yes all_sites).
  - now rewrite (site_privileges_named key name select_site Hname).
  - cbn [orb] in Hanswer. rewrite Hanswer.
    rewrite (org_privilege_named key name Hname).
    now destruct org_sites as [[|first others]|e].
Qed.

End SetupProofs.

Lemma questions_are_repeated_until_answered_witness :
  exists name,
    str_dict_get roles "n" = Ok name /\
    ask_privileges "org-1" ["site-1"; "site-2"] (Ok [])
      ["S"; "admin"; "n"; "yes"; "maybe"; "N"; "y"]
    = SetupRaises IndexError.
Proof.
  apply (questions_are_repeated_until_answered "org-1" ["site-1"; "site-2"] (Ok [])
           ["S"; "admin"] ["yes"; "maybe"] ["y"] "n" "N").
  - repeat (apply Forall_cons; [reflexivity|]). apply Forall_nil.
  - reflexivity.
  - repeat (apply Forall_cons; [split; reflexivity|]). apply Forall_nil.
  - reflexivity.
Defined.

End AdminInviterProofs.
